(** * Guardian Angel arrhythmia inference service: validator, HRV feature
      extraction and predictor

    A shallow embedding of
      - [arrhythmia_inference_service/core/validator.py]
      - [arrhythmia_inference_service/core/feature_extractor.py]
      - [arrhythmia_inference_service/core/predictor.py]
    together with the properties the specification states about them.

    Conventions of the embedding.
      - Python [int] is [Z]; [len] is [Z.of_nat (length _)].
      - A Python [dict] is an insertion-ordered association list with unique
        keys ([PyData.dict]).
      - Code that can raise returns [PyData.outcome]; a [try/except Exception]
        block is a [match] on it.
      - A [float] is an extended real [Numeric.num]: a finite real, one of the
        two infinities, or NaN.  Arithmetic follows IEEE-754 for the special
        values; rounding, overflow and the sign of zero are not modelled.
        This is the arithmetic in which the formulas are stated.  Where the
        rounding of a reduction decides an outcome, the time-domain extractor
        is embedded a second time over the kernel's binary64 floats
        ([Binary64]), and statements about discrete outcomes are made for
        integer-valued intervals, on which the two arithmetics agree.
      - [scipy.interpolate.interp1d], [scipy.signal.welch] and the XGBoost
        booster are external: they are parameters of the functions that call
        them. *)

From Stdlib Require Import String ZArith QArith List Bool Lia Reals Lra Sorted.
From Stdlib Require Floats.
Import ListNotations.

(* ================================================================== *)
(** ** Python data: outcomes, ordered dictionaries, subsequences *)
(* ================================================================== *)

Module PyData.

(** The exceptions the modelled code can meet. *)
Inductive exn : Type :=
| TypeError
| ValueError
| IndexError
| OverflowError
| XGBoostError
| LibraryError.

(** The result of running code that either returns or raises. *)
Inductive outcome (A : Type) : Type :=
| Returned (a : A)
| Raised (e : exn).

Arguments Returned {A} a.
Arguments Raised {A} e.

Definition bind {A B : Type} (m : outcome A) (k : A -> outcome B) : outcome B :=
  match m with
  | Returned a => k a
  | Raised e => Raised e
  end.

Notation "x <- m ;; k" := (bind m (fun x => k))
  (at level 61, m at next level, right associativity).

(** [try: body  except Exception: handler]. *)
Definition try_except {A : Type} (body : outcome A) (handler : A) : A :=
  match body with
  | Returned a => a
  | Raised _ => handler
  end.

(** An insertion-ordered dictionary with string keys. *)
Definition dict (V : Type) : Type := list (string * V).

Fixpoint dict_get {V : Type} (k : string) (d : dict V) : option V :=
  match d with
  | [] => None
  | (k', v) :: d' => if String.eqb k k' then Some v else dict_get k d'
  end.

(** [d[k] = v]: an existing key keeps its position, a new key goes last. *)
Fixpoint dict_set {V : Type} (k : string) (v : V) (d : dict V) : dict V :=
  match d with
  | [] => [(k, v)]
  | (k', v') :: d' =>
      if String.eqb k k' then (k', v) :: d' else (k', v') :: dict_set k v d'
  end.

(** [d.update(other)]. *)
Definition dict_update {V : Type} (d other : dict V) : dict V :=
  fold_left (fun acc kv => dict_set (fst kv) (snd kv) acc) other d.

(** [{k1: v1, ..., kn: vn}]: a dictionary display inserts left to right. *)
Definition dict_literal {V : Type} (items : list (string * V)) : dict V :=
  dict_update [] items.

Definition dict_keys {V : Type} (d : dict V) : list string := map fst d.
Definition dict_values {V : Type} (d : dict V) : list V := map snd d.

(** [s] is obtained from [l] by deleting elements, order kept. *)
Inductive Subsequence {A : Type} : list A -> list A -> Prop :=
| sub_nil : Subsequence [] []
| sub_keep : forall x s l, Subsequence s l -> Subsequence (x :: s) (x :: l)
| sub_drop : forall x s l, Subsequence s l -> Subsequence s (x :: l).

Lemma filter_Subsequence {A : Type} (p : A -> bool) (l : list A) :
  Subsequence (filter p l) l.
Proof.
  induction l as [|x l IH]; simpl.
  - constructor.
  - destruct (p x); now constructor.
Qed.

Lemma filter_none {A : Type} (p : A -> bool) (l : list A) :
  (forall x, In x l -> p x = false) -> filter p l = [].
Proof.
  induction l as [|x l IH]; intros H; [reflexivity|].
  simpl. rewrite (H x (or_introl eq_refl)).
  apply IH. intros y Hy. apply H. now right.
Qed.

Lemma last_cons_default {A : Type} (l : list A) (x d : A) :
  last (x :: l) d = last l x.
Proof.
  revert x d. induction l as [|y l IH]; intros x d; [reflexivity|].
  change (last (x :: y :: l) d) with (last (y :: l) d).
  now rewrite (IH y d), (IH y x).
Qed.

Lemma firstn_app_short {A : Type} (n : nat) (l : list A) (x : A) :
  (length l < n)%nat -> firstn n (l ++ [x]) = firstn n l ++ [x].
Proof.
  intros H. rewrite firstn_app.
  destruct (n - length l)%nat as [|k] eqn:Hk; [lia|].
  simpl. now rewrite firstn_nil.
Qed.

Lemma firstn_app_full {A : Type} (n : nat) (l : list A) (x : A) :
  (n <= length l)%nat -> firstn n (l ++ [x]) = firstn n l.
Proof.
  intros H. rewrite firstn_app.
  replace (n - length l)%nat with 0%nat by lia.
  simpl. now rewrite app_nil_r.
Qed.

(** *** Windows of a sequence and counting pairs *)

(** The windows of length [L] of [l] at the offsets [0 .. count - 1]. *)
Definition windows {A : Type} (l : list A) (L count : nat) : list (list A) :=
  map (fun i => firstn L (skipn i l)) (seq 0 count).

Definition count_if {A : Type} (p : A -> bool) (l : list A) : Z :=
  Z.of_nat (length (filter p l)).

(** The pairs of positions [i < j] whose elements are related by [P]. *)
Fixpoint unordered_count {A : Type} (P : A -> A -> bool) (ts : list A) : Z :=
  match ts with
  | [] => 0
  | t :: later => count_if (P t) later + unordered_count P later
  end.

(** Every element of a list together with all the others. *)
Fixpoint select {A : Type} (l : list A) : list (A * list A) :=
  match l with
  | [] => []
  | x :: rest =>
      (x, rest) :: map (fun s => (fst s, x :: snd s)) (select rest)
  end.

Definition Zsum (l : list Z) : Z := fold_right Z.add 0%Z l.

(** The ordered pairs of distinct positions whose elements are related by
    [P]: each element against all the others. *)
Definition ordered_count {A : Type} (P : A -> A -> bool) (ts : list A) : Z :=
  Zsum (map (fun s => count_if (P (fst s)) (snd s)) (select ts)).

Lemma select_fst {A : Type} (l : list A) : map fst (select l) = l.
Proof.
  induction l as [|x l IH]; [reflexivity|].
  cbn [select map fst]. f_equal. rewrite map_map.
  etransitivity; [|exact IH]. apply map_ext. intros s. reflexivity.
Qed.

Lemma count_if_cons {A : Type} (p : A -> bool) (x : A) (l : list A) :
  count_if p (x :: l) = ((if p x then 1 else 0) + count_if p l)%Z.
Proof.
  unfold count_if. cbn [filter]. destruct (p x); cbn [length]; lia.
Qed.

Lemma count_if_ext {A : Type} (p q : A -> bool) (l : list A) :
  (forall x, In x l -> p x = q x) -> count_if p l = count_if q l.
Proof.
  intros H. unfold count_if. do 2 f_equal.
  induction l as [|x l IH]; [reflexivity|].
  cbn [filter]. rewrite (H x (or_introl eq_refl)).
  rewrite IH; [reflexivity|]. intros y Hy. apply H. now right.
Qed.

Lemma Zsum_indicator {A : Type} (p : A -> bool) (l : list A) :
  Zsum (map (fun x => if p x then 1 else 0)%Z l) = count_if p l.
Proof.
  induction l as [|x l IH]; [reflexivity|].
  cbn [map Zsum fold_right]. rewrite count_if_cons.
  unfold Zsum in IH. now rewrite IH.
Qed.

Lemma Zsum_add {A : Type} (f g : A -> Z) (l : list A) :
  Zsum (map (fun x => f x + g x)%Z l) = (Zsum (map f l) + Zsum (map g l))%Z.
Proof.
  unfold Zsum. induction l as [|x l IH]; [reflexivity|].
  cbn [map fold_right]. rewrite IH. lia.
Qed.

(** For a symmetric relation the ordered pairs are twice the unordered. *)
Lemma ordered_count_twice {A : Type} (P : A -> A -> bool) (ts : list A) :
  (forall a b, P a b = P b a) ->
  ordered_count P ts = (2 * unordered_count P ts)%Z.
Proof.
  intros Hsym. unfold ordered_count.
  induction ts as [|x l IH]; [reflexivity|].
  cbn [select map fst snd unordered_count Zsum fold_right].
  rewrite map_map. cbn [fst snd].
  replace (map (fun s => count_if (P (fst s)) (x :: snd s)) (select l))
    with (map (fun s => (if P (fst s) x then 1 else 0)
                        + count_if (P (fst s)) (snd s))%Z (select l))
    by (apply map_ext; intros s; now rewrite count_if_cons).
  fold (Zsum (map (fun s => (if P (fst s) x then 1 else 0)
                            + count_if (P (fst s)) (snd s))%Z (select l))).
  rewrite (Zsum_add (fun s => if P (fst s) x then 1 else 0)%Z
                    (fun s => count_if (P (fst s)) (snd s))).
  rewrite IH.
  replace (map (fun s => if P (fst s) x then 1 else 0)%Z (select l))
    with (map (fun y => if P y x then 1 else 0)%Z (map fst (select l)))
    by now rewrite map_map.
  rewrite select_fst, Zsum_indicator.
  rewrite (count_if_ext (fun y => P y x) (P x)) by (intros y _; apply Hsym).
  lia.
Qed.

Lemma unordered_count_nonneg {A : Type} (P : A -> A -> bool) (ts : list A) :
  (0 <= unordered_count P ts)%Z.
Proof.
  induction ts as [|x l IH]; [reflexivity|].
  cbn [unordered_count]. unfold count_if. lia.
Qed.



Lemma windows_map {A B : Type} (f : A -> B) (l : list A) (L count : nat) :
  windows (map f l) L count = map (map f) (windows l L count).
Proof.
  unfold windows. rewrite map_map. apply map_ext.
  intros i. now rewrite skipn_map, firstn_map.
Qed.


Lemma count_if_nonneg {A : Type} (p : A -> bool) (l : list A) :
  (0 <= count_if p l)%Z.
Proof. unfold count_if. lia. Qed.

Lemma count_if_app {A : Type} (p : A -> bool) (l1 l2 : list A) :
  count_if p (l1 ++ l2) = (count_if p l1 + count_if p l2)%Z.
Proof.
  unfold count_if. rewrite filter_app, length_app. lia.
Qed.

Lemma count_if_map_le {A B : Type} (f : A -> B) (p : A -> bool) (q : B -> bool)
    (l : list A) :
  (forall a, p a = true -> q (f a) = true) ->
  (count_if p l <= count_if q (map f l))%Z.
Proof.
  intros H. induction l as [|x l IH]; [reflexivity|].
  cbn [map]. rewrite !count_if_cons.
  destruct (p x) eqn:E; [rewrite (H x E); lia|].
  destruct (q (f x)); lia.
Qed.

Lemma unordered_count_app_le {A : Type} (P : A -> A -> bool) (l1 l2 : list A) :
  (unordered_count P l1 <= unordered_count P (l1 ++ l2))%Z.
Proof.
  induction l1 as [|x l1 IH]; cbn [app unordered_count].
  - apply unordered_count_nonneg.
  - rewrite count_if_app. pose proof (count_if_nonneg (P x) l2). lia.
Qed.

Lemma unordered_count_map_le {A B : Type} (f : A -> B)
    (P : A -> A -> bool) (Q : B -> B -> bool) (ts : list A) :
  (forall a b, P a b = true -> Q (f a) (f b) = true) ->
  (unordered_count P ts <= unordered_count Q (map f ts))%Z.
Proof.
  intros H. induction ts as [|x l IH]; [reflexivity|].
  cbn [map unordered_count].
  pose proof (count_if_map_le f (P x) (Q (f x)) l (H x)). lia.
Qed.

Lemma windows_succ {A : Type} (l : list A) (L count : nat) :
  windows l L (S count) = windows l L count ++ [firstn L (skipn count l)].
Proof.
  unfold windows. rewrite seq_S, map_app. reflexivity.
Qed.

Lemma windows_shorten {A : Type} (l : list A) (m count : nat) :
  map (firstn m) (windows l (m + 1) count) = windows l m count.
Proof.
  unfold windows. rewrite map_map. apply map_ext. intros i.
  rewrite firstn_firstn. f_equal. lia.
Qed.

Lemma windows_none {A : Type} (l : list A) (L : nat) : windows l L 0 = [].
Proof. reflexivity. Qed.

End PyData.

(* ================================================================== *)
(** ** core/validator.py *)
(* ================================================================== *)

Module Validator.
Import PyData.

Local Open Scope string_scope.
Local Open Scope list_scope.
Local Open Scope Z_scope.

(** The thresholds [InputValidator.__init__] stores. *)
Record Settings : Type := {
  min_rr_count : Z;
  max_rr_count : Z;
  min_rr_value_ms : Z;
  max_rr_value_ms : Z;
  min_window_duration_s : Z;
  max_window_duration_s : Z
}.

(** The defaults of [config.Settings]. *)
Definition settings : Settings := {|
  min_rr_count := 40;
  max_rr_count := 200;
  min_rr_value_ms := 200;
  max_rr_value_ms := 2000;
  min_window_duration_s := 30;
  max_window_duration_s := 120
|}.

(** A [datetime]: an instant in microseconds and whether [tzinfo] is set. *)
Record datetime : Type := {
  instant_us : Z;
  tz_aware : bool
}.

(** [(end - start).total_seconds()]; subtracting an aware and a naive
    datetime raises [TypeError]. *)
Definition total_seconds_between (start_ts end_ts : datetime) : outcome Q :=
  if Bool.eqb (tz_aware start_ts) (tz_aware end_ts)
  then Returned (Qmake (instant_us end_ts - instant_us start_ts) 1000000)
  else Raised TypeError.

(** Values stored in [error_details]. *)
Inductive detail : Type :=
| DInt (z : Z)
| DFloat (q : Q)
| DList (l : list Z).

(** [ValidationResult]; the human-readable [error_message], an f-string over
    the same numbers as [error_details], is left out. *)
Record ValidationResult : Type := {
  is_valid : bool;
  error_code : option string;
  error_details : option (dict detail);
  cleaned_rr_intervals : option (list Z);
  window_duration_s : option Q
}.

Definition rejection (code : string) (details : list (string * detail))
  : ValidationResult := {|
  is_valid := false;
  error_code := Some code;
  error_details := Some (dict_literal details);
  cleaned_rr_intervals := None;
  window_duration_s := None
|}.

Definition len (l : list Z) : Z := Z.of_nat (length l).

Definition Qltb (a b : Q) : bool := negb (Qle_bool b a).

(** [_validate_count]. *)
Definition _validate_count (self : Settings) (rr_intervals_ms : list Z)
  : ValidationResult :=
  let count := len rr_intervals_ms in
  if count <? min_rr_count self then
    rejection "INSUFFICIENT_DATA"
      [("received_count", DInt count);
       ("minimum_required", DInt (min_rr_count self))]
  else if count >? max_rr_count self then
    rejection "EXCESSIVE_DATA"
      [("received_count", DInt count);
       ("maximum_allowed", DInt (max_rr_count self))]
  else
    {| is_valid := true; error_code := None; error_details := None;
       cleaned_rr_intervals := None; window_duration_s := None |}.

(** [min_rr_value_ms <= rr <= max_rr_value_ms]. *)
Definition in_range (self : Settings) (rr : Z) : bool :=
  (min_rr_value_ms self <=? rr) && (rr <=? max_rr_value_ms self).

(** The three accumulators of the loop of [_validate_values]. *)
Record values_state : Type := {
  cleaned : list Z;
  invalid_count : Z;
  invalid_values : list Z
}.

Definition values_init : values_state :=
  {| cleaned := []; invalid_count := 0; invalid_values := [] |}.

(** One iteration of [for rr in rr_intervals_ms]. *)
Definition values_step (self : Settings) (st : values_state) (rr : Z)
  : values_state :=
  if in_range self rr then
    {| cleaned := cleaned st ++ [rr];
       invalid_count := invalid_count st;
       invalid_values := invalid_values st |}
  else
    {| cleaned := cleaned st;
       invalid_count := invalid_count st + 1;
       invalid_values :=
         if len (invalid_values st) <? 5
         then invalid_values st ++ [rr]
         else invalid_values st |}.

Definition values_loop (self : Settings) (rr_intervals_ms : list Z)
  : values_state :=
  fold_left (values_step self) rr_intervals_ms values_init.

(** [_validate_values]; [invalid_count > len(rr_intervals_ms) * 0.5] compares
    an [int] with a [float], which Python does exactly. *)
Definition _validate_values (self : Settings) (rr_intervals_ms : list Z)
  : ValidationResult :=
  let st := values_loop self rr_intervals_ms in
  if Qltb (inject_Z (len rr_intervals_ms) * (1 # 2)) (inject_Z (invalid_count st))
  then
    rejection "INVALID_RR_VALUES"
      [("invalid_count", DInt (invalid_count st));
       ("total_count", DInt (len rr_intervals_ms));
       ("valid_range_ms",
        DList [min_rr_value_ms self; max_rr_value_ms self]);
       ("sample_invalid_values", DList (invalid_values st))]
  else
    {| is_valid := true; error_code := None; error_details := None;
       cleaned_rr_intervals := Some (cleaned st);
       window_duration_s := None |}.

(** [_validate_window]. *)
Definition _validate_window (self : Settings) (start_timestamp end_timestamp : datetime)
  : outcome ValidationResult :=
  duration <-
    (if tz_aware start_timestamp && tz_aware end_timestamp
     then total_seconds_between start_timestamp end_timestamp
     else total_seconds_between start_timestamp end_timestamp) ;;
  if Qltb duration (inject_Z (min_window_duration_s self)) then
    Returned (rejection "WINDOW_TOO_SHORT"
      [("window_duration_s", DFloat duration);
       ("minimum_required_s", DInt (min_window_duration_s self))])
  else if Qltb (inject_Z (max_window_duration_s self)) duration then
    Returned (rejection "WINDOW_TOO_LONG"
      [("window_duration_s", DFloat duration);
       ("maximum_allowed_s", DInt (max_window_duration_s self))])
  else
    Returned {| is_valid := true; error_code := None; error_details := None;
                cleaned_rr_intervals := None;
                window_duration_s := Some duration |}.

(** [cleaned_rr = values_result.cleaned_rr_intervals]; [len(None)] raises. *)
Definition the_cleaned (r : ValidationResult) : outcome (list Z) :=
  match cleaned_rr_intervals r with
  | Some l => Returned l
  | None => Raised TypeError
  end.

(** [InputValidator.validate]. *)
Definition validate (self : Settings) (rr_intervals_ms : list Z)
    (start_timestamp end_timestamp : datetime) : outcome ValidationResult :=
  let count_result := _validate_count self rr_intervals_ms in
  if negb (is_valid count_result) then Returned count_result else
  let values_result := _validate_values self rr_intervals_ms in
  if negb (is_valid values_result) then Returned values_result else
  cleaned_rr <- the_cleaned values_result ;;
  if len cleaned_rr <? min_rr_count self then
    Returned (rejection "INSUFFICIENT_VALID_DATA"
      [("original_count", DInt (len rr_intervals_ms));
       ("valid_count", DInt (len cleaned_rr));
       ("minimum_required", DInt (min_rr_count self))])
  else
  window_result <- _validate_window self start_timestamp end_timestamp ;;
  if negb (is_valid window_result) then Returned window_result else
  Returned {| is_valid := true; error_code := None; error_details := None;
              cleaned_rr_intervals := Some cleaned_rr;
              window_duration_s := window_duration_s window_result |}.

(** *** The loop of [_validate_values] computes two filters *)

Definition out_of_range (self : Settings) (rr : Z) : bool :=
  negb (in_range self rr).

Lemma values_loop_cleaned (self : Settings) (l : list Z) (st : values_state) :
  cleaned (fold_left (values_step self) l st)
  = cleaned st ++ filter (in_range self) l.
Proof.
  revert st. induction l as [|x l IH]; intros st; simpl.
  - now rewrite app_nil_r.
  - rewrite IH. unfold values_step.
    destruct (in_range self x); simpl.
    + now rewrite <- app_assoc.
    + reflexivity.
Qed.

Lemma values_loop_count (self : Settings) (l : list Z) (st : values_state) :
  invalid_count (fold_left (values_step self) l st)
  = invalid_count st + len (filter (out_of_range self) l).
Proof.
  revert st. induction l as [|x l IH]; intros st; simpl.
  - unfold len; simpl; lia.
  - rewrite IH. unfold values_step, out_of_range.
    destruct (in_range self x); simpl; unfold len; simpl length; lia.
Qed.

(** The diagnostic sample is the first five of all rejected values seen. *)
Lemma values_loop_sample (self : Settings) (l bad : list Z) (st : values_state) :
  invalid_values st = firstn 5 bad ->
  invalid_values (fold_left (values_step self) l st)
  = firstn 5 (bad ++ filter (out_of_range self) l).
Proof.
  revert bad st. induction l as [|x l IH]; intros bad st Hst; simpl.
  - now rewrite app_nil_r.
  - unfold out_of_range at 1. destruct (in_range self x) eqn:Hx; simpl.
    + apply IH. unfold values_step. now rewrite Hx.
    + replace (bad ++ x :: filter (out_of_range self) l)
        with ((bad ++ [x]) ++ filter (out_of_range self) l)
        by now rewrite <- app_assoc.
      apply IH. unfold values_step. rewrite Hx.
      cbn [invalid_values]. rewrite Hst. unfold len.
      destruct (Z.ltb_spec (Z.of_nat (length (firstn 5 bad))) 5) as [Hlt|Hge].
      * rewrite length_firstn in Hlt.
        rewrite firstn_app_short by lia.
        reflexivity.
      * rewrite length_firstn in Hge.
        rewrite firstn_app_full by lia.
        reflexivity.
Qed.

Lemma Qltb_lt (a b : Q) : Qltb a b = true <-> (a < b)%Q.
Proof.
  unfold Qltb. rewrite negb_true_iff, <- not_true_iff_false, Qle_bool_iff.
  split; [apply Qnot_le_lt | apply Qlt_not_le].
Qed.

Lemma Qltb_ge (a b : Q) : Qltb a b = false <-> (b <= a)%Q.
Proof.
  unfold Qltb. now rewrite negb_false_iff, Qle_bool_iff.
Qed.

(** [k > n * 0.5] on integers. *)
Lemma more_than_half (n k : Z) :
  Qltb (inject_Z n * (1 # 2)) (inject_Z k) = (n <? 2 * k).
Proof.
  destruct (Z.ltb_spec n (2 * k)) as [H|H].
  - apply Qltb_lt. unfold Qlt; simpl. lia.
  - apply Qltb_ge. unfold Qle; simpl. lia.
Qed.

(** What the value check keeps and what it drops. *)
Definition kept (self : Settings) (rr : list Z) : list Z :=
  filter (in_range self) rr.

Definition dropped (self : Settings) (rr : list Z) : list Z :=
  filter (out_of_range self) rr.

Definition accepted_values (l : list Z) : ValidationResult :=
  {| is_valid := true; error_code := None; error_details := None;
     cleaned_rr_intervals := Some l; window_duration_s := None |}.

Definition invalid_rr_values (self : Settings) (rr : list Z) : ValidationResult :=
  rejection "INVALID_RR_VALUES"
    [("invalid_count", DInt (len (dropped self rr)));
     ("total_count", DInt (len rr));
     ("valid_range_ms", DList [min_rr_value_ms self; max_rr_value_ms self]);
     ("sample_invalid_values", DList (firstn 5 (dropped self rr)))].

Lemma in_range_iff (self : Settings) (x : Z) :
  in_range self x = true <-> min_rr_value_ms self <= x <= max_rr_value_ms self.
Proof. unfold in_range. rewrite andb_true_iff, !Z.leb_le. tauto. Qed.

Lemma validate_values_eq (self : Settings) (rr : list Z) :
  _validate_values self rr =
  if len rr <? 2 * len (dropped self rr)
  then invalid_rr_values self rr
  else accepted_values (kept self rr).
Proof.
  unfold _validate_values, values_loop.
  rewrite values_loop_count, values_loop_cleaned.
  rewrite (values_loop_sample self rr [] values_init eq_refl).
  cbn [values_init invalid_count cleaned app].
  rewrite Z.add_0_l, more_than_half.
  reflexivity.
Qed.

Lemma kept_dropped_length (self : Settings) (rr : list Z) :
  len (kept self rr) + len (dropped self rr) = len rr.
Proof.
  unfold kept, dropped, out_of_range, len.
  induction rr as [|x rr IH]; simpl; [reflexivity|].
  destruct (in_range self x); simpl length; lia.
Qed.

(** C3.  The value check keeps exactly the elements within the inclusive
    bounds, as a subsequence of the input, and drops the others unchanged;
    it rejects with INVALID_RR_VALUES exactly when the dropped elements are
    strictly more than half of the input, and then reports the first
    [min 5 dropped] offending values; otherwise it succeeds with the kept
    elements.  On [200, 500, 800, 1000, 2500, 900, 100, 750] with bounds
    [200, 2000] it drops 2500 and 100 and succeeds with the other six. *)
Theorem validate_values_filters (self : Settings) (rr : list Z) :
  (forall x, In x (kept self rr) <->
             In x rr /\ min_rr_value_ms self <= x <= max_rr_value_ms self)
  /\ (forall x, In x (dropped self rr) <->
             In x rr /\ ~ (min_rr_value_ms self <= x <= max_rr_value_ms self))
  /\ Subsequence (kept self rr) rr
  /\ Subsequence (dropped self rr) rr
  /\ (error_code (_validate_values self rr) = Some "INVALID_RR_VALUES"
      <-> len rr < 2 * len (dropped self rr))
  /\ (is_valid (_validate_values self rr) = false
      <-> len rr < 2 * len (dropped self rr))
  /\ (len rr < 2 * len (dropped self rr) ->
      _validate_values self rr = invalid_rr_values self rr)
  /\ (2 * len (dropped self rr) <= len rr ->
      _validate_values self rr = accepted_values (kept self rr))
  /\ length (firstn 5 (dropped self rr)) = Nat.min 5 (length (dropped self rr))
  /\ dropped settings [200; 500; 800; 1000; 2500; 900; 100; 750] = [2500; 100]
  /\ _validate_values settings [200; 500; 800; 1000; 2500; 900; 100; 750]
     = accepted_values [200; 500; 800; 1000; 900; 750].
Proof.
  pose proof (validate_values_eq self rr) as E.
  repeat split.
  - unfold kept in H. now apply filter_In in H.
  - unfold kept in H. apply filter_In in H. now apply in_range_iff.
  - unfold kept in H. apply filter_In in H. now apply in_range_iff.
  - intros [Hin Hr]. apply filter_In. split; [assumption|now apply in_range_iff].
  - unfold dropped in H. now apply filter_In in H.
  - unfold dropped, out_of_range in H. apply filter_In in H.
    destruct H as [_ H]. rewrite negb_true_iff in H.
    intros Hr. apply in_range_iff in Hr. congruence.
  - intros [Hin Hr]. apply filter_In. split; [assumption|].
    unfold out_of_range. rewrite negb_true_iff.
    destruct (in_range self x) eqn:Hx; [|reflexivity].
    apply in_range_iff in Hx. contradiction.
  - apply filter_Subsequence.
  - apply filter_Subsequence.
  - rewrite E. destruct (Z.ltb_spec (len rr) (2 * len (dropped self rr)));
      [trivial | discriminate].
  - intros H. rewrite E. apply Z.ltb_lt in H. now rewrite H.
  - rewrite E. destruct (Z.ltb_spec (len rr) (2 * len (dropped self rr)));
      [trivial | discriminate].
  - intros H. rewrite E. apply Z.ltb_lt in H. now rewrite H.
  - intros H. rewrite E. apply Z.ltb_lt in H. now rewrite H.
  - intros H. rewrite E. apply Z.ltb_ge in H. now rewrite H.
  - apply length_firstn.
Qed.

(** *** The order of the checks of [validate] *)

Definition insufficient_data (self : Settings) (rr : list Z) : ValidationResult :=
  rejection "INSUFFICIENT_DATA"
    [("received_count", DInt (len rr));
     ("minimum_required", DInt (min_rr_count self))].

Definition excessive_data (self : Settings) (rr : list Z) : ValidationResult :=
  rejection "EXCESSIVE_DATA"
    [("received_count", DInt (len rr));
     ("maximum_allowed", DInt (max_rr_count self))].

Definition insufficient_valid_data (self : Settings) (rr : list Z)
  : ValidationResult :=
  rejection "INSUFFICIENT_VALID_DATA"
    [("original_count", DInt (len rr));
     ("valid_count", DInt (len (kept self rr)));
     ("minimum_required", DInt (min_rr_count self))].

Definition window_too_short (self : Settings) (d : Q) : ValidationResult :=
  rejection "WINDOW_TOO_SHORT"
    [("window_duration_s", DFloat d);
     ("minimum_required_s", DInt (min_window_duration_s self))].

Definition window_too_long (self : Settings) (d : Q) : ValidationResult :=
  rejection "WINDOW_TOO_LONG"
    [("window_duration_s", DFloat d);
     ("maximum_allowed_s", DInt (max_window_duration_s self))].

Definition accepted (l : list Z) (d : Q) : ValidationResult :=
  {| is_valid := true; error_code := None; error_details := None;
     cleaned_rr_intervals := Some l; window_duration_s := Some d |}.

(** The count check passes. *)
Definition count_ok (self : Settings) (rr : list Z) : Prop :=
  min_rr_count self <= len rr <= max_rr_count self.

(** The value check passes. *)
Definition values_ok (self : Settings) (rr : list Z) : Prop :=
  2 * len (dropped self rr) <= len rr.

Lemma validate_count_eq (self : Settings) (rr : list Z) :
  _validate_count self rr =
  if len rr <? min_rr_count self then insufficient_data self rr
  else if len rr >? max_rr_count self then excessive_data self rr
  else {| is_valid := true; error_code := None; error_details := None;
          cleaned_rr_intervals := None; window_duration_s := None |}.
Proof. reflexivity. Qed.

Lemma validate_count_pass (self : Settings) (rr : list Z) :
  count_ok self rr -> is_valid (_validate_count self rr) = true.
Proof.
  intros [Hlo Hhi]. rewrite validate_count_eq.
  apply Z.ltb_ge in Hlo. rewrite Hlo.
  rewrite Z.gtb_ltb. apply Z.ltb_ge in Hhi. now rewrite Hhi.
Qed.

(** Once count and value checks pass, [validate] is the sufficiency check
    followed by the window check. *)
Lemma validate_after_values (self : Settings) (rr : list Z) (s e : datetime) :
  count_ok self rr -> values_ok self rr ->
  validate self rr s e =
  if len (kept self rr) <? min_rr_count self
  then Returned (insufficient_valid_data self rr)
  else
    window_result <- _validate_window self s e ;;
    if negb (is_valid window_result) then Returned window_result
    else Returned {| is_valid := true; error_code := None;
                     error_details := None;
                     cleaned_rr_intervals := Some (kept self rr);
                     window_duration_s := window_duration_s window_result |}.
Proof.
  intros Hc Hv. unfold validate.
  rewrite (validate_count_pass self rr Hc). cbn [negb].
  rewrite validate_values_eq.
  unfold values_ok in Hv. apply Z.ltb_ge in Hv. rewrite Hv.
  reflexivity.
Qed.

Lemma validate_window_eq (self : Settings) (s e : datetime) (d : Q) :
  total_seconds_between s e = Returned d ->
  _validate_window self s e =
  Returned (if Qltb d (inject_Z (min_window_duration_s self))
            then window_too_short self d
            else if Qltb (inject_Z (max_window_duration_s self)) d
                 then window_too_long self d
                 else {| is_valid := true; error_code := None;
                         error_details := None; cleaned_rr_intervals := None;
                         window_duration_s := Some d |}).
Proof.
  intros H. unfold _validate_window.
  replace (if tz_aware s && tz_aware e
           then total_seconds_between s e else total_seconds_between s e)
    with (total_seconds_between s e) by now destruct (tz_aware s && tz_aware e).
  rewrite H. cbn [bind].
  destruct (Qltb d _); [reflexivity|].
  destruct (Qltb _ d); reflexivity.
Qed.

(** C4.  [validate] checks count, values, post-filter sufficiency and window
    duration in that order and stops at the first failure.  A length below
    [min_rr_count] gives INSUFFICIENT_DATA and one above [max_rr_count]
    gives EXCESSIVE_DATA, each with the received and the required count,
    whatever the elements and the timestamps are; when the count passes,
    too many dropped values give INVALID_RR_VALUES; when the values pass, a
    cleaned length below [min_rr_count] gives INSUFFICIENT_VALID_DATA; then a
    span [end - start] below [min_window_duration_s] gives WINDOW_TOO_SHORT
    and one above [max_window_duration_s] gives WINDOW_TOO_LONG; otherwise
    the result is valid and carries the cleaned sequence and the span in
    seconds. *)
Theorem validate_check_order (self : Settings) (rr : list Z) (s e : datetime) :
  (len rr < min_rr_count self ->
     validate self rr s e = Returned (insufficient_data self rr))
  /\ (min_rr_count self <= len rr -> max_rr_count self < len rr ->
     validate self rr s e = Returned (excessive_data self rr))
  /\ (count_ok self rr -> ~ values_ok self rr ->
     validate self rr s e = Returned (invalid_rr_values self rr))
  /\ (count_ok self rr -> values_ok self rr ->
      len (kept self rr) < min_rr_count self ->
     validate self rr s e = Returned (insufficient_valid_data self rr))
  /\ (forall d : Q,
      count_ok self rr -> values_ok self rr ->
      min_rr_count self <= len (kept self rr) ->
      total_seconds_between s e = Returned d ->
      ((d < inject_Z (min_window_duration_s self))%Q ->
         validate self rr s e = Returned (window_too_short self d))
      /\ ((inject_Z (min_window_duration_s self) <= d)%Q ->
          (inject_Z (max_window_duration_s self) < d)%Q ->
         validate self rr s e = Returned (window_too_long self d))
      /\ ((inject_Z (min_window_duration_s self) <= d)%Q ->
          (d <= inject_Z (max_window_duration_s self))%Q ->
         validate self rr s e = Returned (accepted (kept self rr) d)
         /\ d = Qmake (instant_us e - instant_us s) 1000000)).
Proof.
  split; [|split; [|split; [|split]]].
  - intros H. unfold validate. rewrite validate_count_eq.
    apply Z.ltb_lt in H. now rewrite H.
  - intros Hlo Hhi. unfold validate. rewrite validate_count_eq.
    apply Z.ltb_ge in Hlo. rewrite Hlo.
    rewrite Z.gtb_ltb. apply Z.ltb_lt in Hhi. now rewrite Hhi.
  - intros Hc Hv. unfold validate.
    rewrite (validate_count_pass self rr Hc). cbn [negb].
    rewrite validate_values_eq.
    unfold values_ok in Hv. apply Z.nle_gt, Z.ltb_lt in Hv. now rewrite Hv.
  - intros Hc Hv Hk. rewrite (validate_after_values self rr s e Hc Hv).
    apply Z.ltb_lt in Hk. now rewrite Hk.
  - intros d Hc Hv Hk Hd.
    rewrite (validate_after_values self rr s e Hc Hv).
    apply Z.ltb_ge in Hk. rewrite Hk.
    rewrite (validate_window_eq self s e d Hd). cbn [bind].
    split; [|split].
    + intros H. apply Qltb_lt in H. now rewrite H.
    + intros Hlo Hhi. apply Qltb_ge in Hlo. apply Qltb_lt in Hhi.
      now rewrite Hlo, Hhi.
    + intros Hlo Hhi. apply Qltb_ge in Hlo. apply Qltb_ge in Hhi.
      rewrite Hlo, Hhi. split; [reflexivity|].
      unfold total_seconds_between in Hd.
      destruct (Bool.eqb _ _); congruence.
Qed.

(** A 60-second window of forty 800 ms intervals passes every check of the
    default validator. *)
Lemma validate_check_order_witness :
  validate settings (repeat 800 40)
    {| instant_us := 0; tz_aware := false |}
    {| instant_us := 60000000; tz_aware := false |}
  = Returned (accepted (repeat 800 40) (60000000 # 1000000)).
Proof.
  pose proof (validate_check_order settings (repeat 800 40)
      {| instant_us := 0; tz_aware := false |}
      {| instant_us := 60000000; tz_aware := false |}) as H.
  destruct H as (_ & _ & _ & _ & H).
  destruct (H (60000000 # 1000000)) as (_ & _ & H3).
  - unfold count_ok; vm_compute; split; discriminate.
  - unfold values_ok; vm_compute; discriminate.
  - vm_compute; discriminate.
  - reflexivity.
  - apply H3; vm_compute; discriminate.
Defined.

(** The count check comes first: a short input is INSUFFICIENT_DATA even
    with all values out of range and unsubtractable timestamps. *)
Example validate_short_input_first :
  validate settings [1; 2; 3]
    {| instant_us := 0; tz_aware := true |}
    {| instant_us := 5; tz_aware := false |}
  = Returned (insufficient_data settings [1; 2; 3]).
Proof. reflexivity. Qed.

(** Mixing an aware and a naive timestamp raises once the window check is
    reached. *)
Example validate_mixed_timestamps :
  validate settings (repeat 800 40)
    {| instant_us := 0; tz_aware := true |}
    {| instant_us := 60000000; tz_aware := false |}
  = Raised TypeError.
Proof. reflexivity. Qed.

(** *** What an accepted result guarantees, and what is never returned *)

(** [validate] as one decision list. *)
Lemma validate_decisions (self : Settings) (rr : list Z) (s e : datetime) :
  validate self rr s e =
  if len rr <? min_rr_count self then Returned (insufficient_data self rr)
  else if len rr >? max_rr_count self then Returned (excessive_data self rr)
  else if len rr <? 2 * len (dropped self rr)
       then Returned (invalid_rr_values self rr)
  else if len (kept self rr) <? min_rr_count self
       then Returned (insufficient_valid_data self rr)
  else match total_seconds_between s e with
       | Raised x => Raised x
       | Returned d =>
           Returned
             (if Qltb d (inject_Z (min_window_duration_s self))
              then window_too_short self d
              else if Qltb (inject_Z (max_window_duration_s self)) d
                   then window_too_long self d
                   else accepted (kept self rr) d)
       end.
Proof.
  destruct (Z.ltb_spec (len rr) (min_rr_count self)) as [H1|H1].
  { unfold validate. rewrite validate_count_eq.
    apply Z.ltb_lt in H1. now rewrite H1. }
  rewrite Z.gtb_ltb.
  destruct (Z.ltb_spec (max_rr_count self) (len rr)) as [H2|H2].
  { unfold validate. rewrite validate_count_eq.
    apply Z.ltb_ge in H1. rewrite H1.
    rewrite Z.gtb_ltb. apply Z.ltb_lt in H2. now rewrite H2. }
  assert (Hc : count_ok self rr) by (split; assumption).
  destruct (Z.ltb_spec (len rr) (2 * len (dropped self rr))) as [H3|H3].
  { unfold validate. rewrite (validate_count_pass self rr Hc). cbn [negb].
    rewrite validate_values_eq. apply Z.ltb_lt in H3. now rewrite H3. }
  rewrite (validate_after_values self rr s e Hc H3).
  destruct (len (kept self rr) <? min_rr_count self); [reflexivity|].
  destruct (total_seconds_between s e) as [d|x] eqn:Hd.
  - rewrite (validate_window_eq self s e d Hd). cbn [bind].
    destruct (Qltb d _); [reflexivity|].
    destruct (Qltb _ d); reflexivity.
  - unfold _validate_window.
    replace (if tz_aware s && tz_aware e
             then total_seconds_between s e else total_seconds_between s e)
      with (total_seconds_between s e)
      by now destruct (tz_aware s && tz_aware e).
    now rewrite Hd.
Qed.

Lemma kept_in_range (self : Settings) (rr : list Z) :
  Forall (fun x => min_rr_value_ms self <= x <= max_rr_value_ms self)
         (kept self rr).
Proof.
  apply Forall_forall. intros x Hx. unfold kept in Hx.
  apply filter_In in Hx. now apply in_range_iff.
Qed.

Lemma kept_idempotent (self : Settings) (rr : list Z) :
  kept self (kept self rr) = kept self rr
  /\ dropped self (kept self rr) = [].
Proof.
  unfold kept, dropped, out_of_range.
  induction rr as [|x rr [IH1 IH2]]; [split; reflexivity|].
  cbn [filter]. destruct (in_range self x) eqn:Hx; [|split; assumption].
  cbn [filter]. rewrite Hx. cbn [negb]. split; [now rewrite IH1|exact IH2].
Qed.

Lemma accepted_cleaned_is_kept
    (self : Settings) (rr : list Z) (s e : datetime) (r : ValidationResult) :
  validate self rr s e = Returned r ->
  is_valid r = true ->
  cleaned_rr_intervals r = Some (kept self rr)
  /\ min_rr_count self <= len (kept self rr) <= max_rr_count self
  /\ min_rr_count self <= len rr <= max_rr_count self
  /\ 2 * len (dropped self rr) <= len rr.
Proof.
  intros H Hv. rewrite validate_decisions in H.
  destruct (Z.ltb_spec (len rr) (min_rr_count self)) as [H1|H1];
    [injection H as <-; discriminate Hv|].
  rewrite Z.gtb_ltb in H.
  destruct (Z.ltb_spec (max_rr_count self) (len rr)) as [H2|H2];
    [injection H as <-; discriminate Hv|].
  destruct (Z.ltb_spec (len rr) (2 * len (dropped self rr))) as [H3|H3];
    [injection H as <-; discriminate Hv|].
  destruct (Z.ltb_spec (len (kept self rr)) (min_rr_count self)) as [H4|H4];
    [injection H as <-; discriminate Hv|].
  destruct (total_seconds_between s e) as [d|x] eqn:Hd; [|discriminate H].
  injection H as <-.
  destruct (Qltb d (inject_Z (min_window_duration_s self)));
    [discriminate Hv|].
  destruct (Qltb (inject_Z (max_window_duration_s self)) d);
    [discriminate Hv|].
  pose proof (kept_dropped_length self rr) as Hlen.
  assert (0 <= len (dropped self rr)) by (unfold len; lia).
  split; [reflexivity|lia].
Qed.

(** The codes a rejection can carry. *)
Definition error_codes : list string :=
  ["INSUFFICIENT_DATA"; "EXCESSIVE_DATA"; "INVALID_RR_VALUES";
   "INSUFFICIENT_VALID_DATA"; "WINDOW_TOO_SHORT"; "WINDOW_TOO_LONG"].

(** A result accepted by [validate] carries exactly the in-range elements of
    the input, in order; their number is within the count bounds; the window
    duration is within the duration bounds; and no error is attached. *)
Theorem accepted_result_is_clean
    (self : Settings) (rr : list Z) (s e : datetime) (r : ValidationResult) :
  validate self rr s e = Returned r ->
  is_valid r = true ->
  cleaned_rr_intervals r = Some (kept self rr)
  /\ Subsequence (kept self rr) rr
  /\ Forall (fun x => min_rr_value_ms self <= x <= max_rr_value_ms self)
            (kept self rr)
  /\ min_rr_count self <= len (kept self rr) <= max_rr_count self
  /\ 2 * len (dropped self rr) <= len rr
  /\ (exists d : Q,
        window_duration_s r = Some d
        /\ d = Qmake (instant_us e - instant_us s) 1000000
        /\ (inject_Z (min_window_duration_s self) <= d)%Q
        /\ (d <= inject_Z (max_window_duration_s self))%Q)
  /\ error_code r = None
  /\ error_details r = None.
Proof.
  intros H Hv. rewrite validate_decisions in H.
  destruct (Z.ltb_spec (len rr) (min_rr_count self)) as [H1|H1];
    [injection H as <-; discriminate Hv|].
  rewrite Z.gtb_ltb in H.
  destruct (Z.ltb_spec (max_rr_count self) (len rr)) as [H2|H2];
    [injection H as <-; discriminate Hv|].
  destruct (Z.ltb_spec (len rr) (2 * len (dropped self rr))) as [H3|H3];
    [injection H as <-; discriminate Hv|].
  destruct (Z.ltb_spec (len (kept self rr)) (min_rr_count self)) as [H4|H4];
    [injection H as <-; discriminate Hv|].
  destruct (total_seconds_between s e) as [d|x] eqn:Hd; [|discriminate H].
  injection H as <-.
  destruct (Qltb d (inject_Z (min_window_duration_s self))) eqn:Q1;
    [discriminate Hv|].
  destruct (Qltb (inject_Z (max_window_duration_s self)) d) eqn:Q2;
    [discriminate Hv|].
  apply Qltb_ge in Q1, Q2.
  pose proof (kept_dropped_length self rr) as Hlen.
  assert (0 <= len (dropped self rr)) by (unfold len; lia).
  repeat split; try reflexivity; try lia.
  - apply filter_Subsequence.
  - apply kept_in_range.
  - exists d. repeat split; try assumption.
    unfold total_seconds_between in Hd.
    destruct (Bool.eqb _ _); congruence.
Qed.

Lemma accepted_result_is_clean_witness :
  cleaned_rr_intervals (accepted (repeat 800 40) (60000000 # 1000000))
  = Some (kept settings (repeat 800 40)).
Proof.
  refine (proj1 (accepted_result_is_clean settings (repeat 800 40)
    {| instant_us := 0; tz_aware := false |}
    {| instant_us := 60000000; tz_aware := false |}
    (accepted (repeat 800 40) (60000000 # 1000000)) _ _));
    reflexivity.
Defined.

(** Validating again the cleaned sequence of an accepted request, with the
    same timestamps, accepts it with the same result. *)
Theorem validate_cleaned_again
    (self : Settings) (rr : list Z) (s e : datetime) (r : ValidationResult) :
  validate self rr s e = Returned r ->
  is_valid r = true ->
  validate self (kept self rr) s e = Returned r.
Proof.
  intros H Hv.
  pose proof (kept_dropped_length self rr) as Hlen.
  assert (0 <= len (dropped self rr)) by (unfold len; lia).
  rewrite validate_decisions in H. rewrite validate_decisions.
  destruct (kept_idempotent self rr) as [K D]. rewrite K, D.
  destruct (Z.ltb_spec (len rr) (min_rr_count self)) as [H1|H1];
    [injection H as <-; discriminate Hv|].
  rewrite Z.gtb_ltb in H.
  destruct (Z.ltb_spec (max_rr_count self) (len rr)) as [H2|H2];
    [injection H as <-; discriminate Hv|].
  destruct (Z.ltb_spec (len rr) (2 * len (dropped self rr))) as [H3|H3];
    [injection H as <-; discriminate Hv|].
  destruct (Z.ltb_spec (len (kept self rr)) (min_rr_count self)) as [H4|H4];
    [injection H as <-; discriminate Hv|].
  rewrite Z.gtb_ltb.
  replace (max_rr_count self <? len (kept self rr)) with false
    by (symmetry; apply Z.ltb_ge; lia).
  replace (len (kept self rr) <? 2 * len []) with false
    by (symmetry; apply Z.ltb_ge; unfold len at 2; simpl; unfold len; lia).
  exact H.
Qed.

Lemma validate_cleaned_again_witness :
  validate settings (kept settings (200 :: 5000 :: repeat 800 40))
    {| instant_us := 0; tz_aware := false |}
    {| instant_us := 60000000; tz_aware := false |}
  = Returned (accepted (200 :: repeat 800 40) (60000000 # 1000000)).
Proof.
  apply (validate_cleaned_again settings (200 :: 5000 :: repeat 800 40));
    reflexivity.
Defined.

Lemma validate_cases (self : Settings) (rr : list Z) (s e : datetime) :
  match validate self rr s e with
  | Returned r =>
      (is_valid r = true /\ error_code r = None)
      \/ (is_valid r = false
          /\ (exists code, error_code r = Some code /\ In code error_codes)
          /\ cleaned_rr_intervals r = None
          /\ window_duration_s r = None)
  | Raised x =>
      x = TypeError
      /\ tz_aware s <> tz_aware e
      /\ count_ok self rr /\ values_ok self rr
      /\ min_rr_count self <= len (kept self rr)
  end.
Proof.
  rewrite validate_decisions.
  assert (R : forall code details,
            In code error_codes ->
            (is_valid (rejection code details) = true
             /\ error_code (rejection code details) = None)
            \/ (is_valid (rejection code details) = false
                /\ (exists c, error_code (rejection code details) = Some c
                              /\ In c error_codes)
                /\ cleaned_rr_intervals (rejection code details) = None
                /\ window_duration_s (rejection code details) = None)).
  { intros code details Hin. right. repeat split; try reflexivity.
    exists code. split; [reflexivity|exact Hin]. }
  destruct (Z.ltb_spec (len rr) (min_rr_count self)) as [H1|H1].
  { apply R. cbn. tauto. }
  rewrite Z.gtb_ltb.
  destruct (Z.ltb_spec (max_rr_count self) (len rr)) as [H2|H2].
  { apply R. cbn. tauto. }
  destruct (Z.ltb_spec (len rr) (2 * len (dropped self rr))) as [H3|H3].
  { apply R. cbn. tauto. }
  destruct (Z.ltb_spec (len (kept self rr)) (min_rr_count self)) as [H4|H4].
  { apply R. cbn. tauto. }
  unfold total_seconds_between.
  destruct (Bool.eqb (tz_aware s) (tz_aware e)) eqn:E.
  - destruct (Qltb _ _); [apply R; cbn; tauto|].
    destruct (Qltb _ _); [apply R; cbn; tauto|].
    left. split; reflexivity.
  - apply eqb_false_iff in E.
    repeat split; assumption.
Qed.

(** Every result of [validate] is either valid with no error code, or a
    rejection with one of the six codes and neither cleaned data nor a
    duration; the only exception [validate] can raise is the [TypeError] of
    subtracting an aware and a naive timestamp, and only after the three
    data checks have passed. *)
Theorem validate_outcomes (self : Settings) (rr : list Z) (s e : datetime) :
  match validate self rr s e with
  | Returned r =>
      (is_valid r = true /\ error_code r = None)
      \/ (is_valid r = false
          /\ (exists code, error_code r = Some code /\ In code error_codes)
          /\ cleaned_rr_intervals r = None
          /\ window_duration_s r = None)
  | Raised x =>
      x = TypeError
      /\ tz_aware s <> tz_aware e
      /\ count_ok self rr /\ values_ok self rr
      /\ min_rr_count self <= len (kept self rr)
  end.
Proof. exact (validate_cases self rr s e). Qed.

(** With [min_rr_count > max_rr_count] nothing is accepted: every input is
    rejected by the count check. *)
Theorem inconsistent_count_bounds_reject_all
    (self : Settings) (rr : list Z) (s e : datetime) :
  max_rr_count self < min_rr_count self ->
  validate self rr s e = Returned (insufficient_data self rr)
  \/ validate self rr s e = Returned (excessive_data self rr).
Proof.
  intros H. rewrite validate_decisions.
  destruct (Z.ltb_spec (len rr) (min_rr_count self)) as [H1|H1];
    [now left|].
  rewrite Z.gtb_ltb.
  destruct (Z.ltb_spec (max_rr_count self) (len rr)) as [H2|H2];
    [now right|lia].
Qed.

Lemma inconsistent_count_bounds_reject_all_witness :
  let self := {| min_rr_count := 10; max_rr_count := 5;
                 min_rr_value_ms := 200; max_rr_value_ms := 2000;
                 min_window_duration_s := 30; max_window_duration_s := 120 |} in
  validate self (repeat 800 7)
    {| instant_us := 0; tz_aware := false |}
    {| instant_us := 60000000; tz_aware := false |}
  = Returned (insufficient_data self (repeat 800 7)).
Proof.
  cbv zeta.
  destruct (inconsistent_count_bounds_reject_all
    {| min_rr_count := 10; max_rr_count := 5;
       min_rr_value_ms := 200; max_rr_value_ms := 2000;
       min_window_duration_s := 30; max_window_duration_s := 120 |}
    (repeat 800 7)
    {| instant_us := 0; tz_aware := false |}
    {| instant_us := 60000000; tz_aware := false |}) as [H|H].
  - cbn. lia.
  - exact H.
  - discriminate H.
Defined.

End Validator.

(* ================================================================== *)
(** ** Floating-point values and the numpy operations the code uses *)
(* ================================================================== *)

Module Numeric.
Import PyData.

Local Open Scope R_scope.

(** A [float]: a finite real, an infinity or NaN. *)
Inductive num : Type :=
| Fin (x : R)
| PInf
| NInf
| NaN.

Definition Rltb (x y : R) : bool := if Rlt_dec x y then true else false.
Definition Rleb (x y : R) : bool := if Rle_dec x y then true else false.
Definition Reqb (x y : R) : bool := if Req_dec_T x y then true else false.

Definition of_Z (z : Z) : num := Fin (IZR z).
Definition of_nat (n : nat) : num := Fin (INR n).

Definition nneg (a : num) : num :=
  match a with
  | Fin x => Fin (- x)
  | PInf => NInf
  | NInf => PInf
  | NaN => NaN
  end.

Definition nadd (a b : num) : num :=
  match a, b with
  | NaN, _ | _, NaN => NaN
  | Fin x, Fin y => Fin (x + y)
  | PInf, NInf | NInf, PInf => NaN
  | PInf, _ | _, PInf => PInf
  | NInf, _ | _, NInf => NInf
  end.

Definition nsub (a b : num) : num := nadd a (nneg b).

(** An infinity times a finite [x]. *)
Definition scale_inf (positive : bool) (x : R) : num :=
  if Reqb x 0 then NaN
  else if Bool.eqb positive (Rltb 0 x) then PInf else NInf.

Definition nmul (a b : num) : num :=
  match a, b with
  | NaN, _ | _, NaN => NaN
  | Fin x, Fin y => Fin (x * y)
  | Fin x, PInf | PInf, Fin x => scale_inf true x
  | Fin x, NInf | NInf, Fin x => scale_inf false x
  | PInf, PInf | NInf, NInf => PInf
  | PInf, NInf | NInf, PInf => NInf
  end.

(** numpy division: a zero divisor gives an infinity or NaN, never an
    exception. *)
Definition ndiv (a b : num) : num :=
  match a, b with
  | NaN, _ | _, NaN => NaN
  | Fin x, Fin y =>
      if Reqb y 0
      then (if Reqb x 0 then NaN else if Rltb 0 x then PInf else NInf)
      else Fin (x / y)
  | Fin _, PInf | Fin _, NInf => Fin 0
  | PInf, Fin y => if Rltb y 0 then NInf else PInf
  | NInf, Fin y => if Rltb y 0 then PInf else NInf
  | _, _ => NaN
  end.

Definition nabs (a : num) : num :=
  match a with
  | Fin x => Fin (Rabs x)
  | PInf | NInf => PInf
  | NaN => NaN
  end.

Definition nsqrt (a : num) : num :=
  match a with
  | Fin x => if Rltb x 0 then NaN else Fin (sqrt x)
  | PInf => PInf
  | NInf | NaN => NaN
  end.

(** [np.log]. *)
Definition nlog (a : num) : num :=
  match a with
  | Fin x => if Rltb 0 x then Fin (ln x) else if Reqb x 0 then NInf else NaN
  | PInf => PInf
  | NInf | NaN => NaN
  end.

(** Comparisons; any comparison with NaN is false. *)
Definition nlt (a b : num) : bool :=
  match a, b with
  | NaN, _ | _, NaN => false
  | Fin x, Fin y => Rltb x y
  | NInf, NInf | PInf, _ | _, NInf => false
  | NInf, _ | _, PInf => true
  end.

Definition neqb (a b : num) : bool :=
  match a, b with
  | Fin x, Fin y => Reqb x y
  | PInf, PInf | NInf, NInf => true
  | _, _ => false
  end.

Definition nle (a b : num) : bool := nlt a b || neqb a b.
Definition ngt (a b : num) : bool := nlt b a.
Definition nge (a b : num) : bool := nle b a.

(** [np.isfinite]. *)
Definition isfinite (a : num) : bool :=
  match a with Fin _ => true | _ => false end.

Definition isnan (a : num) : bool :=
  match a with NaN => true | _ => false end.

(** [int(x)]: truncation towards zero; an infinity raises [OverflowError],
    NaN raises [ValueError]. *)
Definition py_int (a : num) : outcome Z :=
  match a with
  | Fin x => Returned (if Rltb x 0 then (- Zfloor (- x))%Z else Zfloor x)
  | PInf | NInf => Raised OverflowError
  | NaN => Raised ValueError
  end.

(** Python's [max(a, b)] and [min(a, b)]: the first argument unless the
    second compares strictly beyond it. *)
Definition py_max (a b : num) : num := if ngt b a then b else a.
Definition py_min (a b : num) : num := if nlt b a then b else a.

(** *** numpy on one-dimensional arrays *)

Definition np_sum (l : list num) : num := fold_left nadd l (Fin 0).

(** [np.mean]: the sum over the length (NaN on the empty array).  The sum
    is the exact one; NumPy's is rounded at every addition
    ([Binary64.np_mean]). *)
Definition np_mean (l : list num) : num :=
  ndiv (np_sum l) (of_nat (length l)).

(** [np.std(l, ddof=1)]: squared deviations from the mean, summed, over
    [max(n - 1, 0)], square root.  Exact: on a constant array it is 0, where
    NumPy's rounded mean can leave a residue ([Binary64.np_std_ddof1]); the
    two agree on integer-valued arrays whose sum stays below [2^53]. *)
Definition np_std_ddof1 (l : list num) : num :=
  let m := np_mean l in
  let sq := map (fun x => nmul (nsub x m) (nsub x m)) l in
  nsqrt (ndiv (np_sum sq) (of_nat (length l - 1))).

(** [np.diff]: [out[i] = l[i+1] - l[i]]. *)
Fixpoint np_diff (l : list num) : list num :=
  match l with
  | x :: (y :: _) as t => nsub y x :: np_diff t
  | _ => []
  end.

(** [np.cumsum]. *)
Fixpoint cumsum_from (acc : num) (l : list num) : list num :=
  match l with
  | [] => []
  | x :: t => nadd acc x :: cumsum_from (nadd acc x) t
  end.

Definition np_cumsum (l : list num) : list num :=
  match l with
  | [] => []
  | x :: t => x :: cumsum_from x t
  end.

(** [np.count_nonzero] of a boolean array, as [np.sum(mask)] gives it. *)
Definition count_true (mask : list bool) : nat :=
  length (filter (fun b => b) mask).

(** [np.max]: NaN if any element is NaN, [ValueError] on an empty array. *)
Definition np_maximum (a b : num) : num :=
  if isnan a then a else if isnan b then b else if nlt a b then b else a.

Definition np_max (l : list num) : outcome num :=
  match l with
  | [] => Raised ValueError
  | x :: t => Returned (fold_left np_maximum t x)
  end.

(** [np.linspace(0, stop, n)] with the default [endpoint=True]: [n] points,
    step [stop / (n - 1)], the last one set to [stop]; a negative [n]
    raises [ValueError]. *)
Definition np_linspace0 (stop : num) (n : Z) : outcome (list num) :=
  if (n <? 0)%Z then Raised ValueError
  else
    match Z.to_nat n with
    | O => Returned []
    | S O => Returned [Fin 0]
    | S (S k) =>
        let step := ndiv stop (of_nat (S k)) in
        Returned (map (fun i => nadd (nmul (of_nat i) step) (Fin 0)) (seq 0 (S k))
                  ++ [stop])
    end.

(** [a[mask]]: the elements where the mask is true; a mask of another
    length raises [IndexError]. *)
Fixpoint mask_select {A : Type} (mask : list bool) (a : list A)
  : outcome (list A) :=
  match mask, a with
  | [], [] => Returned []
  | b :: mask', x :: a' =>
      rest <- mask_select mask' a' ;;
      Returned (if b then x :: rest else rest)
  | _, _ => Raised IndexError
  end.

(** [np.trapezoid(y, x)]: [sum(diff(x) * (y[1:] + y[:-1]) / 2)]; arrays of
    different lengths raise [ValueError]. *)
Fixpoint trapezoid_terms (y x : list num) : list num :=
  match y, x with
  | y0 :: (y1 :: _) as y', x0 :: (x1 :: _) as x' =>
      ndiv (nmul (nsub x1 x0) (nadd y1 y0)) (Fin 2) :: trapezoid_terms y' x'
  | _, _ => []
  end.

Definition np_trapezoid (y x : list num) : outcome num :=
  if Nat.eqb (length y) (length x)
  then Returned (np_sum (trapezoid_terms y x))
  else Raised ValueError.

(** *** Deciding comparisons of reals *)

Lemma Rltb_true (x y : R) : x < y -> Rltb x y = true.
Proof. intros H. unfold Rltb. destruct (Rlt_dec x y); [reflexivity|contradiction]. Qed.

Lemma Rltb_false (x y : R) : y <= x -> Rltb x y = false.
Proof. intros H. unfold Rltb. destruct (Rlt_dec x y); [lra|reflexivity]. Qed.

Lemma Rleb_true (x y : R) : x <= y -> Rleb x y = true.
Proof. intros H. unfold Rleb. destruct (Rle_dec x y); [reflexivity|contradiction]. Qed.

Lemma Rleb_false (x y : R) : y < x -> Rleb x y = false.
Proof. intros H. unfold Rleb. destruct (Rle_dec x y); [lra|reflexivity]. Qed.

Lemma Reqb_true (x y : R) : x = y -> Reqb x y = true.
Proof. intros H. unfold Reqb. destruct (Req_dec_T x y); [reflexivity|contradiction]. Qed.

Lemma Reqb_false (x y : R) : x <> y -> Reqb x y = false.
Proof. intros H. unfold Reqb. destruct (Req_dec_T x y); [contradiction|reflexivity]. Qed.

Lemma Rltb_lt (x y : R) : Rltb x y = true <-> x < y.
Proof.
  unfold Rltb. destruct (Rlt_dec x y); split; auto; discriminate.
Qed.

Lemma Reqb_eq (x y : R) : Reqb x y = true <-> x = y.
Proof.
  unfold Reqb. destruct (Req_dec_T x y); split; auto; discriminate.
Qed.

(** Rewrites every comparison of reals that [lra] can settle. *)
Ltac decide_reals :=
  repeat match goal with
  | |- context [Reqb ?x ?y] =>
      first [ rewrite (Reqb_true x y) by lra
            | rewrite (Reqb_false x y) by (intro; lra) ]
  | |- context [Rltb ?x ?y] =>
      first [ rewrite (Rltb_true x y) by lra
            | rewrite (Rltb_false x y) by lra ]
  | |- context [Rleb ?x ?y] =>
      first [ rewrite (Rleb_true x y) by lra
            | rewrite (Rleb_false x y) by lra ]
  end.

Lemma nle_fin (x y : R) : nle (Fin x) (Fin y) = true <-> x <= y.
Proof.
  unfold nle, nlt, neqb. rewrite orb_true_iff, Rltb_lt, Reqb_eq. lra.
Qed.

Lemma nle_fin_false (x y : R) : nle (Fin x) (Fin y) = false <-> y < x.
Proof.
  rewrite <- not_true_iff_false, nle_fin. lra.
Qed.

Lemma ngt_fin (x y : R) : ngt (Fin x) (Fin y) = true <-> y < x.
Proof. unfold ngt, nlt. apply Rltb_lt. Qed.

Lemma ngt_fin_false (x y : R) : ngt (Fin x) (Fin y) = false <-> x <= y.
Proof. rewrite <- not_true_iff_false, ngt_fin. lra. Qed.

Lemma ndiv_fin (x y : R) : y <> 0 -> ndiv (Fin x) (Fin y) = Fin (x / y).
Proof. intros H. unfold ndiv. now rewrite (Reqb_false y 0 H). Qed.

Lemma nsqrt_fin (x : R) : 0 <= x -> nsqrt (Fin x) = Fin (sqrt x).
Proof. intros H. unfold nsqrt. now rewrite Rltb_false. Qed.

(** *** Sums, means and deviations of finite reals *)

Definition Rsum (l : list R) : R := fold_right Rplus 0 l.

(** The arithmetic mean. *)
Definition mean (l : list R) : R := Rsum l / INR (length l).

(** The squared deviations from the mean. *)
Definition squared_deviations (l : list R) : list R :=
  map (fun x => (x - mean l) * (x - mean l)) l.

(** The sample standard deviation: divisor [n - 1]. *)
Definition sample_std (l : list R) : R :=
  sqrt (Rsum (squared_deviations l) / INR (length l - 1)).

(** [d[i] = l[i+1] - l[i]]. *)
Fixpoint successive_differences (l : list R) : list R :=
  match l with
  | x :: (y :: _) as t => (y - x) :: successive_differences t
  | _ => []
  end.

Lemma fold_left_nadd_fin (l : list R) (a : R) :
  fold_left nadd (map Fin l) (Fin a) = Fin (a + Rsum l).
Proof.
  revert a. induction l as [|x l IH]; intros a; simpl.
  - f_equal. lra.
  - rewrite IH. f_equal. lra.
Qed.

Lemma np_sum_fin (l : list R) : np_sum (map Fin l) = Fin (Rsum l).
Proof.
  unfold np_sum. rewrite fold_left_nadd_fin. f_equal. lra.
Qed.

Lemma np_mean_fin (l : list R) :
  l <> [] -> np_mean (map Fin l) = Fin (mean l).
Proof.
  intros H. unfold np_mean, of_nat. rewrite np_sum_fin, length_map.
  apply ndiv_fin. apply not_0_INR. destruct l; [contradiction|discriminate].
Qed.

Lemma Rsum_nonneg (l : list R) : Forall (fun x => 0 <= x) l -> 0 <= Rsum l.
Proof.
  induction 1; simpl; lra.
Qed.

Lemma squared_deviations_nonneg (l : list R) :
  Forall (fun x => 0 <= x) (squared_deviations l).
Proof.
  unfold squared_deviations. apply Forall_map, Forall_forall.
  intros x _. exact (Rle_0_sqr (x - mean l)).
Qed.

Lemma np_std_fin (l : list R) :
  (2 <= length l)%nat -> np_std_ddof1 (map Fin l) = Fin (sample_std l).
Proof.
  intros H. unfold np_std_ddof1.
  rewrite np_mean_fin by (destruct l; [simpl in H; lia|discriminate]).
  rewrite map_map.
  replace (map (fun x => nmul (nsub (Fin x) (Fin (mean l))) (nsub (Fin x) (Fin (mean l)))) l)
    with (map Fin (squared_deviations l))
    by (unfold squared_deviations; rewrite map_map; reflexivity).
  rewrite np_sum_fin, length_map. unfold of_nat.
  assert (Hn : 0 < INR (length l - 1)) by (apply lt_0_INR; lia).
  rewrite ndiv_fin by lra.
  apply nsqrt_fin.
  apply Rmult_le_pos.
  - apply Rsum_nonneg, squared_deviations_nonneg.
  - left. now apply Rinv_0_lt_compat.
Qed.

Lemma np_diff_fin (l : list R) :
  np_diff (map Fin l) = map Fin (successive_differences l).
Proof.
  induction l as [|x [|y t] IH]; try reflexivity.
  change (np_diff (map Fin (x :: y :: t)))
    with (nsub (Fin y) (Fin x) :: np_diff (map Fin (y :: t))).
  rewrite IH. reflexivity.
Qed.

Lemma successive_differences_length (l : list R) :
  length (successive_differences l) = (length l - 1)%nat.
Proof.
  induction l as [|x [|y t] IH]; try reflexivity.
  change (length (successive_differences (x :: y :: t)))
    with (S (length (successive_differences (y :: t)))).
  rewrite IH. simpl. lia.
Qed.

(** The percentage of elements whose absolute value strictly exceeds
    [threshold]. *)
Definition percentage_exceeding (threshold : R) (d : list R) : R :=
  INR (length (filter (fun x => Rltb threshold (Rabs x)) d))
  / INR (length d) * 100.

Lemma count_exceeding_fin (threshold : R) (d : list R) :
  count_true (map (fun x => ngt x (Fin threshold)) (map nabs (map Fin d)))
  = length (filter (fun x => Rltb threshold (Rabs x)) d).
Proof.
  unfold count_true. induction d as [|x d IH]; [reflexivity|].
  cbn [map filter nabs].
  change (ngt (Fin (Rabs x)) (Fin threshold)) with (Rltb threshold (Rabs x)).
  destruct (Rltb threshold (Rabs x)); cbn [length]; now rewrite IH.
Qed.

Lemma Rsum_squares_nonneg (d : list R) : 0 <= Rsum (map (fun x => x * x) d).
Proof.
  apply Rsum_nonneg, Forall_map, Forall_forall.
  intros x _. exact (Rle_0_sqr x).
Qed.

Lemma mean_squares_nonneg (d : list R) :
  d <> [] -> 0 <= mean (map (fun x => x * x) d).
Proof.
  intros H. unfold mean. apply Rmult_le_pos.
  - apply Rsum_squares_nonneg.
  - left. apply Rinv_0_lt_compat, lt_0_INR. rewrite length_map.
    destruct d; [contradiction|simpl; lia].
Qed.

Lemma heart_rates_fin (l : list R) :
  Forall (fun x => x <> 0) l ->
  map (fun x => ndiv (Fin 60000) x) (map Fin l)
  = map Fin (map (fun x => 60000 / x) l).
Proof.
  induction 1 as [|x l Hx _ IH]; [reflexivity|].
  cbn [map]. rewrite IH. now rewrite (ndiv_fin 60000 x Hx).
Qed.

(** *** Band integration over finite spectra *)

(** A spectrum as a list of bins [(frequency, power density)]. *)
Definition bin : Type := (R * R)%type.

Definition in_band (lo hi : R) (b : bin) : bool :=
  Rleb lo (fst b) && Rleb (fst b) hi.

(** The areas of the trapezoids between consecutive bins. *)
Fixpoint trapezoid_areas (bins : list bin) : list R :=
  match bins with
  | b0 :: (b1 :: _) as t =>
      ((fst b1 - fst b0) * (snd b1 + snd b0) / 2) :: trapezoid_areas t
  | _ => []
  end.

(** The trapezoidal rule. *)
Definition trapezoid_rule (bins : list bin) : R := Rsum (trapezoid_areas bins).

(** The trapezoidal rule over the bins whose frequency lies in [[lo, hi]]. *)
Definition band_integral (lo hi : R) (bins : list bin) : R :=
  trapezoid_rule (filter (in_band lo hi) bins).

Definition frequencies (bins : list bin) : list num :=
  map (fun b => Fin (fst b)) bins.

Definition densities (bins : list bin) : list num :=
  map (fun b => Fin (snd b)) bins.

Lemma nle_fin_Rleb (x y : R) : nle (Fin x) (Fin y) = Rleb x y.
Proof.
  unfold nle, nlt, neqb, Rleb, Rltb, Reqb.
  destruct (Rlt_dec x y), (Req_dec_T x y), (Rle_dec x y);
    simpl; try reflexivity; lra.
Qed.

Lemma mask_select_map {A B : Type} (p : A -> bool) (g : A -> B) (l : list A) :
  mask_select (map p l) (map g l) = Returned (map g (filter p l)).
Proof.
  induction l as [|x l IH]; [reflexivity|].
  cbn [map mask_select filter]. rewrite IH. cbn [bind].
  now destruct (p x).
Qed.

Lemma existsb_map_false {A : Type} (p : A -> bool) (l : list A) :
  existsb (fun b => b) (map p l) = false -> filter p l = [].
Proof.
  induction l as [|x l IH]; [reflexivity|].
  cbn [map existsb filter]. intros H. apply orb_false_iff in H.
  destruct H as [Hx Hl]. rewrite Hx. now apply IH.
Qed.

Lemma trapezoid_terms_step (y0 y1 x0 x1 : num) (yt xt : list num) :
  trapezoid_terms (y0 :: y1 :: yt) (x0 :: x1 :: xt)
  = ndiv (nmul (nsub x1 x0) (nadd y1 y0)) (Fin 2)
    :: trapezoid_terms (y1 :: yt) (x1 :: xt).
Proof. reflexivity. Qed.

Lemma trapezoid_terms_fin (bins : list bin) :
  trapezoid_terms (densities bins) (frequencies bins)
  = map Fin (trapezoid_areas bins).
Proof.
  unfold densities, frequencies.
  induction bins as [|b0 [|b1 t] IH]; try reflexivity.
  change (trapezoid_areas (b0 :: b1 :: t))
    with (((fst b1 - fst b0) * (snd b1 + snd b0) / 2) :: trapezoid_areas (b1 :: t)).
  cbn [map]. cbn [map] in IH.
  rewrite trapezoid_terms_step, IH.
  f_equal. cbn [nsub nneg nadd nmul].
  rewrite ndiv_fin by lra. reflexivity.
Qed.

Lemma np_trapezoid_fin (bins : list bin) :
  np_trapezoid (densities bins) (frequencies bins)
  = Returned (Fin (trapezoid_rule bins)).
Proof.
  unfold np_trapezoid.
  replace (Nat.eqb (length (densities bins)) (length (frequencies bins))) with true
    by (unfold densities, frequencies; rewrite !length_map;
        symmetry; apply Nat.eqb_refl).
  now rewrite trapezoid_terms_fin, np_sum_fin.
Qed.

Lemma trapezoid_rule_nonneg (bins : list bin) :
  StronglySorted (fun a b : bin => fst a <= fst b) bins ->
  Forall (fun b : bin => 0 <= snd b) bins ->
  0 <= trapezoid_rule bins.
Proof.
  unfold trapezoid_rule.
  induction bins as [|b0 [|b1 t] IH]; intros Hs Hp; try (simpl; lra).
  change (trapezoid_areas (b0 :: b1 :: t))
    with (((fst b1 - fst b0) * (snd b1 + snd b0) / 2) :: trapezoid_areas (b1 :: t)).
  cbn [Rsum fold_right].
  apply StronglySorted_inv in Hs. destruct Hs as [Hs H0].
  apply Forall_inv in H0.
  pose proof (Forall_inv Hp) as P0.
  apply Forall_inv_tail in Hp. pose proof (Forall_inv Hp) as P1.
  specialize (IH Hs Hp). unfold Rsum in IH.
  assert (0 <= (fst b1 - fst b0) * (snd b1 + snd b0)) by (apply Rmult_le_pos; lra).
  lra.
Qed.

Lemma StronglySorted_filter {A : Type} (R' : A -> A -> Prop) (p : A -> bool)
    (l : list A) :
  StronglySorted R' l -> StronglySorted R' (filter p l).
Proof.
  induction 1 as [|x l Hs IH Hx]; [constructor|].
  cbn [filter]. destruct (p x); [|exact IH].
  constructor; [exact IH|].
  rewrite Forall_forall in *. intros y Hy.
  apply filter_In in Hy. now apply Hx.
Qed.

Lemma band_integral_nonneg (lo hi : R) (bins : list bin) :
  StronglySorted (fun a b : bin => fst a <= fst b) bins ->
  Forall (fun b : bin => 0 <= snd b) bins ->
  0 <= band_integral lo hi bins.
Proof.
  intros Hs Hp. unfold band_integral. apply trapezoid_rule_nonneg.
  - now apply StronglySorted_filter.
  - rewrite Forall_forall in *. intros b Hb.
    apply filter_In in Hb. now apply Hp.
Qed.

(** *** Beat arrival times *)

(** [t[0] = t0] and [t[i] = t[i-1] + l[i-1] / 1000], one time per interval. *)
Fixpoint arrival_times (t0 : R) (l : list R) : list R :=
  match l with
  | [] => []
  | x :: rest => t0 :: arrival_times (t0 + x / 1000) rest
  end.

Lemma arrival_times_length (t0 : R) (l : list R) :
  length (arrival_times t0 l) = length l.
Proof.
  revert t0. induction l as [|x l IH]; intros t0; [reflexivity|].
  simpl. now rewrite IH.
Qed.

Lemma shifted_cumsum_fin (l : list R) (a s : R) :
  s = a / 1000 ->
  removelast (Fin s :: map (fun x => ndiv x (Fin 1000))
                           (cumsum_from (Fin a) (map Fin l)))
  = map Fin (arrival_times s l).
Proof.
  revert a s. induction l as [|y l IH]; intros a s Hs; [reflexivity|].
  cbn [map cumsum_from nadd arrival_times].
  rewrite ndiv_fin by lra.
  change (removelast (Fin s :: ?t)) with (Fin s :: removelast t).
  rewrite (IH (a + y) ((a + y) / 1000)) by reflexivity.
  do 3 f_equal. subst s. lra.
Qed.

(** *** Chebyshev distance between templates *)

Definition Rlist_max (l : list R) : R :=
  match l with
  | [] => 0
  | x :: t => fold_left Rmax t x
  end.

(** The maximum absolute per-position difference. *)
Definition chebyshev (a b : list R) : R :=
  Rlist_max (map (fun p => Rabs (fst p - snd p)) (combine a b)).

(** Two templates match when their distance is at most [r]. *)
Definition within (r : R) (a b : list R) : bool := Rleb (chebyshev a b) r.

Lemma chebyshev_sym (a b : list R) : chebyshev a b = chebyshev b a.
Proof.
  unfold chebyshev. f_equal.
  revert b. induction a as [|x a IH]; intros [|y b]; try reflexivity.
  cbn [combine map fst snd]. now rewrite IH, Rabs_minus_sym.
Qed.

Lemma within_sym (r : R) (a b : list R) : within r a b = within r b a.
Proof. unfold within. now rewrite chebyshev_sym. Qed.

Lemma np_maximum_fin (x y : R) : np_maximum (Fin x) (Fin y) = Fin (Rmax x y).
Proof.
  unfold np_maximum, isnan, nlt, Rltb, Rmax.
  destruct (Rlt_dec x y), (Rle_dec x y); try reflexivity; f_equal; lra.
Qed.

Lemma fold_np_maximum_fin (t : list R) (x : R) :
  fold_left np_maximum (map Fin t) (Fin x) = Fin (fold_left Rmax t x).
Proof.
  revert x. induction t as [|y t IH]; intros x; [reflexivity|].
  cbn [map fold_left]. now rewrite np_maximum_fin, IH.
Qed.

Lemma abs_differences_fin (a b : list R) :
  map nabs (map (fun p => nsub (fst p) (snd p)) (combine (map Fin a) (map Fin b)))
  = map Fin (map (fun p => Rabs (fst p - snd p)) (combine a b)).
Proof.
  revert b. induction a as [|x a IH]; intros [|y b]; try reflexivity.
  cbn [combine map fst snd]. rewrite <- IH. reflexivity.
Qed.

Lemma np_max_abs_differences (a b : list R) :
  a <> [] -> b <> [] ->
  np_max (map nabs (map (fun p => nsub (fst p) (snd p))
                        (combine (map Fin a) (map Fin b))))
  = Returned (Fin (chebyshev a b)).
Proof.
  intros Ha Hb. rewrite abs_differences_fin. unfold chebyshev.
  destruct a as [|x a]; [contradiction|].
  destruct b as [|y b]; [contradiction|].
  cbn [combine map np_max Rlist_max]. now rewrite fold_np_maximum_fin.
Qed.

Lemma fold_Rmax_le (t : list R) (x r : R) :
  fold_left Rmax t x <= r <-> x <= r /\ Forall (fun y => y <= r) t.
Proof.
  revert x. induction t as [|y t IH]; intros x; cbn [fold_left].
  - split; [intros H; split; [exact H|constructor] | tauto].
  - rewrite IH. split.
    + intros [H1 H2]. pose proof (Rmax_l x y). pose proof (Rmax_r x y).
      split; [lra|]. constructor; [lra|exact H2].
    + intros [H1 H2]. pose proof (Forall_inv H2) as Hy.
      apply Forall_inv_tail in H2. split; [|exact H2].
      now apply Rmax_lub.
Qed.


Lemma arrival_times_nth (l : list R) (t0 : R) (i : nat) :
  (S i < length l)%nat ->
  nth (S i) (arrival_times t0 l) 0 = nth i (arrival_times t0 l) 0 + nth i l 0 / 1000.
Proof.
  revert t0 i. induction l as [|x l IH]; intros t0 i H; [simpl in H; lia|].
  cbn [arrival_times length] in *. destruct i as [|j].
  - destruct l as [|y l]; [simpl in H; lia|]. reflexivity.
  - cbn [nth]. apply IH. lia.
Qed.

Lemma Rlist_max_le (xs : list R) (r : R) :
  Forall (fun x => 0 <= x) xs ->
  (Rlist_max xs <= r <-> 0 <= r /\ Forall (fun x => x <= r) xs).
Proof.
  intros Hpos. destruct xs as [|x t]; cbn [Rlist_max].
  - split; [intros H; split; [exact H|constructor]|tauto].
  - rewrite fold_Rmax_le. pose proof (Forall_inv Hpos) as Hx. split.
    + intros [H1 H2]. split; [lra|now constructor].
    + intros [_ H]. split; [exact (Forall_inv H)|exact (Forall_inv_tail H)].
Qed.

Lemma abs_differences_nonneg (a b : list R) :
  Forall (fun x => 0 <= x)
         (map (fun p => Rabs (fst p - snd p)) (combine a b)).
Proof.
  apply Forall_map, Forall_forall. intros p _. apply Rabs_pos.
Qed.

(** Templates that match still match when both are cut to their first [m]
    positions. *)
Lemma within_firstn (r : R) (m : nat) (a b : list R) :
  within r a b = true -> within r (firstn m a) (firstn m b) = true.
Proof.
  unfold within, chebyshev, Rleb.
  destruct (Rle_dec (Rlist_max _) r) as [H|H]; [intros _|discriminate].
  apply Rlist_max_le in H; [|apply abs_differences_nonneg].
  destruct H as [H0 H].
  destruct (Rle_dec _ r) as [G|G]; [reflexivity|exfalso; apply G].
  apply Rlist_max_le; [apply abs_differences_nonneg|].
  split; [exact H0|].
  rewrite <- combine_firstn, <- firstn_map.
  rewrite Forall_forall in *. intros x Hx. apply H.
  revert Hx. generalize (map (fun p => Rabs (fst p - snd p)) (combine a b)).
  clear. intros l. revert m. induction l as [|y l IH]; intros [|m] Hx;
    try contradiction.
  destruct Hx as [->|Hx]; [now left|right; now apply (IH m)].
Qed.

(** *** Bounds on means and percentages *)

Lemma Rsum_bounds (a b : R) (l : list R) :
  Forall (fun x => a <= x <= b) l ->
  INR (length l) * a <= Rsum l <= INR (length l) * b.
Proof.
  induction 1 as [|x l Hx _ IH].
  - simpl. lra.
  - change (length (x :: l)) with (S (length l)). rewrite S_INR.
    simpl Rsum. lra.
Qed.

Lemma mean_bounds (a b : R) (l : list R) :
  l <> [] -> Forall (fun x => a <= x <= b) l -> a <= mean l <= b.
Proof.
  intros Hl H. pose proof (Rsum_bounds a b l H) as [H1 H2].
  assert (Hn : 0 < INR (length l))
    by (apply lt_0_INR; destruct l; [contradiction|simpl; lia]).
  unfold mean. split.
  - apply Rmult_le_reg_r with (INR (length l)); [exact Hn|].
    unfold Rdiv. rewrite Rmult_assoc, Rinv_l by lra. lra.
  - apply Rmult_le_reg_r with (INR (length l)); [exact Hn|].
    unfold Rdiv. rewrite Rmult_assoc, Rinv_l by lra. lra.
Qed.

Lemma percentage_exceeding_bounds (threshold : R) (d : list R) :
  d <> [] -> 0 <= percentage_exceeding threshold d <= 100.
Proof.
  intros Hd. unfold percentage_exceeding.
  set (k := length (filter _ d)).
  assert (Hk : (k <= length d)%nat) by apply filter_length_le.
  assert (Hn : 0 < INR (length d))
    by (apply lt_0_INR; destruct d; [contradiction|simpl; lia]).
  assert (H0 : 0 <= INR k) by apply pos_INR.
  assert (H1 : INR k <= INR (length d)) by now apply le_INR.
  assert (Hq : 0 <= INR k / INR (length d) <= 1).
  { split.
    - apply Rmult_le_pos; [exact H0|]. left. now apply Rinv_0_lt_compat.
    - apply Rmult_le_reg_r with (INR (length d)); [exact Hn|].
      unfold Rdiv. rewrite Rmult_assoc, Rinv_l by lra. lra. }
  lra.
Qed.

(** *** Constant sequences *)

Lemma Rsum_repeat (c : R) (n : nat) : Rsum (repeat c n) = INR n * c.
Proof.
  induction n as [|n IH]; [simpl; lra|].
  rewrite S_INR. simpl. rewrite IH. lra.
Qed.

Lemma mean_repeat (c : R) (n : nat) : n <> 0%nat -> mean (repeat c n) = c.
Proof.
  intros H. unfold mean. rewrite Rsum_repeat, repeat_length.
  field. now apply not_0_INR.
Qed.

Lemma Rsum_zeros (l : list R) : Forall (fun x => x = 0) l -> Rsum l = 0.
Proof. induction 1; simpl; lra. Qed.

Lemma sample_std_repeat (c : R) (n : nat) : sample_std (repeat c n) = 0.
Proof.
  unfold sample_std. rewrite Rsum_zeros.
  - unfold Rdiv. rewrite Rmult_0_l. apply sqrt_0.
  - unfold squared_deviations. apply Forall_map, Forall_forall.
    intros x Hx.
    destruct n as [|n]; [contradiction|].
    apply repeat_spec in Hx. subst x.
    rewrite mean_repeat by discriminate. lra.
Qed.

Lemma successive_differences_repeat (c : R) (n : nat) :
  Forall (fun x => x = 0) (successive_differences (repeat c n)).
Proof.
  induction n as [|[|n] IH]; try constructor.
  - simpl. lra.
  - exact IH.
Qed.

End Numeric.

(* ================================================================== *)
(** ** core/feature_extractor.py: the data classes *)
(* ================================================================== *)

Module TimeDomainFeatures.
Import PyData Numeric.
Local Open Scope string_scope.

Record t : Type := mk {
  mean_rr : num;
  sdnn : num;
  rmssd : num;
  pnn50 : num;
  pnn20 : num;
  mean_hr : num;
  std_hr : num;
  cv_rr : num;
  num_intervals : Z;
  is_valid : bool
}.

Definition to_dict (self : t) : dict num :=
  dict_literal
    [("mean_rr", mean_rr self); ("sdnn", sdnn self); ("rmssd", rmssd self);
     ("pnn50", pnn50 self); ("pnn20", pnn20 self); ("mean_hr", mean_hr self);
     ("std_hr", std_hr self); ("cv_rr", cv_rr self)].

Definition to_array (self : t) : list num :=
  [mean_rr self; sdnn self; rmssd self; pnn50 self;
   pnn20 self; mean_hr self; std_hr self; cv_rr self].

End TimeDomainFeatures.

Module FrequencyDomainFeatures.
Import PyData Numeric.
Local Open Scope string_scope.

Record t : Type := mk {
  lf_power : num;
  hf_power : num;
  lf_hf_ratio : num;
  total_power : num;
  lf_nu : num;
  hf_nu : num;
  num_intervals : Z;
  is_valid : bool
}.

Definition to_dict (self : t) : dict num :=
  dict_literal
    [("lf_power", lf_power self); ("hf_power", hf_power self);
     ("lf_hf_ratio", lf_hf_ratio self); ("total_power", total_power self);
     ("lf_nu", lf_nu self); ("hf_nu", hf_nu self)].

Definition to_array (self : t) : list num :=
  [lf_power self; hf_power self; lf_hf_ratio self;
   total_power self; lf_nu self; hf_nu self].

End FrequencyDomainFeatures.

Module NonlinearFeatures.
Import PyData Numeric.
Local Open Scope string_scope.

Record t : Type := mk {
  sample_entropy : num;
  num_intervals : Z;
  is_valid : bool
}.

Definition to_dict (self : t) : dict num :=
  dict_literal [("sample_entropy", sample_entropy self)].

Definition to_array (self : t) : list num := [sample_entropy self].

End NonlinearFeatures.

Module HRVFeatures.
Import PyData Numeric.
Local Open Scope string_scope.

Record t : Type := mk {
  time_domain : TimeDomainFeatures.t;
  frequency_domain : FrequencyDomainFeatures.t;
  nonlinear : NonlinearFeatures.t;
  num_intervals : Z;
  is_valid : bool;
  invalid_domains : list string
}.

Definition to_dict (self : t) : dict num :=
  let result := [] in
  let result := dict_update result (TimeDomainFeatures.to_dict (time_domain self)) in
  let result := dict_update result (FrequencyDomainFeatures.to_dict (frequency_domain self)) in
  let result := dict_update result (NonlinearFeatures.to_dict (nonlinear self)) in
  result.

(** [np.concatenate]. *)
Definition to_array (self : t) : list num :=
  TimeDomainFeatures.to_array (time_domain self)
  ++ FrequencyDomainFeatures.to_array (frequency_domain self)
  ++ NonlinearFeatures.to_array (nonlinear self).

End HRVFeatures.

(* ================================================================== *)
(** ** core/feature_extractor.py: [HRVFeatureExtractor] *)
(* ================================================================== *)

Module HRVFeatureExtractor.
Import PyData Numeric.
Local Open Scope string_scope.
Local Open Scope list_scope.
Local Open Scope Z_scope.

Definition FEATURE_NAMES : list string :=
  ["mean_rr"; "sdnn"; "rmssd"; "pnn50";
   "pnn20"; "mean_hr"; "std_hr"; "cv_rr";
   "lf_power"; "hf_power"; "lf_hf_ratio";
   "total_power"; "lf_nu"; "hf_nu";
   "sample_entropy"].

Definition LF_BAND : num * num := (Fin (4 / 100), Fin (15 / 100)).
Definition HF_BAND : num * num := (Fin (15 / 100), Fin (40 / 100)).

(** The attributes [__init__] stores; [nl_m] is a non-negative [int]. *)
Record t : Type := mk {
  td_min_intervals : Z;
  fd_resample_rate : num;
  fd_min_intervals : Z;
  nl_m : nat;
  nl_r_factor : num;
  nl_min_intervals : Z
}.

(** [HRVFeatureExtractor()] with the default arguments. *)
Definition default : t := {|
  td_min_intervals := 10;
  fd_resample_rate := Fin 4;
  fd_min_intervals := 20;
  nl_m := 2;
  nl_r_factor := Fin (2 / 10);
  nl_min_intervals := 30
|}.

(** The two scipy entry points the extractor calls.  [interp1d x y] is
    [interpolate.interp1d(x, y, kind='cubic', fill_value='extrapolate')],
    a callable or an exception; [welch x fs nperseg noverlap] is
    [signal.welch(x, fs=fs, nperseg=nperseg, noverlap=noverlap,
    detrend='linear', scaling='density')], the pair [(freqs, psd)] or an
    exception. *)
Record SciPy : Type := {
  interp1d : list num -> list num -> outcome (num -> num);
  welch : list num -> num -> Z -> Z -> outcome (list num * list num)
}.

Definition len {A : Type} (l : list A) : Z := Z.of_nat (length l).

(** *** Time domain *)

Definition _invalid_time_domain (n : Z) : TimeDomainFeatures.t :=
  TimeDomainFeatures.mk NaN NaN NaN NaN NaN NaN NaN NaN n false.

Definition _validate_time_domain (f : TimeDomainFeatures.t) : bool :=
  let values := TimeDomainFeatures.to_array f in
  if existsb (fun v => negb (isfinite v)) values then false
  else if nle (TimeDomainFeatures.mean_rr f) (Fin 0)
          || ngt (TimeDomainFeatures.mean_rr f) (Fin 3000) then false
  else if nle (TimeDomainFeatures.mean_hr f) (Fin 0)
          || ngt (TimeDomainFeatures.mean_hr f) (Fin 300) then false
  else if nlt (TimeDomainFeatures.sdnn f) (Fin 0)
          || nlt (TimeDomainFeatures.rmssd f) (Fin 0) then false
  else if nlt (TimeDomainFeatures.pnn50 f) (Fin 0)
          || ngt (TimeDomainFeatures.pnn50 f) (Fin 100) then false
  else true.

(** [float(np.sum(abs_diff > x) / len(diff) * 100) if len(diff) > 0 else 0.0]. *)
Definition pnn (threshold : R) (diff abs_diff : list num) : num :=
  if len diff >? 0
  then nmul (ndiv (of_nat (count_true (map (fun d => ngt d (Fin threshold)) abs_diff)))
                  (of_Z (len diff)))
            (Fin 100)
  else Fin 0.

(** The body of the [try] block: nothing in it raises on an array of
    floats, so the [except] branch is never taken. *)
Definition _extract_time_domain (self : t) (rr_ms : list num)
  : TimeDomainFeatures.t :=
  let n := len rr_ms in
  if n <? td_min_intervals self then _invalid_time_domain n else
  let mean_rr := np_mean rr_ms in
  let sdnn := np_std_ddof1 rr_ms in
  let diff := np_diff rr_ms in
  let rmssd := nsqrt (np_mean (map (fun d => nmul d d) diff)) in
  let abs_diff := map nabs diff in
  let pnn50 := pnn 50 diff abs_diff in
  let pnn20 := pnn 20 diff abs_diff in
  let hr_bpm := map (fun x => ndiv (Fin 60000) x) rr_ms in
  let mean_hr := np_mean hr_bpm in
  let std_hr := np_std_ddof1 hr_bpm in
  let cv_rr := if ngt mean_rr (Fin 0)
               then nmul (ndiv sdnn mean_rr) (Fin 100) else Fin 0 in
  let features :=
    TimeDomainFeatures.mk mean_rr sdnn rmssd pnn50 pnn20 mean_hr std_hr cv_rr
      n true in
  if negb (_validate_time_domain features) then
    TimeDomainFeatures.mk
      (TimeDomainFeatures.mean_rr features) (TimeDomainFeatures.sdnn features)
      (TimeDomainFeatures.rmssd features) (TimeDomainFeatures.pnn50 features)
      (TimeDomainFeatures.pnn20 features) (TimeDomainFeatures.mean_hr features)
      (TimeDomainFeatures.std_hr features) (TimeDomainFeatures.cv_rr features)
      n false
  else features.

(** *** Frequency domain *)

Definition _invalid_frequency_domain (n : Z) : FrequencyDomainFeatures.t :=
  FrequencyDomainFeatures.mk NaN NaN NaN NaN NaN NaN n false.

Definition _validate_frequency_domain (f : FrequencyDomainFeatures.t) : bool :=
  if negb (isfinite (FrequencyDomainFeatures.lf_power f))
     || negb (isfinite (FrequencyDomainFeatures.hf_power f)) then false
  else if nlt (FrequencyDomainFeatures.lf_power f) (Fin 0)
          || nlt (FrequencyDomainFeatures.hf_power f) (Fin 0) then false
  else true.

(** [time_sec[-1]]. *)
Definition last_item (l : list num) : outcome num :=
  match l with
  | [] => Raised IndexError
  | x :: t => Returned (last t x)
  end.

(** The time axis of [_extract_frequency_domain]:
    [np.insert(np.cumsum(rr_ms) / 1000.0, 0, 0)[:-1]]. *)
Definition time_axis (rr_ms : list num) : list num :=
  let time_ms := np_cumsum rr_ms in
  let time_sec := map (fun x => ndiv x (Fin 1000)) time_ms in
  removelast (Fin 0 :: time_sec).

Section WithSciPy.

Variable scipy : SciPy.

Definition _interpolate_rr (self : t) (rr_ms time_sec : list num)
  : outcome (list num * list num) :=
  f_interp <- interp1d scipy time_sec rr_ms ;;
  duration <- last_item time_sec ;;
  n_samples <- py_int (nmul duration (fd_resample_rate self)) ;;
  t_uniform <- np_linspace0 duration n_samples ;;
  let rr_uniform := map f_interp t_uniform in
  Returned (rr_uniform, t_uniform).

Definition _compute_psd (self : t) (rr_interp : list num)
  : outcome (list num * list num) :=
  let nperseg := Z.max 16 (len rr_interp / 2) in
  welch scipy rr_interp (fd_resample_rate self) nperseg (nperseg / 2).

Definition _band_power (freqs psd : list num) (band : num * num)
  : outcome num :=
  let idx := map (fun f => nge f (fst band) && nle f (snd band)) freqs in
  if negb (existsb (fun b => b) idx) then Returned (Fin 0) else
  y <- mask_select idx psd ;;
  x <- mask_select idx freqs ;;
  np_trapezoid y x.

(** Steps 4 and 5 of the extraction: band powers and derived fields. *)
Definition spectral_features (n : Z) (freqs psd : list num)
  : outcome FrequencyDomainFeatures.t :=
  lf_power <- _band_power freqs psd LF_BAND ;;
  hf_power <- _band_power freqs psd HF_BAND ;;
  let total_power := nadd lf_power hf_power in
  let lf_hf_ratio :=
    if ngt hf_power (Fin 0) then ndiv lf_power hf_power else NaN in
  let lf_nu :=
    if ngt total_power (Fin 0)
    then nmul (ndiv lf_power total_power) (Fin 100) else NaN in
  let hf_nu :=
    if ngt total_power (Fin 0)
    then nmul (ndiv hf_power total_power) (Fin 100) else NaN in
  let features :=
    FrequencyDomainFeatures.mk lf_power hf_power lf_hf_ratio total_power
      lf_nu hf_nu n true in
  if negb (_validate_frequency_domain features) then
    Returned (FrequencyDomainFeatures.mk
      (FrequencyDomainFeatures.lf_power features)
      (FrequencyDomainFeatures.hf_power features)
      (FrequencyDomainFeatures.lf_hf_ratio features)
      (FrequencyDomainFeatures.total_power features)
      (FrequencyDomainFeatures.lf_nu features)
      (FrequencyDomainFeatures.hf_nu features)
      n false)
  else Returned features.

Definition _extract_frequency_domain (self : t) (rr_ms : list num)
  : FrequencyDomainFeatures.t :=
  let n := len rr_ms in
  if n <? fd_min_intervals self then _invalid_frequency_domain n else
  try_except
    (let time_sec := time_axis rr_ms in
     interp <- _interpolate_rr self rr_ms time_sec ;;
     let rr_interp := fst interp in
     if len rr_interp <? 10 then Returned (_invalid_frequency_domain n) else
     spectrum <- _compute_psd self rr_interp ;;
     spectral_features n (fst spectrum) (snd spectrum))
    (_invalid_frequency_domain n).

(** *** Non-linear *)

Definition _invalid_nonlinear (n : Z) : NonlinearFeatures.t :=
  NonlinearFeatures.mk NaN n false.

Definition _validate_nonlinear (f : NonlinearFeatures.t) : bool :=
  if negb (isfinite (NonlinearFeatures.sample_entropy f)) then false
  else if nlt (NonlinearFeatures.sample_entropy f) (Fin 0) then false
  else true.

(** [signal_data[i:i+m]]. *)
Definition slice (signal_data : list num) (i m : nat) : list num :=
  firstn m (skipn i signal_data).

(** [[signal_data[i:i+m] for i in range(N - m)]]. *)
Definition templates_of (signal_data : list num) (m : nat) : list (list num) :=
  let N := length signal_data in
  map (fun i => slice signal_data i m) (seq 0 (N - m)).

(** [np.max(np.abs(a - b))]. *)
Definition template_dist (a b : list num) : outcome num :=
  np_max (map nabs (map (fun p => nsub (fst p) (snd p)) (combine a b))).

(** The inner loop [for j in range(i + 1, len(templates))]. *)
Fixpoint count_inner (r : num) (ti : list num) (later : list (list num))
    (count : Z) : outcome Z :=
  match later with
  | [] => Returned count
  | tj :: later' =>
      dist <- template_dist ti tj ;;
      count_inner r ti later' (if nle dist r then count + 1 else count)
  end.

(** The outer loop [for i in range(len(templates))]. *)
Fixpoint count_outer (r : num) (templates : list (list num)) (count : Z)
  : outcome Z :=
  match templates with
  | [] => Returned count
  | ti :: later =>
      count' <- count_inner r ti later count ;;
      count_outer r later count'
  end.

Definition _count_matches (signal_data : list num) (m : nat) (r : num)
  : outcome Z :=
  let count := 0 in
  let templates := templates_of signal_data m in
  count_outer r templates count.

(** The tolerance [r] is the exact product here; the properties of the
    lines below it are stated for every value of [r]
    ([sample_entropy_with_tolerance]). *)
Definition _sample_entropy (signal_data : list num) (m : nat) (r_factor : num)
  : outcome num :=
  let r := nmul r_factor (np_std_ddof1 signal_data) in
  if neqb r (Fin 0) then Returned (Fin 0) else
  B <- _count_matches signal_data m r ;;
  A <- _count_matches signal_data (m + 1) r ;;
  if (A =? 0) || (B =? 0) then Returned NaN else
  Returned (nneg (nlog (ndiv (of_Z A) (of_Z B)))).

Definition _extract_nonlinear (self : t) (rr_ms : list num)
  : NonlinearFeatures.t :=
  let n := len rr_ms in
  if n <? nl_min_intervals self then _invalid_nonlinear n else
  try_except
    (sampen <- _sample_entropy rr_ms (nl_m self) (nl_r_factor self) ;;
     let features := NonlinearFeatures.mk sampen n true in
     if negb (_validate_nonlinear features) then
       Returned (NonlinearFeatures.mk
                   (NonlinearFeatures.sample_entropy features) n false)
     else Returned features)
    (_invalid_nonlinear n).

(** *** The aggregator *)

Definition extract (self : t) (rr_ms : list num) : HRVFeatures.t :=
  let n := len rr_ms in
  let invalid_domains := [] in
  let td_features := _extract_time_domain self rr_ms in
  let invalid_domains :=
    if negb (TimeDomainFeatures.is_valid td_features)
    then invalid_domains ++ ["time_domain"] else invalid_domains in
  let fd_features := _extract_frequency_domain self rr_ms in
  let invalid_domains :=
    if negb (FrequencyDomainFeatures.is_valid fd_features)
    then invalid_domains ++ ["frequency_domain"] else invalid_domains in
  let nl_features := _extract_nonlinear self rr_ms in
  let invalid_domains :=
    if negb (NonlinearFeatures.is_valid nl_features)
    then invalid_domains ++ ["nonlinear"] else invalid_domains in
  let is_valid := TimeDomainFeatures.is_valid td_features in
  HRVFeatures.mk td_features fd_features nl_features n is_valid invalid_domains.

End WithSciPy.

(** *** The aggregator's validity flag and list of invalid domains *)

(** C1.  For every input array, the overall [is_valid] of the result of
    [extract] is the [is_valid] of its time-domain features, which are those
    of the time-domain extractor alone, whatever the frequency-domain and
    non-linear extractors return; and [invalid_domains] holds exactly the
    names of the domains whose extractor returned [is_valid = false]. *)
Theorem extract_validity_is_time_domain
    (scipy : SciPy) (self : t) (rr_ms : list num) :
  let f := extract scipy self rr_ms in
  HRVFeatures.time_domain f = _extract_time_domain self rr_ms
  /\ HRVFeatures.frequency_domain f = _extract_frequency_domain scipy self rr_ms
  /\ HRVFeatures.nonlinear f = _extract_nonlinear self rr_ms
  /\ HRVFeatures.is_valid f
     = TimeDomainFeatures.is_valid (HRVFeatures.time_domain f)
  /\ (HRVFeatures.is_valid f = true
      <-> TimeDomainFeatures.is_valid (_extract_time_domain self rr_ms) = true)
  /\ (forall name : string,
        In name (HRVFeatures.invalid_domains f) <->
        (name = "time_domain"
         /\ TimeDomainFeatures.is_valid (HRVFeatures.time_domain f) = false)
        \/ (name = "frequency_domain"
            /\ FrequencyDomainFeatures.is_valid (HRVFeatures.frequency_domain f) = false)
        \/ (name = "nonlinear"
            /\ NonlinearFeatures.is_valid (HRVFeatures.nonlinear f) = false))
  /\ NoDup (HRVFeatures.invalid_domains f).
Proof.
  cbv zeta. unfold extract. cbn [HRVFeatures.time_domain
    HRVFeatures.frequency_domain HRVFeatures.nonlinear HRVFeatures.is_valid
    HRVFeatures.invalid_domains].
  repeat (split; [reflexivity|]).
  destruct (TimeDomainFeatures.is_valid (_extract_time_domain self rr_ms));
  destruct (FrequencyDomainFeatures.is_valid
              (_extract_frequency_domain scipy self rr_ms));
  destruct (NonlinearFeatures.is_valid (_extract_nonlinear self rr_ms));
  cbn [negb app]; (split;
    [ intros name; cbn [In]; split;
      [ intros H; repeat destruct H as [H|H]; subst; auto; contradiction
      | intros [[-> H]|[[-> H]|[-> H]]]; try discriminate H; auto ]
    | repeat constructor; cbn [In]; intros H;
      repeat destruct H as [H|H]; try discriminate H; contradiction ]).
Qed.

(** *** The time-domain fields *)

(** With enough intervals the eight fields are the computed values, whether
    or not the validity gate accepts them; the flag is the gate's verdict. *)
Lemma extract_time_domain_fields (self : t) (rr_ms : list num) :
  td_min_intervals self <= len rr_ms ->
  let f := _extract_time_domain self rr_ms in
  let diff := np_diff rr_ms in
  let hr_bpm := map (fun x => ndiv (Fin 60000) x) rr_ms in
  TimeDomainFeatures.mean_rr f = np_mean rr_ms
  /\ TimeDomainFeatures.sdnn f = np_std_ddof1 rr_ms
  /\ TimeDomainFeatures.rmssd f = nsqrt (np_mean (map (fun d => nmul d d) diff))
  /\ TimeDomainFeatures.pnn50 f = pnn 50 diff (map nabs diff)
  /\ TimeDomainFeatures.pnn20 f = pnn 20 diff (map nabs diff)
  /\ TimeDomainFeatures.mean_hr f = np_mean hr_bpm
  /\ TimeDomainFeatures.std_hr f = np_std_ddof1 hr_bpm
  /\ TimeDomainFeatures.cv_rr f
     = (if ngt (np_mean rr_ms) (Fin 0)
        then nmul (ndiv (np_std_ddof1 rr_ms) (np_mean rr_ms)) (Fin 100)
        else Fin 0)
  /\ TimeDomainFeatures.num_intervals f = len rr_ms
  /\ TimeDomainFeatures.is_valid f = _validate_time_domain f.
Proof.
  intros H. cbv zeta. unfold _extract_time_domain.
  apply Z.ltb_ge in H. rewrite H.
  match goal with
  | |- context [if negb (_validate_time_domain ?x) then _ else _] =>
      destruct (_validate_time_domain x) eqn:E
  end; cbn [negb].
  - rewrite E. cbn. repeat split; reflexivity.
  - cbn [TimeDomainFeatures.mean_rr TimeDomainFeatures.sdnn
         TimeDomainFeatures.rmssd TimeDomainFeatures.pnn50
         TimeDomainFeatures.pnn20 TimeDomainFeatures.mean_hr
         TimeDomainFeatures.std_hr TimeDomainFeatures.cv_rr
         TimeDomainFeatures.num_intervals TimeDomainFeatures.is_valid].
    repeat (split; [reflexivity|]).
    symmetry. exact E.
Qed.

Lemma pnn_fin (threshold : R) (d : list R) :
  d <> [] ->
  pnn threshold (map Fin d) (map nabs (map Fin d))
  = Fin (percentage_exceeding threshold d).
Proof.
  intros H. unfold pnn, len. rewrite length_map.
  assert (Hlen : (0 < length d)%nat) by (destruct d; [contradiction|simpl; lia]).
  replace (Z.of_nat (length d) >? 0) with true
    by (symmetry; apply Z.gtb_lt; lia).
  rewrite count_exceeding_fin. unfold of_nat, of_Z.
  rewrite <- INR_IZR_INZ.
  rewrite ndiv_fin by (apply not_0_INR; lia).
  reflexivity.
Qed.

(** C6.  On a sequence of [n >= td_min_intervals] positive reals ([n >= 2],
    so that the divisor [n - 1] is not zero) the time-domain extractor
    returns: the arithmetic mean; the sample standard deviation; the square
    root of the mean squared successive difference; the percentages of
    successive differences whose absolute value strictly exceeds 50 and 20;
    the mean and the sample standard deviation of [60000 / rr[i]]; and
    [sdnn / mean_rr * 100].  Whatever the input, [cv_rr] is 0 when [mean_rr]
    is 0.  On an all-equal sequence [rmssd], [pnn50] and [pnn20] are 0, the
    successive differences being 0; [sdnn] is 0 when the common value is an
    integer [z] with [n * |z| <= 2^53], the case in which binary64 adds the
    intervals without rounding. *)
Theorem time_domain_formulas (self : t) (l : list R) :
  td_min_intervals self <= len l ->
  (2 <= length l)%nat ->
  Forall (fun x => (0 < x)%R) l ->
  let f := _extract_time_domain self (map Fin l) in
  let d := successive_differences l in
  let hr := map (fun x => (60000 / x)%R) l in
  TimeDomainFeatures.mean_rr f = Fin (mean l)
  /\ TimeDomainFeatures.sdnn f = Fin (sample_std l)
  /\ TimeDomainFeatures.rmssd f = Fin (sqrt (mean (map (fun x => (x * x)%R) d)))
  /\ TimeDomainFeatures.pnn50 f = Fin (percentage_exceeding 50 d)
  /\ TimeDomainFeatures.pnn20 f = Fin (percentage_exceeding 20 d)
  /\ TimeDomainFeatures.mean_hr f = Fin (mean hr)
  /\ TimeDomainFeatures.std_hr f = Fin (sample_std hr)
  /\ TimeDomainFeatures.cv_rr f = Fin (sample_std l / mean l * 100)
  /\ (forall rr_ms : list num,
        td_min_intervals self <= len rr_ms ->
        TimeDomainFeatures.mean_rr (_extract_time_domain self rr_ms) = Fin 0 ->
        TimeDomainFeatures.cv_rr (_extract_time_domain self rr_ms) = Fin 0)
  /\ (forall c : R, l = repeat c (length l) ->
        TimeDomainFeatures.rmssd f = Fin 0
        /\ TimeDomainFeatures.pnn50 f = Fin 0
        /\ TimeDomainFeatures.pnn20 f = Fin 0)
  /\ (forall z : Z, l = repeat (IZR z) (length l) ->
        Z.of_nat (length l) * Z.abs z <= 2 ^ 53 ->
        TimeDomainFeatures.sdnn f = Fin 0).
Proof.
  intros Hmin Hn Hpos. cbv zeta.
  assert (Hl : l <> []) by (destruct l; [simpl in Hn; lia|discriminate]).
  assert (Hd : successive_differences l <> []).
  { intros E. apply (f_equal (@length R)) in E.
    rewrite successive_differences_length in E. simpl in E. lia. }
  assert (Hnz : Forall (fun x => x <> 0%R) l).
  { eapply Forall_impl; [|exact Hpos]. intros x Hx. cbv beta in Hx. lra. }
  assert (Hmean : (0 < mean l)%R).
  { unfold mean. apply Rmult_lt_0_compat.
    - destruct Hpos as [|x l' Hx Hl']; [contradiction|].
      simpl. assert (0 <= Rsum l')%R.
      { apply Rsum_nonneg. eapply Forall_impl; [|exact Hl'].
        intros y Hy. cbv beta in Hy. lra. }
      lra.
    - apply Rinv_0_lt_compat, lt_0_INR. lia. }
  pose proof (extract_time_domain_fields self (map Fin l)) as F.
  unfold len in F. rewrite length_map in F. specialize (F Hmin).
  cbv zeta in F.
  destruct F as (F1 & F2 & F3 & F4 & F5 & F6 & F7 & F8 & _).
  rewrite np_mean_fin in F1, F8 by exact Hl.
  rewrite np_std_fin in F2, F8 by exact Hn.
  rewrite np_diff_fin in F3, F4, F5.
  rewrite map_map in F3.
  replace (map (fun x => nmul (Fin x) (Fin x)) (successive_differences l))
    with (map Fin (map (fun x => (x * x)%R) (successive_differences l))) in F3
    by (rewrite map_map; reflexivity).
  rewrite np_mean_fin in F3
    by (intros E; apply map_eq_nil in E; contradiction).
  rewrite nsqrt_fin in F3 by (apply mean_squares_nonneg; exact Hd).
  rewrite pnn_fin in F4, F5 by exact Hd.
  rewrite heart_rates_fin in F6, F7 by exact Hnz.
  rewrite np_mean_fin in F6
    by (intros E; apply map_eq_nil in E; contradiction).
  rewrite np_std_fin in F7 by (rewrite length_map; exact Hn).
  replace (ngt (Fin (mean l)) (Fin 0)) with true in F8
    by (symmetry; apply ngt_fin; exact Hmean).
  rewrite ndiv_fin in F8 by lra.
  cbn [nmul] in F8.
  repeat (split; [assumption|]).
  split.
  - intros rr Hrr Hzero.
    pose proof (extract_time_domain_fields self rr Hrr) as G.
    cbv zeta in G. destruct G as (G1 & _ & _ & _ & _ & _ & _ & G8 & _).
    rewrite G8. rewrite <- G1, Hzero.
    replace (ngt (Fin 0) (Fin 0)) with false
      by (symmetry; apply ngt_fin_false; lra).
    reflexivity.
  - split; [|intros z Hc _; rewrite F2, Hc; now rewrite sample_std_repeat].
    intros c Hc.
    assert (Hz : Forall (fun x => x = 0%R) (successive_differences l))
      by (rewrite Hc; apply successive_differences_repeat).
    rewrite F3, F4, F5. repeat split.
    + f_equal. unfold mean.
      rewrite Rsum_zeros.
      * unfold Rdiv. rewrite Rmult_0_l. apply sqrt_0.
      * apply Forall_map. eapply Forall_impl; [|exact Hz].
        intros x Hx. cbv beta in Hx. subst x. lra.
    + f_equal. unfold percentage_exceeding.
      rewrite filter_none.
      * simpl. unfold Rdiv. lra.
      * intros x Hx. rewrite Forall_forall in Hz. rewrite (Hz x Hx).
        rewrite Rabs_R0. apply Rltb_false. lra.
    + f_equal. unfold percentage_exceeding.
      rewrite filter_none.
      * simpl. unfold Rdiv. lra.
      * intros x Hx. rewrite Forall_forall in Hz. rewrite (Hz x Hx).
        rewrite Rabs_R0. apply Rltb_false. lra.
Qed.

(** Ten intervals of 800 ms: every hypothesis of the theorem holds and the
    variability fields vanish. *)
Lemma time_domain_formulas_witness :
  let f := _extract_time_domain default (map Fin (repeat (IZR 800) 10)) in
  TimeDomainFeatures.sdnn f = Fin 0 /\ TimeDomainFeatures.rmssd f = Fin 0.
Proof.
  assert (H1 : td_min_intervals default <= len (repeat (IZR 800) 10))
    by (unfold len; simpl; lia).
  assert (H2 : (2 <= length (repeat (IZR 800) 10))%nat) by (simpl; lia).
  assert (H3 : Forall (fun x => (0 < x)%R) (repeat (IZR 800) 10))
    by (repeat constructor; lra).
  pose proof (time_domain_formulas default (repeat (IZR 800) 10) H1 H2 H3) as H.
  cbv zeta in H.
  destruct H as (_ & _ & _ & _ & _ & _ & _ & _ & _ & Hc & Hz).
  destruct (Hc (IZR 800) eq_refl) as (Hr & _).
  split; [|exact Hr].
  apply (Hz 800 eq_refl). vm_compute. discriminate.
Defined.

(** *** What an invalid domain result carries *)

Definition all_nan (values : list num) : Prop :=
  Forall (fun v => v = NaN) values.

(** The frequency-domain flag of a computed result is the gate's verdict. *)
Lemma spectral_features_flag (n : Z) (freqs psd : list num)
    (f : FrequencyDomainFeatures.t) :
  spectral_features n freqs psd = Returned f ->
  FrequencyDomainFeatures.is_valid f = _validate_frequency_domain f.
Proof.
  unfold spectral_features.
  destruct (_band_power freqs psd LF_BAND) as [lf|e]; [|discriminate].
  destruct (_band_power freqs psd HF_BAND) as [hf|e]; [|discriminate].
  cbn [bind].
  match goal with
  | |- context [if negb (_validate_frequency_domain ?x) then _ else _] =>
      destruct (_validate_frequency_domain x) eqn:E
  end; cbn [negb]; intros H; injection H as <-;
    cbn [FrequencyDomainFeatures.is_valid]; symmetry; exact E.
Qed.

Lemma extract_frequency_domain_cases (scipy : SciPy) (self : t) (rr_ms : list num) :
  let f := _extract_frequency_domain scipy self rr_ms in
  f = _invalid_frequency_domain (len rr_ms)
  \/ (fd_min_intervals self <= len rr_ms
      /\ FrequencyDomainFeatures.is_valid f = _validate_frequency_domain f).
Proof.
  cbv zeta. unfold _extract_frequency_domain.
  destruct (Z.ltb_spec (len rr_ms) (fd_min_intervals self)) as [H|H];
    [now left|].
  destruct (_interpolate_rr scipy self rr_ms (time_axis rr_ms)) as [interp|e];
    cbn [bind try_except]; [|now left].
  destruct (len (fst interp) <? 10); cbn [try_except]; [now left|].
  destruct (_compute_psd scipy self (fst interp)) as [spectrum|e];
    cbn [bind try_except]; [|now left].
  destruct (spectral_features (len rr_ms) (fst spectrum) (snd spectrum))
    as [f|e] eqn:E; cbn [try_except]; [|now left].
  right. split; [exact H|]. now apply (spectral_features_flag _ _ _ _ E).
Qed.

Lemma extract_nonlinear_cases (self : t) (rr_ms : list num) :
  let f := _extract_nonlinear self rr_ms in
  f = _invalid_nonlinear (len rr_ms)
  \/ (nl_min_intervals self <= len rr_ms
      /\ NonlinearFeatures.is_valid f = _validate_nonlinear f).
Proof.
  cbv zeta. unfold _extract_nonlinear.
  destruct (Z.ltb_spec (len rr_ms) (nl_min_intervals self)) as [H|H];
    [now left|].
  destruct (_sample_entropy rr_ms (nl_m self) (nl_r_factor self)) as [v|e];
    cbn [bind try_except]; [|now left].
  right. split; [exact H|].
  match goal with
  | |- context [if negb (_validate_nonlinear ?x) then _ else _] =>
      destruct (_validate_nonlinear x) eqn:E
  end; cbn [negb try_except NonlinearFeatures.is_valid];
    symmetry; exact E.
Qed.

(** Ten intervals of 4000 ms, with the default extractor: the time-domain
    result is invalid, because the mean interval exceeds 3000 ms, and its
    [mean_rr] is the computed 4000, not NaN. *)
Lemma invalid_time_domain_keeps_values :
  let f := _extract_time_domain default (map Fin (repeat 4000%R 10)) in
  TimeDomainFeatures.is_valid f = false
  /\ TimeDomainFeatures.mean_rr f = Fin 4000
  /\ ~ all_nan (TimeDomainFeatures.to_array f).
Proof.
  cbv zeta.
  pose proof (extract_time_domain_fields default (map Fin (repeat 4000%R 10))) as F.
  cbv zeta in F.
  destruct F as (F1 & _ & _ & _ & _ & _ & _ & _ & _ & Fv);
    [unfold len; simpl; lia|].
  rewrite np_mean_fin in F1 by discriminate.
  rewrite (mean_repeat 4000 10) in F1 by discriminate.
  assert (Hv : TimeDomainFeatures.is_valid
                 (_extract_time_domain default (map Fin (repeat 4000%R 10)))
               = false).
  { rewrite Fv. unfold _validate_time_domain.
    destruct (existsb _ _); [reflexivity|].
    rewrite F1.
    replace (ngt (Fin 4000) (Fin 3000)) with true
      by (symmetry; apply ngt_fin; lra).
    now rewrite orb_true_r. }
  split; [exact Hv|]. split; [exact F1|].
  intros Hnan. unfold all_nan, TimeDomainFeatures.to_array in Hnan.
  apply Forall_inv in Hnan. rewrite F1 in Hnan. discriminate Hnan.
Qed.

Lemma spectral_features_fields (n : Z) (freqs psd : list num)
    (f : FrequencyDomainFeatures.t) :
  spectral_features n freqs psd = Returned f ->
  exists lf hf : num,
    _band_power freqs psd LF_BAND = Returned lf
    /\ _band_power freqs psd HF_BAND = Returned hf
    /\ f = FrequencyDomainFeatures.mk lf hf
             (if ngt hf (Fin 0) then ndiv lf hf else NaN)
             (nadd lf hf)
             (if ngt (nadd lf hf) (Fin 0)
              then nmul (ndiv lf (nadd lf hf)) (Fin 100) else NaN)
             (if ngt (nadd lf hf) (Fin 0)
              then nmul (ndiv hf (nadd lf hf)) (Fin 100) else NaN)
             n (_validate_frequency_domain f).
Proof.
  unfold spectral_features.
  destruct (_band_power freqs psd LF_BAND) as [lf|e]; [|discriminate].
  destruct (_band_power freqs psd HF_BAND) as [hf|e]; [|discriminate].
  cbn [bind]. intros H. exists lf, hf.
  split; [reflexivity|]. split; [reflexivity|].
  match type of H with
  | context [if negb (_validate_frequency_domain ?x) then _ else _] =>
      destruct (_validate_frequency_domain x) eqn:E
  end; cbn [negb] in H; injection H as <-.
  - unfold _validate_frequency_domain in *.
    cbn [FrequencyDomainFeatures.lf_power FrequencyDomainFeatures.hf_power]
      in *.
    now rewrite E.
  - cbn [FrequencyDomainFeatures.lf_power FrequencyDomainFeatures.hf_power
         FrequencyDomainFeatures.lf_hf_ratio FrequencyDomainFeatures.total_power
         FrequencyDomainFeatures.lf_nu FrequencyDomainFeatures.hf_nu].
    unfold _validate_frequency_domain in *.
    cbn [FrequencyDomainFeatures.lf_power FrequencyDomainFeatures.hf_power]
      in *.
    now rewrite E.
Qed.

(** The frequency-domain result is the all-NaN one, or the record computed
    from the band powers of the spectrum that was returned. *)
Lemma extract_frequency_domain_computed
    (scipy : SciPy) (self : t) (rr_ms : list num) :
  let f := _extract_frequency_domain scipy self rr_ms in
  f = _invalid_frequency_domain (len rr_ms)
  \/ (fd_min_intervals self <= len rr_ms
      /\ exists (interp spectrum : list num * list num) (lf hf : num),
           _interpolate_rr scipy self rr_ms (time_axis rr_ms) = Returned interp
           /\ 10 <= len (fst interp)
           /\ _compute_psd scipy self (fst interp) = Returned spectrum
           /\ _band_power (fst spectrum) (snd spectrum) LF_BAND = Returned lf
           /\ _band_power (fst spectrum) (snd spectrum) HF_BAND = Returned hf
           /\ f = FrequencyDomainFeatures.mk lf hf
                    (if ngt hf (Fin 0) then ndiv lf hf else NaN)
                    (nadd lf hf)
                    (if ngt (nadd lf hf) (Fin 0)
                     then nmul (ndiv lf (nadd lf hf)) (Fin 100) else NaN)
                    (if ngt (nadd lf hf) (Fin 0)
                     then nmul (ndiv hf (nadd lf hf)) (Fin 100) else NaN)
                    (len rr_ms) (_validate_frequency_domain f)).
Proof.
  cbv zeta. unfold _extract_frequency_domain.
  destruct (Z.ltb_spec (len rr_ms) (fd_min_intervals self)) as [H|H];
    [now left|].
  destruct (_interpolate_rr scipy self rr_ms (time_axis rr_ms))
    as [interp|e] eqn:Hi; cbn [bind try_except]; [|now left].
  destruct (Z.ltb_spec (len (fst interp)) 10) as [Hl|Hl];
    cbn [try_except]; [now left|].
  destruct (_compute_psd scipy self (fst interp)) as [spectrum|e] eqn:Hs;
    cbn [bind try_except]; [|now left].
  destruct (spectral_features (len rr_ms) (fst spectrum) (snd spectrum))
    as [f|e] eqn:E; cbn [try_except]; [|now left].
  right. split; [exact H|].
  destruct (spectral_features_fields _ _ _ _ E) as (lf & hf & Hlf & Hhf & Hf).
  exists interp, spectrum, lf, hf. repeat split; assumption.
Qed.

(** The non-linear result is the all-NaN one, or carries the value
    [_sample_entropy] returned. *)
Lemma extract_nonlinear_computed (self : t) (rr_ms : list num) :
  let f := _extract_nonlinear self rr_ms in
  f = _invalid_nonlinear (len rr_ms)
  \/ (nl_min_intervals self <= len rr_ms
      /\ exists v : num,
           _sample_entropy rr_ms (nl_m self) (nl_r_factor self) = Returned v
           /\ f = NonlinearFeatures.mk v (len rr_ms) (_validate_nonlinear f)).
Proof.
  cbv zeta. unfold _extract_nonlinear.
  destruct (Z.ltb_spec (len rr_ms) (nl_min_intervals self)) as [H|H];
    [now left|].
  destruct (_sample_entropy rr_ms (nl_m self) (nl_r_factor self)) as [v|e];
    cbn [bind try_except]; [|now left].
  right. split; [exact H|]. exists v. split; [reflexivity|].
  match goal with
  | |- context [if negb (_validate_nonlinear ?x) then _ else _] =>
      destruct (_validate_nonlinear x) eqn:E
  end; cbn [negb try_except NonlinearFeatures.sample_entropy];
    unfold _validate_nonlinear in *;
    cbn [NonlinearFeatures.sample_entropy] in *; now rewrite E.
Qed.

(** C5, as the code has it.  A domain result returned because the input is
    shorter than the domain's minimum has [is_valid = false] and NaN in every
    numeric field; in particular so has the frequency-domain result of any
    input shorter than [fd_min_intervals].  A result with [is_valid = false]
    is either that all-NaN result or the computed result that the domain's
    validity gate rejected, every computed field kept: the eight time-domain
    values, the two band powers of the returned spectrum with the four
    fields derived from them, or the value [_sample_entropy] returned. *)
Theorem invalid_result_is_nan_or_rejected
    (scipy : SciPy) (self : t) (rr_ms : list num) :
  let td := _extract_time_domain self rr_ms in
  let fd := _extract_frequency_domain scipy self rr_ms in
  let nl := _extract_nonlinear self rr_ms in
  (len rr_ms < td_min_intervals self ->
     TimeDomainFeatures.is_valid td = false
     /\ all_nan (TimeDomainFeatures.to_array td))
  /\ (len rr_ms < fd_min_intervals self ->
     FrequencyDomainFeatures.is_valid fd = false
     /\ all_nan (FrequencyDomainFeatures.to_array fd))
  /\ (len rr_ms < nl_min_intervals self ->
     NonlinearFeatures.is_valid nl = false
     /\ all_nan (NonlinearFeatures.to_array nl))
  /\ (TimeDomainFeatures.is_valid td = false ->
     all_nan (TimeDomainFeatures.to_array td)
     \/ (td_min_intervals self <= len rr_ms
         /\ _validate_time_domain td = false
         /\ TimeDomainFeatures.mean_rr td = np_mean rr_ms
         /\ TimeDomainFeatures.sdnn td = np_std_ddof1 rr_ms
         /\ let diff := np_diff rr_ms in
            let hr_bpm := map (fun x => ndiv (Fin 60000) x) rr_ms in
            td = TimeDomainFeatures.mk
                   (np_mean rr_ms) (np_std_ddof1 rr_ms)
                   (nsqrt (np_mean (map (fun d => nmul d d) diff)))
                   (pnn 50 diff (map nabs diff))
                   (pnn 20 diff (map nabs diff))
                   (np_mean hr_bpm) (np_std_ddof1 hr_bpm)
                   (if ngt (np_mean rr_ms) (Fin 0)
                    then nmul (ndiv (np_std_ddof1 rr_ms) (np_mean rr_ms))
                              (Fin 100)
                    else Fin 0)
                   (len rr_ms) false))
  /\ (FrequencyDomainFeatures.is_valid fd = false ->
     all_nan (FrequencyDomainFeatures.to_array fd)
     \/ (fd_min_intervals self <= len rr_ms
         /\ _validate_frequency_domain fd = false
         /\ exists (interp spectrum : list num * list num) (lf hf : num),
              _interpolate_rr scipy self rr_ms (time_axis rr_ms)
              = Returned interp
              /\ 10 <= len (fst interp)
              /\ _compute_psd scipy self (fst interp) = Returned spectrum
              /\ _band_power (fst spectrum) (snd spectrum) LF_BAND
                 = Returned lf
              /\ _band_power (fst spectrum) (snd spectrum) HF_BAND
                 = Returned hf
              /\ fd = FrequencyDomainFeatures.mk lf hf
                        (if ngt hf (Fin 0) then ndiv lf hf else NaN)
                        (nadd lf hf)
                        (if ngt (nadd lf hf) (Fin 0)
                         then nmul (ndiv lf (nadd lf hf)) (Fin 100) else NaN)
                        (if ngt (nadd lf hf) (Fin 0)
                         then nmul (ndiv hf (nadd lf hf)) (Fin 100) else NaN)
                        (len rr_ms) false))
  /\ (NonlinearFeatures.is_valid nl = false ->
     all_nan (NonlinearFeatures.to_array nl)
     \/ (nl_min_intervals self <= len rr_ms
         /\ _validate_nonlinear nl = false
         /\ exists v : num,
              _sample_entropy rr_ms (nl_m self) (nl_r_factor self)
              = Returned v
              /\ nl = NonlinearFeatures.mk v (len rr_ms) false)).
Proof.
  cbv zeta.
  assert (Ntd : forall n, all_nan (TimeDomainFeatures.to_array (_invalid_time_domain n)))
    by (intros n; repeat constructor).
  assert (Nfd : forall n, all_nan (FrequencyDomainFeatures.to_array (_invalid_frequency_domain n)))
    by (intros n; repeat constructor).
  assert (Nnl : forall n, all_nan (NonlinearFeatures.to_array (_invalid_nonlinear n)))
    by (intros n; repeat constructor).
  split; [|split; [|split; [|split; [|split]]]].
  - intros H. unfold _extract_time_domain.
    apply Z.ltb_lt in H. rewrite H. split; [reflexivity|apply Ntd].
  - intros H. unfold _extract_frequency_domain.
    apply Z.ltb_lt in H. rewrite H. split; [reflexivity|apply Nfd].
  - intros H. unfold _extract_nonlinear.
    apply Z.ltb_lt in H. rewrite H. split; [reflexivity|apply Nnl].
  - intros H.
    destruct (Z.ltb_spec (len rr_ms) (td_min_intervals self)) as [Hn|Hn].
    + left. unfold _extract_time_domain.
      apply Z.ltb_lt in Hn. rewrite Hn. apply Ntd.
    + right. pose proof (extract_time_domain_fields self rr_ms Hn) as F.
      cbv zeta in F.
      destruct F as (F1 & F2 & F3 & F4 & F5 & F6 & F7 & F8 & F9 & Fv).
      rewrite <- Fv.
      repeat (split; [assumption|]).
      destruct (_extract_time_domain self rr_ms)
        as [a1 a2 a3 a4 a5 a6 a7 a8 an av].
      cbn [TimeDomainFeatures.mean_rr TimeDomainFeatures.sdnn
           TimeDomainFeatures.rmssd TimeDomainFeatures.pnn50
           TimeDomainFeatures.pnn20 TimeDomainFeatures.mean_hr
           TimeDomainFeatures.std_hr TimeDomainFeatures.cv_rr
           TimeDomainFeatures.num_intervals TimeDomainFeatures.is_valid] in *.
      now subst.
  - intros H.
    destruct (extract_frequency_domain_computed scipy self rr_ms)
      as [E|(Hn & interp & spectrum & lf & hf & H1 & H2 & H3 & H4 & H5 & E)].
    + left. rewrite E. apply Nfd.
    + right. split; [exact Hn|].
      assert (Hv : _validate_frequency_domain
                     (_extract_frequency_domain scipy self rr_ms) = false).
      { rewrite E in H. cbn [FrequencyDomainFeatures.is_valid] in H.
        exact H. }
      split; [exact Hv|].
      exists interp, spectrum, lf, hf.
      repeat (split; [assumption|]).
      rewrite Hv in E. exact E.
  - intros H.
    destruct (extract_nonlinear_computed self rr_ms) as [E|(Hn & v & Hs & E)].
    + left. rewrite E. apply Nnl.
    + right. split; [exact Hn|].
      assert (Hv : _validate_nonlinear (_extract_nonlinear self rr_ms) = false).
      { rewrite E in H. cbn [NonlinearFeatures.is_valid] in H. exact H. }
      split; [exact Hv|].
      exists v. split; [exact Hs|]. rewrite Hv in E. exact E.
Qed.

(** *** Band powers and the derived spectral fields *)

Lemma band_power_fin (lo hi : R) (bins : list bin) :
  _band_power (frequencies bins) (densities bins) (Fin lo, Fin hi)
  = Returned (Fin (band_integral lo hi bins)).
Proof.
  unfold _band_power. cbn [fst snd].
  replace (map (fun f => nge f (Fin lo) && nle f (Fin hi)) (frequencies bins))
    with (map (in_band lo hi) bins).
  2:{ unfold frequencies. rewrite map_map. apply map_ext. intros b.
      unfold nge, in_band. now rewrite !nle_fin_Rleb. }
  unfold band_integral.
  destruct (existsb (fun b => b) (map (in_band lo hi) bins)) eqn:E; cbn [negb].
  - unfold densities, frequencies. rewrite !mask_select_map. cbn [bind].
    apply np_trapezoid_fin.
  - now rewrite (existsb_map_false _ _ E).
Qed.

(** The record the extractor builds from the two band powers. *)
Definition spectral_record (n : Z) (lf hf : R) : FrequencyDomainFeatures.t :=
  FrequencyDomainFeatures.mk
    (Fin lf) (Fin hf)
    (if Reqb hf 0 then NaN else Fin (lf / hf))
    (Fin (lf + hf))
    (if Reqb (lf + hf) 0 then NaN else Fin (lf / (lf + hf) * 100))
    (if Reqb (lf + hf) 0 then NaN else Fin (hf / (lf + hf) * 100))
    n true.

Lemma spectral_features_fin (n : Z) (bins : list bin) :
  (0 <= band_integral (4 / 100) (15 / 100) bins)%R ->
  (0 <= band_integral (15 / 100) (40 / 100) bins)%R ->
  spectral_features n (frequencies bins) (densities bins)
  = Returned (spectral_record n (band_integral (4 / 100) (15 / 100) bins)
                                (band_integral (15 / 100) (40 / 100) bins)).
Proof.
  intros Hlf Hhf. unfold spectral_features, LF_BAND, HF_BAND.
  rewrite !band_power_fin. cbn [bind].
  set (lf := band_integral (4 / 100) (15 / 100) bins) in *.
  set (hf := band_integral (15 / 100) (40 / 100) bins) in *.
  unfold _validate_frequency_domain.
  cbn [FrequencyDomainFeatures.lf_power FrequencyDomainFeatures.hf_power
       isfinite negb orb nlt].
  rewrite (Rltb_false lf 0 Hlf), (Rltb_false hf 0 Hhf). cbn [orb negb].
  unfold spectral_record. cbn [nadd]. unfold ngt, nlt.
  f_equal. f_equal.
  - destruct (Req_dec_T hf 0) as [E|E].
    + rewrite E, Rltb_false, Reqb_true by lra. reflexivity.
    + rewrite Rltb_true, Reqb_false by lra. now rewrite ndiv_fin.
  - destruct (Req_dec_T (lf + hf) 0) as [E|E].
    + rewrite E, Rltb_false, Reqb_true by lra. reflexivity.
    + rewrite Rltb_true, Reqb_false by lra. now rewrite ndiv_fin.
  - destruct (Req_dec_T (lf + hf) 0) as [E|E].
    + rewrite E, Rltb_false, Reqb_true by lra. reflexivity.
    + rewrite Rltb_true, Reqb_false by lra. now rewrite ndiv_fin.
Qed.

(** When interpolation and Welch succeed, the extractor returns what steps 4
    and 5 make of the spectrum. *)
Lemma extract_frequency_domain_spectrum
    (scipy : SciPy) (self : t) (rr_ms : list num)
    (interp spectrum : list num * list num) :
  fd_min_intervals self <= len rr_ms ->
  _interpolate_rr scipy self rr_ms (time_axis rr_ms) = Returned interp ->
  10 <= len (fst interp) ->
  _compute_psd scipy self (fst interp) = Returned spectrum ->
  _extract_frequency_domain scipy self rr_ms
  = try_except (spectral_features (len rr_ms) (fst spectrum) (snd spectrum))
               (_invalid_frequency_domain (len rr_ms)).
Proof.
  intros Hn Hi Hlen Hs. unfold _extract_frequency_domain.
  apply Z.ltb_ge in Hn. rewrite Hn, Hi. cbn [bind].
  apply Z.ltb_ge in Hlen. rewrite Hlen, Hs. reflexivity.
Qed.

(** C8.  For a spectrum of finite bins in ascending frequency with
    non-negative densities, as Welch's method returns it: [lf_power] and
    [hf_power] are the trapezoidal rule over the bins within [0.04, 0.15] Hz
    and within [0.15, 0.40] Hz; a band that holds no bin has power 0;
    [total_power] is their sum, [lf_hf_ratio] is [lf_power / hf_power], NaN
    when [hf_power] is 0, and [lf_nu], [hf_nu] are the shares of
    [total_power] times 100, NaN when [total_power] is 0.  The extractor
    returns this record whenever interpolation gives at least ten samples
    and Welch's method gives that spectrum. *)
Theorem band_powers_and_ratios (n : Z) (bins : list bin) :
  StronglySorted (fun a b : bin => (fst a <= fst b)%R) bins ->
  Forall (fun b : bin => (0 <= snd b)%R) bins ->
  let lf := band_integral (4 / 100) (15 / 100) bins in
  let hf := band_integral (15 / 100) (40 / 100) bins in
  _band_power (frequencies bins) (densities bins) LF_BAND = Returned (Fin lf)
  /\ _band_power (frequencies bins) (densities bins) HF_BAND = Returned (Fin hf)
  /\ (forall (lo hi : R),
        (forall b, In b bins -> ~ (lo <= fst b <= hi)%R) ->
        _band_power (frequencies bins) (densities bins) (Fin lo, Fin hi)
        = Returned (Fin 0))
  /\ spectral_features n (frequencies bins) (densities bins)
     = Returned (spectral_record n lf hf)
  /\ FrequencyDomainFeatures.total_power (spectral_record n lf hf) = Fin (lf + hf)
  /\ (hf = 0%R ->
      FrequencyDomainFeatures.lf_hf_ratio (spectral_record n lf hf) = NaN)
  /\ (hf <> 0%R ->
      FrequencyDomainFeatures.lf_hf_ratio (spectral_record n lf hf) = Fin (lf / hf))
  /\ ((lf + hf)%R = 0%R ->
      FrequencyDomainFeatures.lf_nu (spectral_record n lf hf) = NaN
      /\ FrequencyDomainFeatures.hf_nu (spectral_record n lf hf) = NaN)
  /\ ((lf + hf)%R <> 0%R ->
      FrequencyDomainFeatures.lf_nu (spectral_record n lf hf)
      = Fin (lf / (lf + hf) * 100)
      /\ FrequencyDomainFeatures.hf_nu (spectral_record n lf hf)
         = Fin (hf / (lf + hf) * 100))
  /\ (forall (scipy : SciPy) (self : t) (rr_ms : list num)
             (interp : list num * list num),
        n = len rr_ms ->
        fd_min_intervals self <= len rr_ms ->
        _interpolate_rr scipy self rr_ms (time_axis rr_ms) = Returned interp ->
        10 <= len (fst interp) ->
        _compute_psd scipy self (fst interp)
        = Returned (frequencies bins, densities bins) ->
        _extract_frequency_domain scipy self rr_ms = spectral_record n lf hf).
Proof.
  intros Hs Hp. cbv zeta.
  pose proof (band_integral_nonneg (4 / 100) (15 / 100) bins Hs Hp) as Hlf.
  pose proof (band_integral_nonneg (15 / 100) (40 / 100) bins Hs Hp) as Hhf.
  split; [apply band_power_fin|].
  split; [apply band_power_fin|].
  split.
  { intros lo hi Hnone. rewrite band_power_fin. do 2 f_equal.
    unfold band_integral. rewrite filter_none; [reflexivity|].
    intros b Hb. specialize (Hnone b Hb). unfold in_band.
    destruct (Rle_dec lo (fst b)) as [H1|H1].
    - rewrite (Rleb_true _ _ H1). cbn [andb].
      apply Rleb_false. lra.
    - rewrite Rleb_false by lra. reflexivity. }
  split; [now apply spectral_features_fin|].
  split; [reflexivity|].
  unfold spectral_record;
    cbn [FrequencyDomainFeatures.lf_hf_ratio FrequencyDomainFeatures.lf_nu
         FrequencyDomainFeatures.hf_nu].
  split; [intros E; now rewrite (Reqb_true _ _ E)|].
  split; [intros E; now rewrite (Reqb_false _ _ E)|].
  split; [intros E; now rewrite (Reqb_true _ _ E)|].
  split; [intros E; now rewrite (Reqb_false _ _ E)|].
  intros scipy self rr_ms interp -> Hn Hi Hlen Hw.
  rewrite (extract_frequency_domain_spectrum scipy self rr_ms interp _ Hn Hi Hlen Hw).
  cbn [fst snd]. now rewrite spectral_features_fin.
Qed.

(** Both bands are closed intervals: a bin at exactly 0.15 Hz lies in the
    low-frequency and in the high-frequency band. *)
Example bin_at_the_shared_edge (density : R) :
  in_band (4 / 100) (15 / 100) ((15 / 100)%R, density) = true
  /\ in_band (15 / 100) (40 / 100) ((15 / 100)%R, density) = true.
Proof.
  unfold in_band. cbn [fst]. now rewrite !Rleb_true by lra.
Qed.

(** Four bins at 0.05, 0.1, 0.2 and 0.3 Hz of density 1. *)
Lemma band_powers_and_ratios_witness :
  _band_power
    (frequencies [(5 / 100, 1); (10 / 100, 1); (20 / 100, 1); (30 / 100, 1)]%R)
    (densities [(5 / 100, 1); (10 / 100, 1); (20 / 100, 1); (30 / 100, 1)]%R)
    LF_BAND
  = Returned (Fin (band_integral (4 / 100) (15 / 100)
       [(5 / 100, 1); (10 / 100, 1); (20 / 100, 1); (30 / 100, 1)]%R)).
Proof.
  refine (proj1 (band_powers_and_ratios 0
    [(5 / 100, 1); (10 / 100, 1); (20 / 100, 1); (30 / 100, 1)]%R _ _)).
  - repeat constructor; cbn [fst]; lra.
  - repeat constructor; cbn [snd]; lra.
Defined.

(** *** The time axis and the resampling grid *)

(** The time axis built by the frequency-domain extractor is the
    recurrence [t[0] = 0], [t[i] = t[i-1] + rr[i-1] / 1000]. *)
Lemma time_axis_arrival_times (l : list R) :
  time_axis (map Fin l) = map Fin (arrival_times 0 l)
  /\ length (time_axis (map Fin l)) = length l.
Proof.
  assert (E : time_axis (map Fin l) = map Fin (arrival_times 0 l)).
  { unfold time_axis. destruct l as [|x l]; [reflexivity|].
    cbn [map np_cumsum arrival_times].
    rewrite ndiv_fin by lra.
    change (removelast (Fin 0 :: ?t)) with (Fin 0 :: removelast t).
    rewrite (shifted_cumsum_fin l x (x / 1000)) by reflexivity.
    do 3 f_equal. lra. }
  split; [exact E|].
  now rewrite E, length_map, arrival_times_length.
Qed.

Lemma last_item_fin (l : list R) :
  l <> [] -> last_item (map Fin l) = Returned (Fin (last l 0%R)).
Proof.
  destruct l as [|x l]; [contradiction|]. intros _.
  cbn [map last_item]. f_equal.
  rewrite last_cons_default.
  revert x. induction l as [|y l IH]; intros x; [reflexivity|].
  cbn [map]. rewrite !last_cons_default. apply IH.
Qed.

(** The grid [np.linspace(0, duration, k + 2)] on finite reals. *)
Definition linspace_grid (duration : R) (k : nat) : list num :=
  map (fun i => Fin (INR i * (duration / INR (S k)) + 0)) (seq 0 (S k))
  ++ [Fin duration].

(** What [_interpolate_rr] computes on finite intervals when the number of
    samples [int(duration * rate)] is [k + 2]. *)
Lemma interpolate_rr_fin (scipy : SciPy) (self : t) (l : list R)
    (rate : R) (k : nat) (f_interp : num -> num) :
  l <> [] ->
  fd_resample_rate self = Fin rate ->
  (0 <= last (arrival_times 0 l) 0%R * rate)%R ->
  Zfloor (last (arrival_times 0 l) 0%R * rate)%R = Z.of_nat (S (S k)) ->
  interp1d scipy (time_axis (map Fin l)) (map Fin l) = Returned f_interp ->
  _interpolate_rr scipy self (map Fin l) (time_axis (map Fin l))
  = Returned (map f_interp (linspace_grid (last (arrival_times 0 l) 0%R) k),
              linspace_grid (last (arrival_times 0 l) 0%R) k).
Proof.
  intros Hl Hrate Hpos Hfloor Hinterp.
  unfold _interpolate_rr. rewrite Hinterp. cbn [bind].
  rewrite (proj1 (time_axis_arrival_times l)).
  rewrite last_item_fin.
  2:{ intros E. apply (f_equal (@length R)) in E.
      rewrite arrival_times_length in E.
      destruct l; [contradiction|discriminate E]. }
  cbn [bind]. rewrite Hrate. cbn [nmul py_int].
  rewrite Rltb_false by exact Hpos.
  rewrite Hfloor. cbn [bind]. unfold np_linspace0.
  replace (Z.of_nat (S (S k)) <? 0) with false by (symmetry; apply Z.ltb_ge; lia).
  rewrite Nat2Z.id.
  assert (Hk : INR (S k) <> 0%R) by (apply not_0_INR; discriminate).
  unfold of_nat. rewrite ndiv_fin by exact Hk.
  reflexivity.
Qed.

(** Twenty intervals of 1000 ms with the default extractor: the last arrival
    time is 19 s and [int(19 * 4.0)] is 76. *)
Lemma twenty_seconds_duration :
  last (arrival_times 0 (repeat 1000%R 20)) 0%R = 19%R.
Proof. simpl. lra. Qed.

Lemma twenty_seconds_grid (scipy : SciPy) (f_interp : num -> num) :
  interp1d scipy (time_axis (map Fin (repeat 1000%R 20)))
                 (map Fin (repeat 1000%R 20)) = Returned f_interp ->
  _interpolate_rr scipy default (map Fin (repeat 1000%R 20))
                  (time_axis (map Fin (repeat 1000%R 20)))
  = Returned (map f_interp (linspace_grid 19 74), linspace_grid 19 74).
Proof.
  intros H.
  rewrite (interpolate_rr_fin scipy default (repeat 1000%R 20) 4 74 f_interp);
    try rewrite twenty_seconds_duration; try reflexivity; try assumption.
  - discriminate.
  - lra.
  - apply Zfloor_eq. change (Z.of_nat 76) with 76. lra.
Qed.

(** C9, on the code.  For twenty intervals of 1000 ms and the default
    extractor, [_interpolate_rr] resamples onto 76 points from 0 to 19 s, both
    ends included: the second point is 19/75 s, not 1/4 s, and the last point
    is the duration itself, so the grid is neither spaced at 4 Hz nor
    half-open. *)
Theorem twenty_seconds_grid_is_closed (scipy : SciPy) :
  let rr_ms := map Fin (repeat 1000%R 20) in
  let grid := linspace_grid 19 74 in
  last_item (time_axis rr_ms) = Returned (Fin 19)
  /\ match interp1d scipy (time_axis rr_ms) rr_ms with
     | Returned f_interp =>
         _interpolate_rr scipy default rr_ms (time_axis rr_ms)
         = Returned (map f_interp grid, grid)
     | Raised e =>
         _interpolate_rr scipy default rr_ms (time_axis rr_ms) = Raised e
     end
  /\ length grid = 76%nat
  /\ nth 0 grid NaN = Fin 0
  /\ nth 1 grid NaN = Fin (19 / 75)
  /\ nth 1 grid NaN <> Fin (1 / 4)
  /\ nth 75 grid NaN = Fin 19
  /\ ~ Forall (fun x => nlt x (Fin 19) = true) grid.
Proof.
  cbv zeta.
  split.
  { rewrite (proj1 (time_axis_arrival_times _)), last_item_fin.
    - now rewrite twenty_seconds_duration.
    - discriminate. }
  split.
  { destruct (interp1d scipy _ _) as [f|e] eqn:E.
    - now apply twenty_seconds_grid.
    - unfold _interpolate_rr. now rewrite E. }
  split; [reflexivity|].
  split; [cbn; f_equal; lra|].
  assert (H1 : nth 1 (linspace_grid 19 74) NaN = Fin (19 / 75)).
  { unfold linspace_grid. cbn [seq map app nth].
    f_equal. rewrite S_INR. simpl INR. change 75%R with (IZR 75). lra. }
  split; [exact H1|].
  split; [rewrite H1; intros E; injection E as E; lra|].
  split; [reflexivity|].
  intros H. rewrite Forall_forall in H.
  specialize (H (Fin 19)).
  assert (Hin : In (Fin 19) (linspace_grid 19 74))
    by (unfold linspace_grid; apply in_or_app; right; now left).
  specialize (H Hin). unfold nlt in H.
  rewrite Rltb_false in H by lra. discriminate H.
Qed.

(** The time axis of the frequency-domain extractor on finite intervals:
    one time per interval, [t[0] = 0] and
    [t[i] = t[i-1] + rr[i-1] / 1000]. *)
Theorem time_axis_recurrence (l : list R) :
  exists ts : list R,
    time_axis (map Fin l) = map Fin ts
    /\ length ts = length l
    /\ (l <> [] -> nth 0 ts 0%R = 0%R)
    /\ (forall i : nat, (S i < length l)%nat ->
          nth (S i) ts 0%R = (nth i ts 0 + nth i l 0 / 1000)%R).
Proof.
  exists (arrival_times 0 l).
  split; [apply time_axis_arrival_times|].
  split; [apply arrival_times_length|].
  split.
  - destruct l; [contradiction|reflexivity].
  - intros i Hi. now apply arrival_times_nth.
Qed.

(** When the resampled sequence has fewer than ten samples the
    frequency-domain result is the all-NaN invalid one. *)
Theorem short_resampling_is_invalid
    (scipy : SciPy) (self : t) (rr_ms : list num)
    (interp : list num * list num) :
  fd_min_intervals self <= len rr_ms ->
  _interpolate_rr scipy self rr_ms (time_axis rr_ms) = Returned interp ->
  len (fst interp) < 10 ->
  _extract_frequency_domain scipy self rr_ms
  = _invalid_frequency_domain (len rr_ms).
Proof.
  intros Hn Hi Hlen. unfold _extract_frequency_domain.
  apply Z.ltb_ge in Hn. rewrite Hn, Hi. cbn [bind].
  apply Z.ltb_lt in Hlen. now rewrite Hlen.
Qed.

(** Twenty intervals of 100 ms span 1.9 s and resample to 7 points. *)
Lemma short_resampling_is_invalid_witness :
  let scipy := {| interp1d := fun _ _ => Returned (fun _ => Fin 100);
                  welch := fun _ _ _ _ => Raised LibraryError |} in
  _extract_frequency_domain scipy default (map Fin (repeat 100%R 20))
  = _invalid_frequency_domain 20.
Proof.
  cbv zeta.
  set (scipy := {| interp1d := fun _ _ => Returned (fun _ => Fin 100);
                   welch := fun _ _ _ _ => Raised LibraryError |}).
  assert (D : last (arrival_times 0 (repeat 100%R 20)) 0%R = (19 / 10)%R)
    by (simpl; lra).
  assert (G : _interpolate_rr scipy default (map Fin (repeat 100%R 20))
                (time_axis (map Fin (repeat 100%R 20)))
              = Returned (map (fun _ => Fin 100) (linspace_grid (19 / 10) 5),
                          linspace_grid (19 / 10) 5)).
  { rewrite (interpolate_rr_fin scipy default (repeat 100%R 20) 4 5
               (fun _ => Fin 100));
      try rewrite D; try reflexivity.
    - discriminate.
    - lra.
    - apply Zfloor_eq. change (Z.of_nat 7) with 7. lra. }
  apply (short_resampling_is_invalid scipy default _ _) with (2 := G).
  - unfold len; simpl; lia.
  - unfold len; simpl; lia.
Defined.

(** *** Sample entropy *)

Lemma template_dist_fin (a b : list R) :
  a <> [] -> b <> [] ->
  template_dist (map Fin a) (map Fin b) = Returned (Fin (chebyshev a b)).
Proof. intros Ha Hb. unfold template_dist. now apply np_max_abs_differences. Qed.

Lemma count_inner_fin (r : R) (ti : list R) (later : list (list R)) (c : Z) :
  ti <> [] -> Forall (fun u => u <> []) later ->
  count_inner (Fin r) (map Fin ti) (map (map Fin) later) c
  = Returned (c + count_if (within r ti) later).
Proof.
  intros Hti Hl. revert c.
  induction Hl as [|u later Hu _ IH]; intros c.
  - cbn. f_equal. unfold count_if. simpl. lia.
  - cbn [map count_inner]. rewrite template_dist_fin by assumption.
    cbn [bind]. rewrite IH, nle_fin_Rleb, count_if_cons.
    fold (within r ti u). f_equal. destruct (within r ti u); lia.
Qed.

Lemma count_outer_fin (r : R) (ts : list (list R)) (c : Z) :
  Forall (fun u => u <> []) ts ->
  count_outer (Fin r) (map (map Fin) ts) c
  = Returned (c + unordered_count (within r) ts).
Proof.
  intros H. revert c. induction H as [|t later Ht Hl IH]; intros c.
  - cbn. f_equal. lia.
  - cbn [map count_outer unordered_count].
    rewrite count_inner_fin by assumption. cbn [bind].
    rewrite IH. f_equal. lia.
Qed.

(** The offsets the code builds templates at: [range(N - L)]. *)
Definition code_offsets (N L : nat) : nat := (N - L)%nat.


Lemma count_matches_fin (l : list R) (m : nat) (r : R) :
  (1 <= m)%nat ->
  _count_matches (map Fin l) m (Fin r)
  = Returned (unordered_count (within r)
                (windows l m (code_offsets (length l) m))).
Proof.
  intros Hm. unfold _count_matches, templates_of, code_offsets.
  change (map (fun i => slice (map Fin l) i m)
              (seq 0 (length (map Fin l) - m)))
    with (windows (map Fin l) m (length (map Fin l) - m)).
  rewrite windows_map, length_map.
  rewrite count_outer_fin; [f_equal|].
  apply Forall_forall. intros w Hw E. subst w.
  unfold windows in Hw. apply in_map_iff in Hw.
  destruct Hw as (i & Hlen & Hi). apply in_seq in Hi.
  apply (f_equal (@length R)) in Hlen.
  rewrite length_firstn, length_skipn in Hlen. simpl in Hlen. lia.
Qed.

(** The reference definition of sample entropy as the specification words
    it, on finite reals.  With tolerance [r = r_factor * sample_std l],
    the result is 0 when [r = 0]; otherwise [B] and [A] count the ordered
    pairs of distinct templates within Chebyshev distance [r], at lengths
    [m] and [m + 1], the templates being the windows at the first
    [offsets N L] offsets; the result is NaN when [A] or [B] is 0 and
    [- ln (A / B)] otherwise. *)
Definition reference_sample_entropy (offsets : nat -> nat -> nat)
    (m : nat) (r_factor : R) (l : list R) : num :=
  let N := length l in
  let r := (r_factor * sample_std l)%R in
  if Reqb r 0 then Fin 0 else
  let B := ordered_count (within r) (windows l m (offsets N m)) in
  let A := ordered_count (within r) (windows l (m + 1) (offsets N (m + 1)%nat)) in
  if (A =? 0) || (B =? 0) then NaN
  else Fin (- ln (IZR A / IZR B)).

Lemma sample_entropy_fin (l : list R) (m : nat) (r_factor : R) :
  (2 <= length l)%nat -> (1 <= m)%nat ->
  _sample_entropy (map Fin l) m (Fin r_factor)
  = Returned (reference_sample_entropy code_offsets m r_factor l).
Proof.
  intros Hn Hm. unfold _sample_entropy, reference_sample_entropy.
  rewrite np_std_fin by exact Hn. cbn [nmul neqb].
  destruct (Reqb (r_factor * sample_std l) 0); [reflexivity|].
  rewrite !count_matches_fin by lia. cbn [bind].
  rewrite !(ordered_count_twice (within (r_factor * sample_std l)))
    by (intros a b; apply within_sym).
  set (B := unordered_count _ (windows l m _)).
  set (A := unordered_count _ (windows l (m + 1) _)).
  assert (HB : 0 <= B) by apply unordered_count_nonneg.
  assert (HA : 0 <= A) by apply unordered_count_nonneg.
  replace (2 * A =? 0) with (A =? 0)
    by (destruct (Z.eqb_spec A 0), (Z.eqb_spec (2 * A) 0); lia).
  replace (2 * B =? 0) with (B =? 0)
    by (destruct (Z.eqb_spec B 0), (Z.eqb_spec (2 * B) 0); lia).
  destruct (Z.eqb_spec A 0) as [EA|EA]; [reflexivity|].
  destruct (Z.eqb_spec B 0) as [EB|EB]; [reflexivity|].
  cbn [orb]. unfold of_Z.
  assert (PA : (0 < IZR A)%R) by (apply IZR_lt; lia).
  assert (PB : (0 < IZR B)%R) by (apply IZR_lt; lia).
  rewrite ndiv_fin by lra.
  assert (Pq : (0 < IZR A / IZR B)%R) by (apply Rdiv_lt_0_compat; assumption).
  cbn [nlog]. rewrite Rltb_true by exact Pq. cbn [nneg].
  replace (IZR (2 * A) / IZR (2 * B))%R with (IZR A / IZR B)%R
    by (rewrite !mult_IZR; field; lra).
  reflexivity.
Qed.

(** The non-linear result on finite reals: the reference value with the
    code's offsets, flagged by the validity gate. *)
Lemma extract_nonlinear_fin (self : t) (l : list R) (r_factor : R) :
  nl_min_intervals self <= len l ->
  (2 <= length l)%nat -> (1 <= nl_m self)%nat ->
  nl_r_factor self = Fin r_factor ->
  let v := reference_sample_entropy code_offsets (nl_m self) r_factor l in
  _extract_nonlinear self (map Fin l)
  = NonlinearFeatures.mk v (len l)
      (_validate_nonlinear (NonlinearFeatures.mk v (len l) true)).
Proof.
  intros Hmin Hn Hm Hrf. cbv zeta. unfold _extract_nonlinear.
  replace (len (map Fin l)) with (len l)
    by (unfold len; now rewrite length_map).
  apply Z.ltb_ge in Hmin. rewrite Hmin, Hrf.
  rewrite sample_entropy_fin by assumption. cbn [bind].
  destruct (_validate_nonlinear _) eqn:E;
    cbn [negb try_except NonlinearFeatures.sample_entropy]; reflexivity.
Qed.





(** *** An input on which the last template matters *)









(** *** The order of the feature vector *)

(** C2.  [to_array] has 15 elements: the eight time-domain fields, the six
    frequency-domain fields and the sample entropy, in that order; the keys
    of [to_dict], in order, are [FEATURE_NAMES]; and at every index the array
    element is the dictionary's value under the key of that index. *)
Theorem to_array_matches_to_dict (f : HRVFeatures.t) :
  HRVFeatures.to_array f =
    [TimeDomainFeatures.mean_rr (HRVFeatures.time_domain f);
     TimeDomainFeatures.sdnn (HRVFeatures.time_domain f);
     TimeDomainFeatures.rmssd (HRVFeatures.time_domain f);
     TimeDomainFeatures.pnn50 (HRVFeatures.time_domain f);
     TimeDomainFeatures.pnn20 (HRVFeatures.time_domain f);
     TimeDomainFeatures.mean_hr (HRVFeatures.time_domain f);
     TimeDomainFeatures.std_hr (HRVFeatures.time_domain f);
     TimeDomainFeatures.cv_rr (HRVFeatures.time_domain f);
     FrequencyDomainFeatures.lf_power (HRVFeatures.frequency_domain f);
     FrequencyDomainFeatures.hf_power (HRVFeatures.frequency_domain f);
     FrequencyDomainFeatures.lf_hf_ratio (HRVFeatures.frequency_domain f);
     FrequencyDomainFeatures.total_power (HRVFeatures.frequency_domain f);
     FrequencyDomainFeatures.lf_nu (HRVFeatures.frequency_domain f);
     FrequencyDomainFeatures.hf_nu (HRVFeatures.frequency_domain f);
     NonlinearFeatures.sample_entropy (HRVFeatures.nonlinear f)]
  /\ length (HRVFeatures.to_array f) = 15%nat
  /\ dict_keys (HRVFeatures.to_dict f) = FEATURE_NAMES
  /\ dict_values (HRVFeatures.to_dict f) = HRVFeatures.to_array f
  /\ (forall (i : nat) (name : string),
        nth_error FEATURE_NAMES i = Some name ->
        nth_error (dict_keys (HRVFeatures.to_dict f)) i = Some name
        /\ dict_get name (HRVFeatures.to_dict f)
           = nth_error (HRVFeatures.to_array f) i).
Proof.
  destruct f as [[a1 a2 a3 a4 a5 a6 a7 a8 an av] [b1 b2 b3 b4 b5 b6 bn bv]
                 [c1 cn cv] n v inv].
  repeat (split; [reflexivity|]).
  intros i name H.
  do 15 (destruct i as [|i];
         [cbn in H; injection H as <-; split; reflexivity|]).
  cbn in H. destruct i; discriminate H.
Qed.

(* ------------------------------------------------------------------ *)
(** *** Further properties of the time-domain extractor *)

(** The eight fields on finite non-zero intervals, in closed form. *)
Lemma time_domain_fields_fin (self : t) (l : list R) :
  td_min_intervals self <= len l ->
  (2 <= length l)%nat ->
  Forall (fun x => x <> 0%R) l ->
  let f := _extract_time_domain self (map Fin l) in
  let d := successive_differences l in
  let hr := map (fun x => (60000 / x)%R) l in
  TimeDomainFeatures.mean_rr f = Fin (mean l)
  /\ TimeDomainFeatures.sdnn f = Fin (sample_std l)
  /\ TimeDomainFeatures.rmssd f = Fin (sqrt (mean (map (fun x => (x * x)%R) d)))
  /\ TimeDomainFeatures.pnn50 f = Fin (percentage_exceeding 50 d)
  /\ TimeDomainFeatures.pnn20 f = Fin (percentage_exceeding 20 d)
  /\ TimeDomainFeatures.mean_hr f = Fin (mean hr)
  /\ TimeDomainFeatures.std_hr f = Fin (sample_std hr)
  /\ TimeDomainFeatures.cv_rr f
     = (if Rltb 0 (mean l) then Fin (sample_std l / mean l * 100) else Fin 0)
  /\ TimeDomainFeatures.is_valid f = _validate_time_domain f.
Proof.
  intros Hmin Hn Hnz. cbv zeta.
  assert (Hl : l <> []) by (destruct l; [simpl in Hn; lia|discriminate]).
  assert (Hd : successive_differences l <> []).
  { intros E. apply (f_equal (@length R)) in E.
    rewrite successive_differences_length in E. simpl in E. lia. }
  pose proof (extract_time_domain_fields self (map Fin l)) as F.
  unfold len in F. rewrite length_map in F. specialize (F Hmin).
  cbv zeta in F.
  destruct F as (F1 & F2 & F3 & F4 & F5 & F6 & F7 & F8 & _ & F9).
  rewrite np_mean_fin in F1, F8 by exact Hl.
  rewrite np_std_fin in F2, F8 by exact Hn.
  rewrite np_diff_fin in F3, F4, F5.
  rewrite map_map in F3.
  replace (map (fun x => nmul (Fin x) (Fin x)) (successive_differences l))
    with (map Fin (map (fun x => (x * x)%R) (successive_differences l))) in F3
    by (rewrite map_map; reflexivity).
  rewrite np_mean_fin in F3
    by (intros E; apply map_eq_nil in E; contradiction).
  rewrite nsqrt_fin in F3 by (apply mean_squares_nonneg; exact Hd).
  rewrite pnn_fin in F4, F5 by exact Hd.
  rewrite heart_rates_fin in F6, F7 by exact Hnz.
  rewrite np_mean_fin in F6
    by (intros E; apply map_eq_nil in E; contradiction).
  rewrite np_std_fin in F7 by (rewrite length_map; exact Hn).
  change (ngt (Fin (mean l)) (Fin 0)) with (Rltb 0 (mean l)) in F8.
  repeat (split; [assumption|]).
  split; [|exact F9].
  rewrite F8. destruct (Rltb 0 (mean l)) eqn:E; [|reflexivity].
  apply Rltb_lt in E. rewrite ndiv_fin by lra. reflexivity.
Qed.

Lemma sample_std_nonneg (l : list R) : (0 <= sample_std l)%R.
Proof. unfold sample_std. apply sqrt_pos. Qed.

Lemma gate_passes_in_range (self : t) (l : list R) :
  td_min_intervals self <= len l ->
  (2 <= length l)%nat ->
  Forall (fun x => (200 <= x <= 3000)%R) l ->
  TimeDomainFeatures.is_valid (_extract_time_domain self (map Fin l)) = true.
Proof.
  intros Hmin Hn Hr.
  assert (Hl : l <> []) by (destruct l; [simpl in Hn; lia|discriminate]).
  assert (Hd : successive_differences l <> []).
  { intros E. apply (f_equal (@length R)) in E.
    rewrite successive_differences_length in E. simpl in E. lia. }
  assert (Hnz : Forall (fun x => x <> 0%R) l).
  { eapply Forall_impl; [|exact Hr]. intros x Hx. cbv beta in Hx. lra. }
  pose proof (time_domain_fields_fin self l Hmin Hn Hnz) as F.
  cbv zeta in F.
  destruct F as (F1 & F2 & F3 & F4 & F5 & F6 & F7 & F8 & F9).
  pose proof (mean_bounds 200 3000 l Hl Hr) as Hm.
  assert (Hhr : Forall (fun x => (20 <= x <= 300)%R)
                       (map (fun x => (60000 / x)%R) l)).
  { apply Forall_map. eapply Forall_impl; [|exact Hr].
    intros x Hx. cbv beta in Hx. cbv beta.
    assert (0 < x)%R by lra. split.
    - apply Rmult_le_reg_r with x; [assumption|].
      unfold Rdiv. rewrite Rmult_assoc, Rinv_l by lra. lra.
    - apply Rmult_le_reg_r with x; [assumption|].
      unfold Rdiv. rewrite Rmult_assoc, Rinv_l by lra. lra. }
  pose proof (mean_bounds 20 300 _
                (fun E => Hl (map_eq_nil _ _ E)) Hhr) as Hh.
  pose proof (percentage_exceeding_bounds 50 _ Hd) as Hp.
  pose proof (sample_std_nonneg l) as Hs.
  assert (Hq : (0 <= sqrt (mean (map (fun x => (x * x)%R)
                                     (successive_differences l))))%R)
    by apply sqrt_pos.
  rewrite F9. unfold _validate_time_domain, TimeDomainFeatures.to_array.
  rewrite F1, F2, F3, F4, F5, F6, F7, F8.
  rewrite (Rltb_true 0 (mean l)) by lra.
  cbn [existsb isfinite negb orb].
  unfold nle, ngt, nlt, neqb.
  repeat match goal with
  | |- context [Rltb ?x ?y] =>
      first [ rewrite (Rltb_true x y) by lra
            | rewrite (Rltb_false x y) by lra ]
  | |- context [Reqb ?x ?y] => rewrite (Reqb_false x y) by lra
  end.
  reflexivity.
Qed.

(** Intervals between 200 and 3000 ms always pass the time-domain gate:
    every field is finite, the mean interval is in (0, 3000] and the mean
    heart rate in (0, 300]. *)
Theorem physiological_intervals_are_valid (self : t) (l : list R) :
  td_min_intervals self <= len l ->
  (2 <= length l)%nat ->
  Forall (fun x => (200 <= x <= 3000)%R) l ->
  TimeDomainFeatures.is_valid (_extract_time_domain self (map Fin l)) = true.
Proof. exact (gate_passes_in_range self l). Qed.

Lemma physiological_intervals_are_valid_witness :
  TimeDomainFeatures.is_valid
    (_extract_time_domain default (map Fin (repeat 800%R 10))) = true.
Proof.
  apply physiological_intervals_are_valid.
  - unfold len; simpl; lia.
  - simpl; lia.
  - repeat constructor; lra.
Defined.

Lemma nlt_false_fin (x y : R) : nlt (Fin x) (Fin y) = false <-> (y <= x)%R.
Proof.
  unfold nlt. rewrite <- not_true_iff_false, Rltb_lt. lra.
Qed.

(** A time-domain result flagged valid has eight finite fields, at least
    [td_min_intervals] intervals behind it, a mean interval in (0, 3000], a
    mean heart rate in (0, 300], non-negative [sdnn] and [rmssd], and
    [pnn50] in [0, 100], whatever the input array holds. *)
Theorem valid_time_domain_is_in_range (self : t) (rr_ms : list num) :
  TimeDomainFeatures.is_valid (_extract_time_domain self rr_ms) = true ->
  td_min_intervals self <= len rr_ms
  /\ exists mean_rr sdnn rmssd pnn50 pnn20 mean_hr std_hr cv_rr : R,
       _extract_time_domain self rr_ms
       = TimeDomainFeatures.mk (Fin mean_rr) (Fin sdnn) (Fin rmssd)
           (Fin pnn50) (Fin pnn20) (Fin mean_hr) (Fin std_hr) (Fin cv_rr)
           (len rr_ms) true
       /\ (0 < mean_rr <= 3000)%R
       /\ (0 < mean_hr <= 300)%R
       /\ (0 <= sdnn)%R /\ (0 <= rmssd)%R
       /\ (0 <= pnn50 <= 100)%R.
Proof.
  intros Hv.
  destruct (Z.ltb_spec (len rr_ms) (td_min_intervals self)) as [Hn|Hn].
  { unfold _extract_time_domain in Hv. apply Z.ltb_lt in Hn.
    rewrite Hn in Hv. discriminate Hv. }
  split; [exact Hn|].
  pose proof (extract_time_domain_fields self rr_ms Hn) as F.
  cbv zeta in F. destruct F as (_ & _ & _ & _ & _ & _ & _ & _ & Fn & Fv).
  rewrite Hv in Fv. symmetry in Fv.
  destruct (_extract_time_domain self rr_ms)
    as [m s r p50 p20 h sh c n v].
  cbn [TimeDomainFeatures.is_valid TimeDomainFeatures.num_intervals] in *.
  subst n v.
  unfold _validate_time_domain, TimeDomainFeatures.to_array in Fv.
  cbn [TimeDomainFeatures.mean_rr TimeDomainFeatures.sdnn
       TimeDomainFeatures.rmssd TimeDomainFeatures.pnn50
       TimeDomainFeatures.pnn20 TimeDomainFeatures.mean_hr
       TimeDomainFeatures.std_hr TimeDomainFeatures.cv_rr existsb] in Fv.
  destruct m as [m| | |], s as [s| | |], r as [r| | |], p50 as [p50| | |],
    p20 as [p20| | |], h as [h| | |], sh as [sh| | |], c as [c| | |];
    try discriminate Fv;
    try (cbn [isfinite negb orb] in Fv; discriminate Fv).
  cbn [isfinite negb orb] in Fv.
  destruct (nle (Fin m) (Fin 0) || ngt (Fin m) (Fin 3000)) eqn:E1;
    [discriminate Fv|].
  destruct (nle (Fin h) (Fin 0) || ngt (Fin h) (Fin 300)) eqn:E2;
    [discriminate Fv|].
  destruct (nlt (Fin s) (Fin 0) || nlt (Fin r) (Fin 0)) eqn:E3;
    [discriminate Fv|].
  destruct (nlt (Fin p50) (Fin 0) || ngt (Fin p50) (Fin 100)) eqn:E4;
    [discriminate Fv|].
  apply orb_false_iff in E1, E2, E3, E4.
  destruct E1 as [A1 A2], E2 as [B1 B2], E3 as [C1 C2], E4 as [D1 D2].
  apply nle_fin_false in A1, B1. apply ngt_fin_false in A2, B2, D2.
  apply nlt_false_fin in C1, C2, D1.
  exists m, s, r, p50, p20, h, sh, c.
  repeat split; try assumption; reflexivity.
Qed.

Lemma valid_time_domain_is_in_range_witness :
  td_min_intervals default <= len (map Fin (repeat 800%R 10)).
Proof.
  apply (valid_time_domain_is_in_range default (map Fin (repeat 800%R 10))).
  apply gate_passes_in_range.
  - unfold len; simpl; lia.
  - simpl; lia.
  - repeat constructor; lra.
Defined.

(* ------------------------------------------------------------------ *)
(** *** Further properties of the non-linear extractor *)

(** Every pair of templates matching at length [m + 1] matches at length
    [m]: the count [A] never exceeds [B]. *)
Lemma longer_templates_match_less (l : list R) (m : nat) (r : R) :
  unordered_count (within r)
    (windows l (m + 1) (code_offsets (length l) (m + 1)))
  <= unordered_count (within r) (windows l m (code_offsets (length l) m)).
Proof.
  unfold code_offsets.
  destruct (length l - m)%nat as [|c] eqn:E.
  - replace (length l - (m + 1))%nat with 0%nat by lia. reflexivity.
  - replace (length l - (m + 1))%nat with c by lia.
    rewrite windows_succ.
    eapply Z.le_trans; [|apply unordered_count_app_le].
    rewrite <- (windows_shorten l m c).
    apply unordered_count_map_le. intros a b. apply within_firstn.
Qed.

Lemma sample_entropy_sign (self : t) (l : list R) (r_factor : R) :
  nl_min_intervals self <= len l ->
  (2 <= length l)%nat -> (1 <= nl_m self)%nat ->
  nl_r_factor self = Fin r_factor ->
  let nl := _extract_nonlinear self (map Fin l) in
  (NonlinearFeatures.is_valid nl = true
   /\ exists x : R, NonlinearFeatures.sample_entropy nl = Fin x /\ (0 <= x)%R)
  \/ (NonlinearFeatures.is_valid nl = false
      /\ NonlinearFeatures.sample_entropy nl = NaN).
Proof.
  intros Hmin Hn Hm Hrf. cbv zeta.
  rewrite (extract_nonlinear_fin self l r_factor Hmin Hn Hm Hrf).
  cbn [NonlinearFeatures.sample_entropy NonlinearFeatures.is_valid].
  unfold reference_sample_entropy.
  set (r := (r_factor * sample_std l)%R).
  rewrite !(ordered_count_twice (within r)) by (intros a b; apply within_sym).
  pose proof (longer_templates_match_less l (nl_m self) r) as Hle.
  set (B := unordered_count _ (windows l (nl_m self) _)) in *.
  set (A := unordered_count _ (windows l (nl_m self + 1) _)) in *.
  assert (HA : 0 <= A) by apply unordered_count_nonneg.
  unfold _validate_nonlinear. cbn [NonlinearFeatures.sample_entropy].
  destruct (Reqb r 0).
  { left. cbn [isfinite negb nlt]. rewrite Rltb_false by lra.
    split; [reflexivity|]. exists 0%R. split; [reflexivity|lra]. }
  destruct (Z.eqb_spec (2 * A) 0) as [EA|EA];
    [right; split; reflexivity|].
  destruct (Z.eqb_spec (2 * B) 0) as [EB|EB];
    [right; split; reflexivity|].
  cbn [orb isfinite negb nlt]. left.
  assert (PA : (0 < IZR (2 * A))%R) by (apply IZR_lt; lia).
  assert (PB : (0 < IZR (2 * B))%R) by (apply IZR_lt; lia).
  assert (PAB : (IZR (2 * A) <= IZR (2 * B))%R) by (apply IZR_le; lia).
  assert (Hq : (0 < IZR (2 * A) / IZR (2 * B) <= 1)%R).
  { split; [now apply Rdiv_lt_0_compat|].
    apply Rmult_le_reg_r with (IZR (2 * B)); [exact PB|].
    unfold Rdiv. rewrite Rmult_assoc, Rinv_l by lra. lra. }
  assert (Hln : (ln (IZR (2 * A) / IZR (2 * B)) <= 0)%R).
  { rewrite <- ln_1. destruct Hq as [Hq0 [Hq1|Hq1]].
    - left. now apply ln_increasing.
    - rewrite Hq1. lra. }
  rewrite Rltb_false by lra.
  split; [reflexivity|].
  eexists. split; [reflexivity|lra].
Qed.

(** On finite intervals the non-linear result is either valid with a finite,
    non-negative sample entropy, or invalid with NaN: the validity gate never
    rejects a computed value, because the matches at length [m + 1] are
    among the matches at length [m]. *)
Theorem sample_entropy_is_nonnegative_or_nan
    (self : t) (l : list R) (r_factor : R) :
  nl_min_intervals self <= len l ->
  (2 <= length l)%nat -> (1 <= nl_m self)%nat ->
  nl_r_factor self = Fin r_factor ->
  let nl := _extract_nonlinear self (map Fin l) in
  (NonlinearFeatures.is_valid nl = true
   /\ exists x : R, NonlinearFeatures.sample_entropy nl = Fin x /\ (0 <= x)%R)
  \/ (NonlinearFeatures.is_valid nl = false
      /\ NonlinearFeatures.sample_entropy nl = NaN).
Proof. exact (sample_entropy_sign self l r_factor). Qed.

Lemma sample_entropy_is_nonnegative_or_nan_witness :
  let nl := _extract_nonlinear default (map Fin (repeat 800%R 30)) in
  (NonlinearFeatures.is_valid nl = true
   /\ exists x : R, NonlinearFeatures.sample_entropy nl = Fin x /\ (0 <= x)%R)
  \/ (NonlinearFeatures.is_valid nl = false
      /\ NonlinearFeatures.sample_entropy nl = NaN).
Proof.
  apply (sample_entropy_is_nonnegative_or_nan default (repeat 800%R 30) (2 / 10)).
  - unfold len; simpl; lia.
  - simpl; lia.
  - simpl; lia.
  - reflexivity.
Defined.

Lemma constant_entropy (self : t) (c r_factor : R) (n : nat) :
  nl_min_intervals self <= Z.of_nat n ->
  (2 <= n)%nat ->
  nl_r_factor self = Fin r_factor ->
  _extract_nonlinear self (map Fin (repeat c n))
  = NonlinearFeatures.mk (Fin 0) (Z.of_nat n) true.
Proof.
  intros Hmin Hn Hrf. unfold _extract_nonlinear.
  replace (len (map Fin (repeat c n))) with (Z.of_nat n)
    by (unfold len; now rewrite length_map, repeat_length).
  apply Z.ltb_ge in Hmin. rewrite Hmin, Hrf.
  unfold _sample_entropy.
  rewrite np_std_fin by (rewrite repeat_length; exact Hn).
  rewrite sample_std_repeat. cbn [nmul neqb].
  rewrite Reqb_true by lra. cbn [bind].
  unfold _validate_nonlinear.
  cbn [NonlinearFeatures.sample_entropy isfinite negb nlt].
  rewrite Rltb_false by lra. reflexivity.
Qed.

(** A constant sequence of integer-valued intervals, as the validator
    supplies them, has sample entropy exactly 0 and is valid, for every
    embedding dimension and tolerance factor: the standard deviation is 0,
    so the tolerance is 0 and no template is compared.  The bound
    [n * |z| <= 2^53] is the one under which binary64 adds the intervals
    without rounding; for other constants [np.std] leaves a rounding
    residue, the tolerance is not 0 and templates are compared. *)
Theorem constant_intervals_have_zero_entropy
    (self : t) (z : Z) (r_factor : R) (n : nat) :
  nl_min_intervals self <= Z.of_nat n ->
  (2 <= n)%nat ->
  nl_r_factor self = Fin r_factor ->
  Z.of_nat n * Z.abs z <= 2 ^ 53 ->
  _extract_nonlinear self (map Fin (repeat (IZR z) n))
  = NonlinearFeatures.mk (Fin 0) (Z.of_nat n) true.
Proof.
  intros Hmin Hn Hrf _. exact (constant_entropy self (IZR z) r_factor n Hmin Hn Hrf).
Qed.

Lemma constant_intervals_have_zero_entropy_witness :
  _extract_nonlinear default (map Fin (repeat (IZR 800) 30))
  = NonlinearFeatures.mk (Fin 0) 30 true.
Proof.
  apply (constant_intervals_have_zero_entropy default 800 (2 / 10) 30).
  - simpl; lia.
  - lia.
  - reflexivity.
  - vm_compute. discriminate.
Defined.

(* ------------------------------------------------------------------ *)
(** *** Further properties of the frequency-domain extractor *)

Lemma spectral_features_valid (n : Z) (freqs psd : list num)
    (f : FrequencyDomainFeatures.t) :
  spectral_features n freqs psd = Returned f ->
  FrequencyDomainFeatures.is_valid f = true ->
  exists lf hf : R,
    (0 <= lf)%R /\ (0 <= hf)%R /\ f = spectral_record n lf hf.
Proof.
  unfold spectral_features.
  destruct (_band_power freqs psd LF_BAND) as [lf0|e]; [|discriminate].
  destruct (_band_power freqs psd HF_BAND) as [hf0|e]; [|discriminate].
  cbn [bind].
  match goal with
  | |- context [if negb (_validate_frequency_domain ?x) then _ else _] =>
      destruct (_validate_frequency_domain x) eqn:E
  end; cbn [negb]; intros H Hv; injection H as <-;
    [|discriminate Hv].
  unfold _validate_frequency_domain in E.
  cbn [FrequencyDomainFeatures.lf_power FrequencyDomainFeatures.hf_power] in E.
  destruct lf0 as [lf| | |], hf0 as [hf| | |];
    try (cbn [isfinite negb orb] in E; discriminate E).
  cbn [isfinite negb orb] in E.
  destruct (nlt (Fin lf) (Fin 0) || nlt (Fin hf) (Fin 0)) eqn:E2;
    [discriminate E|].
  apply orb_false_iff in E2. destruct E2 as [L H].
  apply nlt_false_fin in L, H.
  exists lf, hf. split; [exact L|]. split; [exact H|].
  unfold spectral_record. cbn [nadd]. unfold ngt, nlt.
  f_equal.
  - destruct (Req_dec_T hf 0) as [Z0|Z0].
    + rewrite Z0, Rltb_false, Reqb_true by lra. reflexivity.
    + rewrite Rltb_true, Reqb_false by lra. now rewrite ndiv_fin.
  - destruct (Req_dec_T (lf + hf) 0) as [Z0|Z0].
    + rewrite Z0, Rltb_false, Reqb_true by lra. reflexivity.
    + rewrite Rltb_true, Reqb_false by lra. now rewrite ndiv_fin.
  - destruct (Req_dec_T (lf + hf) 0) as [Z0|Z0].
    + rewrite Z0, Rltb_false, Reqb_true by lra. reflexivity.
    + rewrite Rltb_true, Reqb_false by lra. now rewrite ndiv_fin.
Qed.

Lemma valid_frequency_domain_record
    (scipy : SciPy) (self : t) (rr_ms : list num) :
  FrequencyDomainFeatures.is_valid (_extract_frequency_domain scipy self rr_ms)
  = true ->
  fd_min_intervals self <= len rr_ms
  /\ exists lf hf : R,
       (0 <= lf)%R /\ (0 <= hf)%R
       /\ _extract_frequency_domain scipy self rr_ms
          = spectral_record (len rr_ms) lf hf.
Proof.
  unfold _extract_frequency_domain.
  destruct (Z.ltb_spec (len rr_ms) (fd_min_intervals self)) as [H|H];
    [discriminate|].
  destruct (_interpolate_rr scipy self rr_ms (time_axis rr_ms)) as [interp|e];
    cbn [bind try_except]; [|discriminate].
  destruct (len (fst interp) <? 10); cbn [try_except]; [discriminate|].
  destruct (_compute_psd scipy self (fst interp)) as [spectrum|e];
    cbn [bind try_except]; [|discriminate].
  destruct (spectral_features (len rr_ms) (fst spectrum) (snd spectrum))
    as [f|e] eqn:E; cbn [try_except]; [|discriminate].
  intros Hv. split; [exact H|].
  exact (spectral_features_valid _ _ _ _ E Hv).
Qed.

(** A frequency-domain result flagged valid, whatever interpolation and
    Welch's method returned: both band powers are finite and non-negative,
    [total_power] is their sum, the three derived fields are NaN exactly
    when their denominator is 0, and otherwise [lf_hf_ratio] is the quotient
    [lf_power / hf_power], not negative, and [lf_nu], [hf_nu] are the
    quotients by [total_power] times 100, each between 0 and 100. *)
Theorem valid_spectrum_is_consistent
    (scipy : SciPy) (self : t) (rr_ms : list num) :
  let fd := _extract_frequency_domain scipy self rr_ms in
  FrequencyDomainFeatures.is_valid fd = true ->
  fd_min_intervals self <= len rr_ms
  /\ exists lf hf : R,
       (0 <= lf)%R /\ (0 <= hf)%R
       /\ FrequencyDomainFeatures.lf_power fd = Fin lf
       /\ FrequencyDomainFeatures.hf_power fd = Fin hf
       /\ FrequencyDomainFeatures.total_power fd = Fin (lf + hf)
       /\ FrequencyDomainFeatures.num_intervals fd = len rr_ms
       /\ (hf = 0%R <-> FrequencyDomainFeatures.lf_hf_ratio fd = NaN)
       /\ ((lf + hf)%R = 0%R <-> FrequencyDomainFeatures.lf_nu fd = NaN)
       /\ ((lf + hf)%R = 0%R <-> FrequencyDomainFeatures.hf_nu fd = NaN)
       /\ (hf <> 0%R ->
           FrequencyDomainFeatures.lf_hf_ratio fd = Fin (lf / hf)
           /\ (0 <= lf / hf)%R)
       /\ ((lf + hf)%R <> 0%R ->
           FrequencyDomainFeatures.lf_nu fd = Fin (lf / (lf + hf) * 100)
           /\ FrequencyDomainFeatures.hf_nu fd = Fin (hf / (lf + hf) * 100)
           /\ (0 <= lf / (lf + hf) * 100 <= 100)%R
           /\ (0 <= hf / (lf + hf) * 100 <= 100)%R).
Proof.
  cbv zeta. intros Hv.
  destruct (valid_frequency_domain_record scipy self rr_ms Hv)
    as (Hn & lf & hf & Hlf & Hhf & E).
  split; [exact Hn|]. exists lf, hf. rewrite E.
  unfold spectral_record.
  cbn [FrequencyDomainFeatures.lf_power FrequencyDomainFeatures.hf_power
       FrequencyDomainFeatures.total_power FrequencyDomainFeatures.lf_hf_ratio
       FrequencyDomainFeatures.lf_nu FrequencyDomainFeatures.hf_nu
       FrequencyDomainFeatures.num_intervals].
  repeat (split; [first [assumption|reflexivity]|]).
  split; [|split; [|split; [|split]]].
  - destruct (Req_dec_T hf 0) as [Z0|Z0].
    + rewrite (Reqb_true _ _ Z0). tauto.
    + rewrite (Reqb_false _ _ Z0). split; [contradiction|discriminate].
  - destruct (Req_dec_T (lf + hf) 0) as [Z0|Z0].
    + rewrite (Reqb_true _ _ Z0). tauto.
    + rewrite (Reqb_false _ _ Z0). split; [contradiction|discriminate].
  - destruct (Req_dec_T (lf + hf) 0) as [Z0|Z0].
    + rewrite (Reqb_true _ _ Z0). tauto.
    + rewrite (Reqb_false _ _ Z0). split; [contradiction|discriminate].
  - intros Z0. rewrite (Reqb_false _ _ Z0). split; [reflexivity|].
    apply Rmult_le_pos; [exact Hlf|].
    left. apply Rinv_0_lt_compat. lra.
  - intros Z0. rewrite (Reqb_false _ _ Z0).
    assert (P : (0 < lf + hf)%R) by lra.
    assert (Q : (0 < / (lf + hf))%R) by now apply Rinv_0_lt_compat.
    assert (L : (lf / (lf + hf) + hf / (lf + hf) = 1)%R) by (field; lra).
    assert (A : (0 <= lf / (lf + hf))%R)
      by (apply Rmult_le_pos; [exact Hlf|lra]).
    assert (B : (0 <= hf / (lf + hf))%R)
      by (apply Rmult_le_pos; [exact Hhf|lra]).
    repeat split; try reflexivity; lra.
Qed.

(** A scipy stand-in: constant interpolation and a four-bin spectrum. *)
Definition toy_scipy : SciPy :=
  {| interp1d := fun _ _ => Returned (fun _ => Fin 1000);
     welch := fun _ _ _ _ =>
       Returned
         (frequencies [(5 / 100, 1); (10 / 100, 1); (20 / 100, 1); (30 / 100, 1)]%R,
          densities [(5 / 100, 1); (10 / 100, 1); (20 / 100, 1); (30 / 100, 1)]%R) |}.

Lemma toy_scipy_is_valid :
  FrequencyDomainFeatures.is_valid
    (_extract_frequency_domain toy_scipy default (map Fin (repeat 1000%R 20)))
  = true.
Proof.
  rewrite (extract_frequency_domain_spectrum toy_scipy default _
             (map (fun _ => Fin 1000) (linspace_grid 19 74), linspace_grid 19 74)
             (frequencies [(5 / 100, 1); (10 / 100, 1); (20 / 100, 1); (30 / 100, 1)]%R,
              densities [(5 / 100, 1); (10 / 100, 1); (20 / 100, 1); (30 / 100, 1)]%R)).
  - cbn [fst snd]. rewrite spectral_features_fin.
    + reflexivity.
    + apply band_integral_nonneg.
      * repeat constructor; cbn [fst]; lra.
      * repeat constructor; cbn [snd]; lra.
    + apply band_integral_nonneg.
      * repeat constructor; cbn [fst]; lra.
      * repeat constructor; cbn [snd]; lra.
  - unfold len; simpl; lia.
  - now apply twenty_seconds_grid.
  - cbn [fst]. unfold len. rewrite length_map. cbn. lia.
  - reflexivity.
Qed.

Lemma valid_spectrum_is_consistent_witness :
  fd_min_intervals default <= len (map Fin (repeat 1000%R 20)).
Proof.
  exact (proj1 (valid_spectrum_is_consistent toy_scipy default
                  (map Fin (repeat 1000%R 20)) toy_scipy_is_valid)).
Defined.

Lemma np_linspace0_length (stop : num) (n : Z) (grid : list num) :
  np_linspace0 stop n = Returned grid -> Z.of_nat (length grid) = n.
Proof.
  unfold np_linspace0.
  destruct (Z.ltb_spec n 0) as [H|H]; [discriminate|].
  destruct (Z.to_nat n) as [|[|k]] eqn:E; intros G; injection G as <-.
  - simpl. lia.
  - simpl. lia.
  - cbn [length app]. rewrite last_length, length_map, length_seq. lia.
Qed.

Lemma py_int_below (x : R) (bound : Z) (z : Z) :
  (x < IZR bound)%R -> 0 < bound -> py_int (Fin x) = Returned z -> z < bound.
Proof.
  intros Hx Hb H. cbn [py_int] in H. injection H as <-.
  unfold Rltb. destruct (Rlt_dec x 0) as [Hneg|Hpos].
  - assert (0 <= Zfloor (- x)) by (apply Zfloor_lub; simpl; lra). lia.
  - apply lt_IZR. pose proof (Zfloor_bound x). lra.
Qed.

Lemma short_duration_invalid
    (scipy : SciPy) (self : t) (l : list R) (rate : R) :
  fd_resample_rate self = Fin rate ->
  (last (arrival_times 0 l) 0 * rate < 10)%R ->
  _extract_frequency_domain scipy self (map Fin l)
  = _invalid_frequency_domain (len l).
Proof.
  intros Hrate Hshort. unfold _extract_frequency_domain.
  replace (len (map Fin l)) with (len l)
    by (unfold len; now rewrite length_map).
  destruct (len l <? fd_min_intervals self); [reflexivity|].
  unfold _interpolate_rr.
  destruct (interp1d scipy _ _) as [f|e]; cbn [bind try_except];
    [|reflexivity].
  rewrite (proj1 (time_axis_arrival_times l)).
  destruct l as [|x l]; [reflexivity|].
  rewrite last_item_fin.
  2:{ intros E. apply (f_equal (@length R)) in E.
      rewrite arrival_times_length in E. discriminate E. }
  cbn [bind]. rewrite Hrate. cbn [nmul].
  destruct (py_int (Fin _)) as [z|e] eqn:Ez; cbn [bind try_except];
    [|reflexivity].
  apply (py_int_below _ 10) in Ez; [|exact Hshort|lia].
  destruct (np_linspace0 _ z) as [grid|e] eqn:Eg; cbn [bind try_except fst];
    [|reflexivity].
  apply np_linspace0_length in Eg.
  replace (len (map f grid) <? 10) with true; [reflexivity|].
  symmetry. apply Z.ltb_lt. unfold len. rewrite length_map. lia.
Qed.

(** Intervals whose last beat arrives before [10 / fd_resample_rate]
    seconds (2.5 s at 4 Hz) never yield a spectrum: the frequency-domain
    result is the all-NaN invalid one whatever the interpolation library
    does, because fewer than ten samples can be laid out. *)
Theorem brief_window_has_no_spectrum
    (scipy : SciPy) (self : t) (l : list R) (rate : R) :
  fd_resample_rate self = Fin rate ->
  (last (arrival_times 0 l) 0 * rate < 10)%R ->
  _extract_frequency_domain scipy self (map Fin l)
  = _invalid_frequency_domain (len l).
Proof. exact (short_duration_invalid scipy self l rate). Qed.

Lemma brief_window_has_no_spectrum_witness :
  _extract_frequency_domain toy_scipy default (map Fin (repeat 100%R 20))
  = _invalid_frequency_domain 20.
Proof.
  apply (brief_window_has_no_spectrum toy_scipy default (repeat 100%R 20) 4).
  - reflexivity.
  - simpl. lra.
Defined.

(* ------------------------------------------------------------------ *)
(** *** Further properties of the aggregator *)

Lemma spectral_features_count (n : Z) (freqs psd : list num)
    (f : FrequencyDomainFeatures.t) :
  spectral_features n freqs psd = Returned f ->
  FrequencyDomainFeatures.num_intervals f = n.
Proof.
  unfold spectral_features.
  destruct (_band_power freqs psd LF_BAND) as [lf|e]; [|discriminate].
  destruct (_band_power freqs psd HF_BAND) as [hf|e]; [|discriminate].
  cbn [bind].
  destruct (negb (_validate_frequency_domain _));
    intros H; injection H as <-; reflexivity.
Qed.

(** Every result records the length of the input array, on every path:
    too few intervals, an exception inside a domain, a rejected gate or
    success. *)
Theorem num_intervals_is_input_length
    (scipy : SciPy) (self : t) (rr_ms : list num) :
  HRVFeatures.num_intervals (extract scipy self rr_ms) = len rr_ms
  /\ TimeDomainFeatures.num_intervals (_extract_time_domain self rr_ms)
     = len rr_ms
  /\ FrequencyDomainFeatures.num_intervals
       (_extract_frequency_domain scipy self rr_ms) = len rr_ms
  /\ NonlinearFeatures.num_intervals (_extract_nonlinear self rr_ms)
     = len rr_ms.
Proof.
  split; [reflexivity|]. split; [|split].
  - destruct (Z.ltb_spec (len rr_ms) (td_min_intervals self)) as [H|H].
    + unfold _extract_time_domain. apply Z.ltb_lt in H. now rewrite H.
    + now apply (extract_time_domain_fields self rr_ms H).
  - unfold _extract_frequency_domain.
    destruct (len rr_ms <? fd_min_intervals self); [reflexivity|].
    destruct (_interpolate_rr scipy self rr_ms (time_axis rr_ms)) as [interp|e];
      cbn [bind try_except]; [|reflexivity].
    destruct (len (fst interp) <? 10); cbn [try_except]; [reflexivity|].
    destruct (_compute_psd scipy self (fst interp)) as [spectrum|e];
      cbn [bind try_except]; [|reflexivity].
    destruct (spectral_features (len rr_ms) (fst spectrum) (snd spectrum))
      as [f|e] eqn:E; cbn [try_except]; [|reflexivity].
    now apply (spectral_features_count _ _ _ _ E).
  - unfold _extract_nonlinear.
    destruct (len rr_ms <? nl_min_intervals self); [reflexivity|].
    destruct (_sample_entropy rr_ms (nl_m self) (nl_r_factor self)) as [v|e];
      cbn [bind try_except]; [|reflexivity].
    destruct (negb (_validate_nonlinear _)); reflexivity.
Qed.

Lemma nonlinear_listed (scipy : SciPy) (self : t) (rr_ms : list num) :
  In "nonlinear"%string (HRVFeatures.invalid_domains (extract scipy self rr_ms))
  <-> NonlinearFeatures.is_valid (_extract_nonlinear self rr_ms) = false.
Proof.
  unfold extract. cbn [HRVFeatures.invalid_domains].
  destruct (TimeDomainFeatures.is_valid (_extract_time_domain self rr_ms));
  destruct (FrequencyDomainFeatures.is_valid
              (_extract_frequency_domain scipy self rr_ms));
  destruct (NonlinearFeatures.is_valid (_extract_nonlinear self rr_ms));
  cbn [negb app In]; split; intros H; try reflexivity; try discriminate H;
    repeat destruct H as [H|H]; try discriminate H; try contradiction; auto.
Qed.

End HRVFeatureExtractor.

(* ================================================================== *)
(** ** The time-domain extractor in binary64 *)
(* ================================================================== *)

(** [_extract_time_domain] once more, over IEEE-754 binary64 floats with
    round-to-nearest-even, the arithmetic of [np.float64] and of Python's
    [float].  [np.sum] is NumPy's pairwise summation of a contiguous
    array. *)
Module Binary64.
Import Stdlib.Floats.PrimFloat.
Local Open Scope float_scope.

(** An array length as a float. *)
Definition of_nat (n : nat) : float :=
  of_uint63 (Stdlib.Numbers.Cyclic.Int63.Uint63.of_Z (Z.of_nat n)).

(** One round of the unrolled loop: [r[j] += a[i + j]] for [j < 8]. *)
Definition add8 (r v : list float) : list float :=
  map (fun p => fst p + snd p) (combine r v).

Fixpoint unrolled (groups : nat) (r a : list float)
  : list float * list float :=
  match groups with
  | O => (r, a)
  | S g => unrolled g (add8 r (firstn 8 a)) (skipn 8 a)
  end.

(** A block of 8 to 128 elements: eight accumulators over the full groups of
    eight, combined pairwise, then the remaining elements one by one. *)
Definition block_sum (a : list float) : float :=
  let (r, rest) := unrolled (length a / 8 - 1) (firstn 8 a) (skipn 8 a) in
  match r with
  | [r0; r1; r2; r3; r4; r5; r6; r7] =>
      fold_left add rest (((r0 + r1) + (r2 + r3)) + ((r4 + r5) + (r6 + r7)))
  | _ => nan
  end.

(** NumPy's [pairwise_sum]: fewer than 8 elements are added in order, up to
    128 form one block, more are split in two halves, the first a multiple
    of 8 long.  [fuel] bounds the depth of the splitting; the length of the
    array is always enough. *)
Fixpoint pairwise_sum (fuel : nat) (a : list float) : float :=
  let n := length a in
  if (n <? 8)%nat then fold_left add a 0
  else if (n <=? 128)%nat then block_sum a
  else match fuel with
       | O => nan
       | S fuel' =>
           let n2 := (n / 2)%nat in
           let n2 := (n2 - n2 mod 8)%nat in
           pairwise_sum fuel' (firstn n2 a) + pairwise_sum fuel' (skipn n2 a)
       end.

(** [np.add.reduce]: the result starts at the identity 0. *)
Definition np_sum (a : list float) : float := 0 + pairwise_sum (length a) a.

(** [np.mean]. *)
Definition np_mean (a : list float) : float := np_sum a / of_nat (length a).

(** [np.std(a, ddof=1)]: the mean, the deviations from it, their squares,
    the sum of these over [max(n - 1, 0)], the square root. *)
Definition np_std_ddof1 (a : list float) : float :=
  let arrmean := np_sum a / of_nat (length a) in
  let x := map (fun v => v - arrmean) a in
  let x := map (fun d => d * d) x in
  sqrt (np_sum x / of_nat (length a - 1)).

(** [np.diff]. *)
Fixpoint np_diff (a : list float) : list float :=
  match a with
  | x :: (y :: _) as t => (y - x) :: np_diff t
  | _ => []
  end.

Definition isfinite (x : float) : bool := negb (is_nan x || is_infinity x).

Module TimeDomainFeatures.

Record t : Type := mk {
  mean_rr : float;
  sdnn : float;
  rmssd : float;
  pnn50 : float;
  pnn20 : float;
  mean_hr : float;
  std_hr : float;
  cv_rr : float;
  num_intervals : Z;
  is_valid : bool
}.

Definition to_array (self : t) : list float :=
  [mean_rr self; sdnn self; rmssd self; pnn50 self;
   pnn20 self; mean_hr self; std_hr self; cv_rr self].

End TimeDomainFeatures.

Definition _invalid_time_domain (n : Z) : TimeDomainFeatures.t :=
  TimeDomainFeatures.mk nan nan nan nan nan nan nan nan n false.

Definition _validate_time_domain (f : TimeDomainFeatures.t) : bool :=
  let values := TimeDomainFeatures.to_array f in
  if existsb (fun v => negb (isfinite v)) values then false
  else if (TimeDomainFeatures.mean_rr f <=? 0)
          || (3000 <? TimeDomainFeatures.mean_rr f) then false
  else if (TimeDomainFeatures.mean_hr f <=? 0)
          || (300 <? TimeDomainFeatures.mean_hr f) then false
  else if (TimeDomainFeatures.sdnn f <? 0)
          || (TimeDomainFeatures.rmssd f <? 0) then false
  else if (TimeDomainFeatures.pnn50 f <? 0)
          || (100 <? TimeDomainFeatures.pnn50 f) then false
  else true.

(** [float(np.sum(abs_diff > x) / len(diff) * 100) if len(diff) > 0 else 0.0]. *)
Definition pnn (threshold : float) (diff abs_diff : list float) : float :=
  if (0 <? length diff)%nat
  then of_nat (length (filter (fun d => threshold <? d) abs_diff))
       / of_nat (length diff) * 100
  else 0.

(** Nothing in the [try] block raises on an array of floats. *)
Definition _extract_time_domain (self : HRVFeatureExtractor.t)
    (rr_ms : list float) : TimeDomainFeatures.t :=
  let n := Z.of_nat (length rr_ms) in
  if (n <? HRVFeatureExtractor.td_min_intervals self)%Z
  then _invalid_time_domain n else
  let mean_rr := np_mean rr_ms in
  let sdnn := np_std_ddof1 rr_ms in
  let diff := np_diff rr_ms in
  let rmssd := sqrt (np_mean (map (fun d => d * d) diff)) in
  let abs_diff := map abs diff in
  let pnn50 := pnn 50 diff abs_diff in
  let pnn20 := pnn 20 diff abs_diff in
  let hr_bpm := map (fun x => 60000 / x) rr_ms in
  let mean_hr := np_mean hr_bpm in
  let std_hr := np_std_ddof1 hr_bpm in
  let cv_rr := if 0 <? mean_rr then sdnn / mean_rr * 100 else 0 in
  let features :=
    TimeDomainFeatures.mk mean_rr sdnn rmssd pnn50 pnn20 mean_hr std_hr cv_rr
      n true in
  if negb (_validate_time_domain features) then
    TimeDomainFeatures.mk
      (TimeDomainFeatures.mean_rr features) (TimeDomainFeatures.sdnn features)
      (TimeDomainFeatures.rmssd features) (TimeDomainFeatures.pnn50 features)
      (TimeDomainFeatures.pnn20 features) (TimeDomainFeatures.mean_hr features)
      (TimeDomainFeatures.std_hr features) (TimeDomainFeatures.cv_rr features)
      n false
  else features.

(** Seventy-five intervals of 1000.3 ms, the binary64 number nearest to it. *)
Definition constant_1000_3 : list float := repeat 0x1.f426666666666p+9 75.

(** Thirty values 0.1. *)
Definition constant_0_1 : list float := repeat 0x1.999999999999ap-4 30.

(** C6 fails here.  On seventy-five intervals all equal to 1000.3 ms the
    rounded mean is 1000.3000000000002, every deviation from it is one unit
    in the last place, and [sdnn] is 2.2890482860499026e-13, not 0; [rmssd],
    [pnn50] and [pnn20] are 0 and the result is valid.  On thirty values 0.1
    [np.std] is 2.823006427041851e-17. *)
Lemma constant_sdnn_keeps_a_residue :
  let f := _extract_time_domain HRVFeatureExtractor.default constant_1000_3 in
  TimeDomainFeatures.mean_rr f = 0x1.f426666666668p+9
  /\ TimeDomainFeatures.sdnn f = 0x1.01b953297c22ep-42
  /\ (TimeDomainFeatures.sdnn f =? 0) = false
  /\ TimeDomainFeatures.rmssd f = 0
  /\ TimeDomainFeatures.pnn50 f = 0
  /\ TimeDomainFeatures.pnn20 f = 0
  /\ TimeDomainFeatures.is_valid f = true
  /\ np_mean constant_0_1 = 0x1.999999999999cp-4
  /\ np_std_ddof1 constant_0_1 = 0x1.04605acafe6c2p-55.
Proof. vm_compute. repeat split. Qed.

(** On integer-valued intervals nothing is rounded: forty intervals of
    1000 ms have mean 1000 and [sdnn] 0. *)
Example integer_constant_has_no_residue :
  let f := _extract_time_domain HRVFeatureExtractor.default
             (repeat 1000 40) in
  TimeDomainFeatures.mean_rr f = 1000
  /\ TimeDomainFeatures.sdnn f = 0
  /\ TimeDomainFeatures.rmssd f = 0
  /\ TimeDomainFeatures.cv_rr f = 0
  /\ TimeDomainFeatures.mean_hr f = 60
  /\ TimeDomainFeatures.is_valid f = true.
Proof. vm_compute. repeat split. Qed.

End Binary64.

(* ================================================================== *)
(** ** core/predictor.py: [ArrhythmiaPredictor.predict] *)
(* ================================================================== *)

Module ArrhythmiaPredictor.
Import PyData Numeric.
Local Open Scope string_scope.
Local Open Scope list_scope.
Local Open Scope Z_scope.

(** The loaded booster: [self._model.predict(xgb.DMatrix(row, ...))[0]], a
    float or an exception. *)
Definition Booster : Type := list num -> outcome num.

(** The attributes [predict] reads. *)
Record t : Type := mk {
  _model : option Booster;
  _feature_names : list string
}.

Definition is_loaded (self : t) : bool :=
  match _model self with Some _ => true | None => false end.

Definition feature_count (self : t) : Z :=
  Z.of_nat (length (_feature_names self)).

(** What is raised inside the [try] block and caught by
    [except Exception as e]. *)
Inductive failure : Type :=
| FeatureCountMismatch (expected got : Z)
| InvalidValues (nan_features : list string)
| OtherException (e : exn).

(** [InferenceError], by the message it is built with. *)
Inductive InferenceError : Type :=
| ModelNotLoaded
| InvalidFeatures (invalid_domains : list string)
| XGBoostPredictionError
| UnexpectedPredictionError (cause : failure).

(** A run of [predict]: what it raised or returned, and the feature rows
    the booster was evaluated on. *)
Record run : Type := {
  result : InferenceError + num;
  evaluated : list (list num)
}.

Definition raise (e : InferenceError) (rows : list (list num)) : run :=
  {| result := inl e; evaluated := rows |}.

(** [np.where(~np.isfinite(a))[0]]. *)
Definition nonfinite_indices (a : list num) : list nat :=
  map fst (filter (fun p => negb (isfinite (snd p)))
                  (combine (seq 0 (length a)) a)).

Definition predict (self : t) (features : HRVFeatures.t) : run :=
  match _model self with
  | None => raise ModelNotLoaded []
  | Some model =>
      if negb (HRVFeatures.is_valid features) then
        raise (InvalidFeatures (HRVFeatures.invalid_domains features)) []
      else
        let feature_array := HRVFeatures.to_array features in
        if negb (Z.of_nat (length feature_array) =? feature_count self) then
          raise (UnexpectedPredictionError
                   (FeatureCountMismatch (feature_count self)
                      (Z.of_nat (length feature_array)))) []
        else if negb (forallb isfinite feature_array) then
          let nan_indices := nonfinite_indices feature_array in
          let nan_features :=
            map (fun i => nth i (_feature_names self) "") nan_indices in
          raise (UnexpectedPredictionError (InvalidValues nan_features)) []
        else
          match model feature_array with
          | Raised XGBoostError =>
              raise XGBoostPredictionError [feature_array]
          | Raised e =>
              raise (UnexpectedPredictionError (OtherException e))
                    [feature_array]
          | Returned probability =>
              {| result := inr (py_max (Fin 0) (py_min (Fin 1) probability));
                 evaluated := [feature_array] |}
          end
  end.

(** What the checks after the validity check make of a feature vector. *)
Definition later_checks (self : t) (model : Booster) (feature_array : list num)
  : run :=
  if negb (Z.of_nat (length feature_array) =? feature_count self) then
    raise (UnexpectedPredictionError
             (FeatureCountMismatch (feature_count self)
                (Z.of_nat (length feature_array)))) []
  else if negb (forallb isfinite feature_array) then
    raise (UnexpectedPredictionError
             (InvalidValues
                (map (fun i => nth i (_feature_names self) "")
                     (nonfinite_indices feature_array)))) []
  else
    match model feature_array with
    | Raised XGBoostError => raise XGBoostPredictionError [feature_array]
    | Raised e =>
        raise (UnexpectedPredictionError (OtherException e)) [feature_array]
    | Returned probability =>
        {| result := inr (py_max (Fin 0) (py_min (Fin 1) probability));
           evaluated := [feature_array] |}
    end.

(** C10.  On features whose overall [is_valid] is false, [predict] raises an
    [InferenceError] and evaluates the booster on nothing.  On features whose
    overall [is_valid] is true, a loaded predictor goes on to the later
    checks whatever [invalid_domains] lists: it never raises the
    invalid-features error, the outcome does not depend on
    [invalid_domains], and when the feature count matches and every value is
    finite the booster is evaluated on [to_array]. *)
Theorem predict_gates_on_overall_validity
    (self : t) (features : HRVFeatures.t) :
  (HRVFeatures.is_valid features = false ->
     evaluated (predict self features) = []
     /\ (result (predict self features) = inl ModelNotLoaded
         \/ result (predict self features)
            = inl (InvalidFeatures (HRVFeatures.invalid_domains features)))
     /\ (is_loaded self = true ->
         result (predict self features)
         = inl (InvalidFeatures (HRVFeatures.invalid_domains features))))
  /\ (forall model : Booster,
        HRVFeatures.is_valid features = true ->
        _model self = Some model ->
        predict self features
        = later_checks self model (HRVFeatures.to_array features)
        /\ (forall domains,
              result (predict self features) <> inl (InvalidFeatures domains))
        /\ (forall domains,
              predict self
                (HRVFeatures.mk (HRVFeatures.time_domain features)
                   (HRVFeatures.frequency_domain features)
                   (HRVFeatures.nonlinear features)
                   (HRVFeatures.num_intervals features) true domains)
              = predict self features)
        /\ (feature_count self = 15 ->
            forallb isfinite (HRVFeatures.to_array features) = true ->
            evaluated (predict self features)
            = [HRVFeatures.to_array features])).
Proof.
  split.
  - intros Hv. unfold predict, is_loaded.
    destruct (_model self) as [model|].
    + rewrite Hv. cbn. repeat split; auto.
    + cbn. repeat split; auto. discriminate.
  - intros model Hv Hm.
    assert (E : predict self features
                = later_checks self model (HRVFeatures.to_array features)).
    { unfold predict, later_checks. rewrite Hm, Hv. reflexivity. }
    split; [exact E|]. split; [|split].
    + intros domains. rewrite E. unfold later_checks.
      destruct (negb (_ =? _)); [discriminate|].
      destruct (negb (forallb _ _)); [discriminate|].
      destruct (model _) as [p|[]]; discriminate.
    + intros domains. rewrite E. unfold predict. rewrite Hm. reflexivity.
    + intros Hc Hf. rewrite E. unfold later_checks.
      replace (Z.of_nat (length (HRVFeatures.to_array features)))
        with 15 by now destruct features as [[] [] []].
      rewrite Hc, Hf. cbn [Z.eqb Pos.eqb negb].
      destruct (model _) as [p|[]]; reflexivity.
Qed.

(** A valid time domain with the non-linear domain listed as invalid: the
    booster is evaluated and its score clamped into [0, 1]. *)
Example predict_proceeds_when_degraded :
  let td := TimeDomainFeatures.mk (Fin 800) (Fin 30) (Fin 25) (Fin 5) (Fin 30)
              (Fin 75) (Fin 3) (Fin 4) 60 true in
  let fd := FrequencyDomainFeatures.mk (Fin 100) (Fin 50) (Fin 2) (Fin 150)
              (Fin 60) (Fin 40) 60 true in
  let nl := NonlinearFeatures.mk (Fin (-1)) 60 false in
  let features := HRVFeatures.mk td fd nl 60 true ["nonlinear"] in
  let self := mk (Some (fun _ => Returned (Fin 2)))
                 HRVFeatureExtractor.FEATURE_NAMES in
  result (predict self features) = inr (Fin 1)
  /\ evaluated (predict self features) = [HRVFeatures.to_array features].
Proof.
  cbv zeta. unfold predict. cbn -[py_max py_min].
  unfold py_max, py_min, ngt, nlt. decide_reals. split; reflexivity.
Qed.

(* ------------------------------------------------------------------ *)
(** *** Further properties of [predict] *)

(** [max(0.0, min(1.0, p))] on every float. *)
Definition clamp (p : num) : num := py_max (Fin 0) (py_min (Fin 1) p).

Lemma clamp_range (p : num) :
  exists x : R, clamp p = Fin x /\ (0 <= x <= 1)%R.
Proof.
  unfold clamp, py_max, py_min, ngt.
  destruct p as [y| | |]; cbn [nlt].
  - destruct (Rlt_dec y 1) as [H1|H1].
    + rewrite (Rltb_true y 1 H1). cbn [nlt].
      destruct (Rlt_dec 0 y) as [H0|H0].
      * rewrite (Rltb_true 0 y H0). exists y. split; [reflexivity|lra].
      * rewrite Rltb_false by lra. exists 0%R. split; [reflexivity|lra].
    + rewrite Rltb_false by lra. cbn [nlt]. rewrite Rltb_true by lra.
      exists 1%R. split; [reflexivity|lra].
  - cbn [nlt]. rewrite Rltb_true by lra. exists 1%R. split; [reflexivity|lra].
  - exists 0%R. split; [reflexivity|lra].
  - cbn [nlt]. rewrite Rltb_true by lra. exists 1%R. split; [reflexivity|lra].
Qed.

Lemma clamp_special :
  clamp NaN = Fin 1 /\ clamp PInf = Fin 1 /\ clamp NInf = Fin 0.
Proof.
  unfold clamp, py_max, py_min, ngt. cbn [nlt].
  rewrite Rltb_true by lra. repeat split.
Qed.

Lemma predict_returns (self : t) (features : HRVFeatures.t) (p : num) :
  result (predict self features) = inr p <->
  exists (model : Booster) (score : num),
    _model self = Some model
    /\ HRVFeatures.is_valid features = true
    /\ feature_count self = 15
    /\ forallb isfinite (HRVFeatures.to_array features) = true
    /\ model (HRVFeatures.to_array features) = Returned score
    /\ p = clamp score.
Proof.
  assert (L : Z.of_nat (length (HRVFeatures.to_array features)) = 15)
    by now destruct features as [[] [] []].
  unfold predict. rewrite L. split.
  - destruct (_model self) as [model|]; [|discriminate].
    destruct (HRVFeatures.is_valid features); [|discriminate].
    cbn [negb].
    destruct (Z.eqb_spec 15 (feature_count self)) as [E|E]; [|discriminate].
    cbn [negb].
    destruct (forallb isfinite (HRVFeatures.to_array features));
      [|discriminate].
    cbn [negb].
    destruct (model (HRVFeatures.to_array features)) as [score|[]] eqn:M;
      try discriminate.
    cbn [result]. intros H. injection H as <-.
    exists model, score. repeat split; auto.
  - intros (model & score & Hm & Hv & Hc & Hf & Hs & ->).
    rewrite Hm, Hv, Hc, Hf, Hs. reflexivity.
Qed.

(** [predict] returns a score exactly when the model is loaded, the
    features are flagged valid, the model expects 15 features, all 15 values
    are finite and the booster returns; the score is the booster's, clamped;
    and the booster is evaluated at most once, on [to_array]. *)
Theorem predict_succeeds_exactly_when
    (self : t) (features : HRVFeatures.t) :
  (forall p : num,
     result (predict self features) = inr p <->
     exists (model : Booster) (score : num),
       _model self = Some model
       /\ HRVFeatures.is_valid features = true
       /\ feature_count self = 15
       /\ forallb isfinite (HRVFeatures.to_array features) = true
       /\ model (HRVFeatures.to_array features) = Returned score
       /\ p = clamp score)
  /\ (evaluated (predict self features) = []
      \/ evaluated (predict self features) = [HRVFeatures.to_array features]).
Proof.
  split; [intros p; apply predict_returns|].
  unfold predict.
  destruct (_model self) as [model|]; [|now left].
  destruct (negb (HRVFeatures.is_valid features)); [now left|].
  destruct (negb (_ =? _)); [now left|].
  destruct (negb (forallb _ _)); [now left|].
  destruct (model _) as [score|[]]; now right.
Qed.

(** A returned probability is a finite number between 0 and 1, whatever the
    booster returned. *)
Theorem prediction_is_a_probability
    (self : t) (features : HRVFeatures.t) (p : num) :
  result (predict self features) = inr p ->
  exists x : R, p = Fin x /\ (0 <= x <= 1)%R.
Proof.
  intros H. apply predict_returns in H.
  destruct H as (model & score & _ & _ & _ & _ & _ & ->).
  apply clamp_range.
Qed.

(** A booster that returns NaN or plus infinity is reported as probability
    1, one that returns minus infinity as 0: [min(1.0, nan)] is 1.0. *)
Theorem non_finite_score_is_clamped
    (self : t) (features : HRVFeatures.t) (model : Booster) (score : num) :
  _model self = Some model ->
  HRVFeatures.is_valid features = true ->
  feature_count self = 15 ->
  forallb isfinite (HRVFeatures.to_array features) = true ->
  model (HRVFeatures.to_array features) = Returned score ->
  (score = NaN -> result (predict self features) = inr (Fin 1))
  /\ (score = PInf -> result (predict self features) = inr (Fin 1))
  /\ (score = NInf -> result (predict self features) = inr (Fin 0)).
Proof.
  intros Hm Hv Hc Hf Hs.
  destruct clamp_special as (C1 & C2 & C3).
  assert (G : result (predict self features) = inr (clamp score)).
  { apply predict_returns. exists model, score. repeat split; assumption. }
  repeat split; intros E; rewrite G, E; f_equal; assumption.
Qed.

(** Features for the examples: every value finite. *)
Definition sample_features : HRVFeatures.t :=
  HRVFeatures.mk
    (TimeDomainFeatures.mk (Fin 800) (Fin 30) (Fin 25) (Fin 5) (Fin 30)
       (Fin 75) (Fin 3) (Fin 4) 60 true)
    (FrequencyDomainFeatures.mk (Fin 100) (Fin 50) (Fin 2) (Fin 150)
       (Fin 60) (Fin 40) 60 true)
    (NonlinearFeatures.mk (Fin 1) 60 true)
    60 true [].

Definition nan_predictor : t :=
  mk (Some (fun _ => Returned NaN)) HRVFeatureExtractor.FEATURE_NAMES.

Lemma prediction_is_a_probability_witness :
  exists x : R, Fin 1 = Fin x /\ (0 <= x <= 1)%R.
Proof.
  apply (prediction_is_a_probability nan_predictor sample_features).
  apply predict_returns. exists (fun _ => Returned NaN), NaN.
  repeat split. symmetry. apply clamp_special.
Defined.

Lemma non_finite_score_is_clamped_witness :
  result (predict nan_predictor sample_features) = inr (Fin 1).
Proof.
  refine (proj1 (non_finite_score_is_clamped nan_predictor sample_features
                   (fun _ => Returned NaN) NaN _ _ _ _ _) _); reflexivity.
Defined.

Lemma names_of_nonfinite (names : list string) (a : list num)
    (before : list string) :
  length names = length a ->
  map (fun i => nth i (before ++ names) "")
      (map fst (filter (fun p => negb (isfinite (snd p)))
                       (combine (seq (length before) (length a)) a)))
  = map fst (filter (fun p => negb (isfinite (snd p))) (combine names a)).
Proof.
  revert names before. induction a as [|x a IH]; intros [|nm names] before H;
    try discriminate H; [reflexivity|].
  injection H as H. cbn [length seq combine filter snd].
  specialize (IH names (before ++ [nm]) H).
  rewrite length_app in IH. cbn [length] in IH.
  replace (length before + 1)%nat with (S (length before)) in IH by lia.
  rewrite <- app_assoc in IH. cbn [app] in IH.
  destruct (negb (isfinite x)); cbn [map fst]; [|exact IH].
  rewrite IH. f_equal.
  rewrite app_nth2 by lia. now rewrite Nat.sub_diag.
Qed.

Lemma nonfinite_blocks (self : t) (features : HRVFeatures.t) :
  forallb isfinite (HRVFeatures.to_array features) = false ->
  evaluated (predict self features) = []
  /\ (forall p, result (predict self features) <> inr p)
  /\ (is_loaded self = true ->
      HRVFeatures.is_valid features = true ->
      feature_count self = 15 ->
      result (predict self features)
      = inl (UnexpectedPredictionError
               (InvalidValues
                  (map fst
                     (filter (fun p => negb (isfinite (snd p)))
                        (combine (_feature_names self)
                                 (HRVFeatures.to_array features))))))).
Proof.
  intros Hf.
  assert (L : Z.of_nat (length (HRVFeatures.to_array features)) = 15)
    by now destruct features as [[] [] []].
  split; [|split].
  - unfold predict.
    destruct (_model self) as [model|]; [|reflexivity].
    destruct (negb (HRVFeatures.is_valid features)); [reflexivity|].
    destruct (negb (_ =? _)); [reflexivity|].
    rewrite Hf. reflexivity.
  - intros p H. apply predict_returns in H.
    destruct H as (model & score & _ & _ & _ & Hf' & _). congruence.
  - intros Hl Hv Hc. unfold predict, is_loaded in *.
    destruct (_model self) as [model|]; [|discriminate Hl].
    rewrite Hv, L, Hc, Hf. cbn [negb Z.eqb Pos.eqb raise result].
    do 3 f_equal. unfold nonfinite_indices.
    apply (names_of_nonfinite (_feature_names self) _ []).
    unfold feature_count in Hc. lia.
Qed.

(** If any of the 15 values is NaN or infinite, [predict] never evaluates
    the booster and never returns a score; a loaded 15-feature predictor
    given valid-flagged features raises the invalid-values error naming
    exactly the features at the non-finite positions. *)
Theorem non_finite_features_never_reach_the_model
    (self : t) (features : HRVFeatures.t) :
  forallb isfinite (HRVFeatures.to_array features) = false ->
  evaluated (predict self features) = []
  /\ (forall p, result (predict self features) <> inr p)
  /\ (is_loaded self = true ->
      HRVFeatures.is_valid features = true ->
      feature_count self = 15 ->
      result (predict self features)
      = inl (UnexpectedPredictionError
               (InvalidValues
                  (map fst
                     (filter (fun p => negb (isfinite (snd p)))
                        (combine (_feature_names self)
                                 (HRVFeatures.to_array features))))))).
Proof. exact (nonfinite_blocks self features). Qed.

(** Valid time domain, all-NaN frequency domain. *)
Definition degraded_features : HRVFeatures.t :=
  HRVFeatures.mk
    (HRVFeatures.time_domain sample_features)
    (HRVFeatureExtractor._invalid_frequency_domain 60)
    (HRVFeatures.nonlinear sample_features)
    60 true ["frequency_domain"].

Lemma non_finite_features_never_reach_the_model_witness :
  result (predict nan_predictor degraded_features)
  = inl (UnexpectedPredictionError
           (InvalidValues ["lf_power"; "hf_power"; "lf_hf_ratio";
                           "total_power"; "lf_nu"; "hf_nu"])).
Proof.
  refine (proj2 (proj2 (non_finite_features_never_reach_the_model
                          nan_predictor degraded_features _)) _ _ _);
    reflexivity.
Defined.

(** A predictor whose metadata lists a number of feature names other than
    15 rejects every valid-flagged feature set with the count-mismatch
    error, without evaluating the booster. *)
Theorem wrong_feature_count_rejects_all
    (self : t) (features : HRVFeatures.t) (model : Booster) :
  _model self = Some model ->
  HRVFeatures.is_valid features = true ->
  feature_count self <> 15 ->
  predict self features
  = raise (UnexpectedPredictionError
             (FeatureCountMismatch (feature_count self) 15)) [].
Proof.
  intros Hm Hv Hc.
  assert (L : Z.of_nat (length (HRVFeatures.to_array features)) = 15)
    by now destruct features as [[] [] []].
  unfold predict. rewrite Hm, Hv, L. cbn [negb].
  destruct (Z.eqb_spec 15 (feature_count self)) as [E|E]; [congruence|].
  reflexivity.
Qed.

Lemma wrong_feature_count_rejects_all_witness :
  predict (mk (Some (fun _ => Returned (Fin 0))) ["mean_rr"; "sdnn"])
          sample_features
  = raise (UnexpectedPredictionError (FeatureCountMismatch 2 15)) [].
Proof.
  refine (wrong_feature_count_rejects_all
            (mk (Some (fun _ => Returned (Fin 0))) ["mean_rr"; "sdnn"])
            sample_features (fun _ => Returned (Fin 0)) eq_refl eq_refl _).
  discriminate.
Defined.

(** Whenever [extract] lists the non-linear domain as invalid for finite
    intervals, its sample entropy is NaN, so [predict] on the extracted
    features never evaluates the booster and never returns a score: the
    inference does not proceed in degraded mode. *)
Theorem invalid_nonlinear_blocks_inference
    (scipy : HRVFeatureExtractor.SciPy) (extractor : HRVFeatureExtractor.t)
    (self : t) (l : list R) (r_factor : R) :
  (2 <= length l)%nat ->
  (1 <= HRVFeatureExtractor.nl_m extractor)%nat ->
  HRVFeatureExtractor.nl_r_factor extractor = Fin r_factor ->
  let features := HRVFeatureExtractor.extract scipy extractor (map Fin l) in
  In "nonlinear" (HRVFeatures.invalid_domains features) ->
  NonlinearFeatures.sample_entropy (HRVFeatures.nonlinear features) = NaN
  /\ evaluated (predict self features) = []
  /\ (forall p, result (predict self features) <> inr p).
Proof.
  intros Hn Hm Hrf features Hin.
  apply HRVFeatureExtractor.nonlinear_listed in Hin.
  assert (Hnan : NonlinearFeatures.sample_entropy
                   (HRVFeatureExtractor._extract_nonlinear extractor (map Fin l))
                 = NaN).
  { destruct (Z.ltb_spec
                (HRVFeatureExtractor.len l)
                (HRVFeatureExtractor.nl_min_intervals extractor)) as [H|H].
    - unfold HRVFeatureExtractor._extract_nonlinear.
      replace (HRVFeatureExtractor.len (map Fin l))
        with (HRVFeatureExtractor.len l)
        by (unfold HRVFeatureExtractor.len; now rewrite length_map).
      apply Z.ltb_lt in H. now rewrite H.
    - destruct (HRVFeatureExtractor.sample_entropy_sign
                  extractor l r_factor H Hn Hm Hrf) as [[V _]|[_ N]].
      + congruence.
      + exact N. }
  split; [exact Hnan|].
  assert (Hf : forallb isfinite (HRVFeatures.to_array features) = false).
  { unfold features, HRVFeatureExtractor.extract, HRVFeatures.to_array.
    cbn [HRVFeatures.time_domain HRVFeatures.frequency_domain
         HRVFeatures.nonlinear].
    rewrite !forallb_app. unfold NonlinearFeatures.to_array at 1.
    rewrite Hnan. cbn [forallb isfinite andb].
    now rewrite !andb_false_r. }
  destruct (nonfinite_blocks self features Hf) as (E & R & _).
  split; assumption.
Qed.

Lemma invalid_nonlinear_blocks_inference_witness :
  evaluated (predict nan_predictor
               (HRVFeatureExtractor.extract HRVFeatureExtractor.toy_scipy
                  HRVFeatureExtractor.default (map Fin (repeat 800%R 10))))
  = [].
Proof.
  refine (proj1 (proj2 (invalid_nonlinear_blocks_inference
    HRVFeatureExtractor.toy_scipy HRVFeatureExtractor.default nan_predictor
    (repeat 800%R 10) (2 / 10) _ _ _ _))).
  - simpl; lia.
  - simpl; lia.
  - reflexivity.
  - apply HRVFeatureExtractor.nonlinear_listed. reflexivity.
Defined.

End ArrhythmiaPredictor.

(* ================================================================== *)
(** ** api/routes.py: classification helpers and the analysis pipeline *)
(* ================================================================== *)

Module RiskLevel.
Inductive t : Type := LOW | MODERATE | ELEVATED | HIGH.

(** The order of the levels, lowest first. *)
Definition rank (l : t) : nat :=
  match l with LOW => 0 | MODERATE => 1 | ELEVATED => 2 | HIGH => 3 end.
End RiskLevel.

Module Confidence.
Inductive t : Type := HIGH | MEDIUM | LOW.
End Confidence.

Module Recommendation.
Inductive t : Type := NORMAL | MONITOR | CONSULT | URGENT.
End Recommendation.

Module Routes.
Import PyData Numeric.
Local Open Scope string_scope.
Local Open Scope list_scope.
Local Open Scope Z_scope.

(** The risk thresholds of [config.Settings]. *)
Record RiskSettings : Type := {
  risk_threshold_low : num;
  risk_threshold_moderate : num;
  risk_threshold_elevated : num
}.

Definition settings : RiskSettings := {|
  risk_threshold_low := Fin (30 / 100);
  risk_threshold_moderate := Fin (50 / 100);
  risk_threshold_elevated := Fin (70 / 100)
|}.

Definition _classify_risk (cfg : RiskSettings) (probability : num)
  : RiskLevel.t :=
  if nlt probability (risk_threshold_low cfg) then RiskLevel.LOW
  else if nlt probability (risk_threshold_moderate cfg) then RiskLevel.MODERATE
  else if nlt probability (risk_threshold_elevated cfg) then RiskLevel.ELEVATED
  else RiskLevel.HIGH.

Definition _get_confidence (features_valid : bool) (rr_count : Z)
  : Confidence.t :=
  if negb features_valid then Confidence.LOW
  else if rr_count >=? 60 then Confidence.HIGH
  else if rr_count >=? 40 then Confidence.MEDIUM
  else Confidence.LOW.

Definition _get_recommendation (risk_level : RiskLevel.t) : Recommendation.t :=
  match risk_level with
  | RiskLevel.LOW => Recommendation.NORMAL
  | RiskLevel.MODERATE => Recommendation.MONITOR
  | RiskLevel.ELEVATED => Recommendation.CONSULT
  | RiskLevel.HIGH => Recommendation.URGENT
  end.

(** [features.get(key, default)]. *)
Definition dict_get_default (features : dict num) (key : string) (default : num)
  : num :=
  match dict_get key features with
  | Some v => v
  | None => default
  end.

(** The truth value of a float: false for zero only (NaN is true). *)
Definition truthy (x : num) : bool := negb (neqb x (Fin 0)).

(** [FeatureInterpretation]: [hrv_status] and [dominant_concern]. *)
Record FeatureInterpretation : Type := {
  hrv_status : string;
  dominant_concern : option string
}.

Definition _interpret_hrv (features : dict num) : FeatureInterpretation :=
  let sdnn := dict_get_default features "sdnn" (Fin 0) in
  let rmssd := dict_get_default features "rmssd" (Fin 0) in
  let lf_hf_ratio := dict_get_default features "lf_hf_ratio" (Fin 1) in
  let hrv_status :=
    if nlt sdnn (Fin 20) then "severely_reduced"
    else if nlt sdnn (Fin 50) then "reduced"
    else if nlt sdnn (Fin 100) then "normal"
    else "elevated" in
  let dominant_concern :=
    if ngt rmssd (Fin 100) then Some "possible_atrial_fibrillation"
    else if truthy lf_hf_ratio && ngt lf_hf_ratio (Fin 4)
         then Some "elevated_sympathetic_tone"
    else if nlt sdnn (Fin 20)
         then Some "severely_reduced_autonomic_function"
    else None in
  {| hrv_status := hrv_status; dominant_concern := dominant_concern |}.

(** What [analyze_arrhythmia] answers with: the success response, of which
    the analysis, the interpretation and the audit counts are kept (the
    probability before its rounding to four decimals; timings, hashes and
    identifiers are left out), or the [HTTPException] with its status and
    error code. *)
Inductive response : Type :=
| Success (risk_probability : num) (risk_level : RiskLevel.t)
    (confidence : Confidence.t) (recommendation : Recommendation.t)
    (interpretation : FeatureInterpretation)
    (rr_count_received : Z) (window_duration_s : option Q)
| HTTPException (status_code : Z) (code : option string).

(** [np.array(cleaned, dtype=np.float64)]. *)
Definition float_array (l : list Z) : list num := map of_Z l.

(** [analyze_arrhythmia] with the module's validator, extractor (the
    default [HRVFeatureExtractor()]) and predictor as parameters. *)
Definition analyze_arrhythmia
    (validator : Validator.Settings) (cfg : RiskSettings)
    (scipy : HRVFeatureExtractor.SciPy) (predictor : ArrhythmiaPredictor.t)
    (rr_intervals_ms : list Z) (start_timestamp end_timestamp : Validator.datetime)
  : outcome response :=
  validation <- Validator.validate validator rr_intervals_ms
                  start_timestamp end_timestamp ;;
  if negb (Validator.is_valid validation) then
    Returned (HTTPException 422 (Validator.error_code validation))
  else
  cleaned <- Validator.the_cleaned validation ;;
  let rr_array := float_array cleaned in
  let features :=
    HRVFeatureExtractor.extract scipy HRVFeatureExtractor.default rr_array in
  if negb (HRVFeatures.is_valid features) then
    Returned (HTTPException 422 (Some "FEATURE_EXTRACTION_FAILED"))
  else
  if negb (ArrhythmiaPredictor.is_loaded predictor) then
    Returned (HTTPException 503 (Some "MODEL_UNAVAILABLE"))
  else
  match ArrhythmiaPredictor.result
          (ArrhythmiaPredictor.predict predictor features) with
  | inl _ => Returned (HTTPException 500 (Some "INFERENCE_ERROR"))
  | inr risk_probability =>
      let risk_level := _classify_risk cfg risk_probability in
      let confidence :=
        _get_confidence (HRVFeatures.is_valid features)
                        (Z.of_nat (length cleaned)) in
      let recommendation := _get_recommendation risk_level in
      let feature_dict := HRVFeatures.to_dict features in
      Returned (Success risk_probability risk_level confidence recommendation
                  (_interpret_hrv feature_dict)
                  (Z.of_nat (length rr_intervals_ms))
                  (Validator.window_duration_s validation))
  end.

(** *** Risk levels *)

(** With ordered finite thresholds a higher probability never gets a lower
    risk level. *)
Theorem classify_risk_is_monotone (cfg : RiskSettings) (lo mo el p q : R) :
  risk_threshold_low cfg = Fin lo ->
  risk_threshold_moderate cfg = Fin mo ->
  risk_threshold_elevated cfg = Fin el ->
  (lo <= mo <= el)%R ->
  (p <= q)%R ->
  (RiskLevel.rank (_classify_risk cfg (Fin p))
   <= RiskLevel.rank (_classify_risk cfg (Fin q)))%nat.
Proof.
  intros H1 H2 H3 Ho Hpq. unfold _classify_risk. rewrite H1, H2, H3.
  cbn [nlt]. unfold Rltb.
  destruct (Rlt_dec p lo), (Rlt_dec p mo), (Rlt_dec p el),
           (Rlt_dec q lo), (Rlt_dec q mo), (Rlt_dec q el);
    cbn [RiskLevel.rank]; try lia; lra.
Qed.

Lemma classify_risk_is_monotone_witness :
  (RiskLevel.rank (_classify_risk settings (Fin (40 / 100)))
   <= RiskLevel.rank (_classify_risk settings (Fin (80 / 100))))%nat.
Proof.
  apply (classify_risk_is_monotone settings (30 / 100) (50 / 100) (70 / 100));
    try reflexivity; lra.
Defined.

(** *** The pipeline *)

Lemma analyze_success
    (validator : Validator.Settings) (cfg : RiskSettings)
    (scipy : HRVFeatureExtractor.SciPy) (predictor : ArrhythmiaPredictor.t)
    (rr : list Z) (s e : Validator.datetime)
    (p : num) (lvl : RiskLevel.t) (conf : Confidence.t)
    (rec : Recommendation.t) (interp : FeatureInterpretation)
    (received : Z) (duration : option Q) :
  analyze_arrhythmia validator cfg scipy predictor rr s e
  = Returned (Success p lvl conf rec interp received duration) ->
  let cleaned := Validator.kept validator rr in
  let features :=
    HRVFeatureExtractor.extract scipy HRVFeatureExtractor.default
      (float_array cleaned) in
  (exists r, Validator.validate validator rr s e = Returned r
             /\ Validator.is_valid r = true
             /\ duration = Validator.window_duration_s r)
  /\ HRVFeatures.is_valid features = true
  /\ ArrhythmiaPredictor.result (ArrhythmiaPredictor.predict predictor features)
     = inr p
  /\ lvl = _classify_risk cfg p
  /\ rec = _get_recommendation lvl
  /\ conf = _get_confidence true (Z.of_nat (length cleaned))
  /\ interp = _interpret_hrv (HRVFeatures.to_dict features)
  /\ received = Z.of_nat (length rr).
Proof.
  unfold analyze_arrhythmia.
  destruct (Validator.validate validator rr s e) as [r|x] eqn:V;
    cbn [bind]; [|discriminate].
  destruct (Validator.is_valid r) eqn:Hv; cbn [negb]; [|discriminate].
  destruct (Validator.accepted_cleaned_is_kept validator rr s e r V Hv)
    as [Hc _].
  unfold Validator.the_cleaned. rewrite Hc. cbn [bind].
  destruct (HRVFeatures.is_valid _) eqn:Hf; cbn [negb]; [|discriminate].
  destruct (ArrhythmiaPredictor.is_loaded predictor); cbn [negb];
    [|discriminate].
  destruct (ArrhythmiaPredictor.result _) as [err|p'] eqn:P; [discriminate|].
  intros H. injection H as <- <- <- <- <- <- <-.
  cbv zeta. repeat split; try reflexivity; try assumption.
  exists r. repeat split; assumption.
Qed.

(** *** A run of the pipeline: forty intervals of 1000 ms *)

Definition toy_bins : list bin :=
  [(5 / 100, 1); (10 / 100, 1); (20 / 100, 1); (30 / 100, 1)]%R.

Lemma toy_band_values :
  band_integral (4 / 100) (15 / 100) toy_bins = (5 / 100)%R
  /\ band_integral (15 / 100) (40 / 100) toy_bins = (10 / 100)%R.
Proof.
  unfold band_integral, toy_bins, in_band. cbn [filter fst].
  decide_reals. cbn [andb filter fst].
  unfold trapezoid_rule. cbn [trapezoid_areas fst snd Rsum fold_right].
  split; unfold Rsum; cbn; lra.
Qed.

Lemma forty_seconds_grid :
  HRVFeatureExtractor._interpolate_rr HRVFeatureExtractor.toy_scipy
    HRVFeatureExtractor.default (map Fin (repeat 1000%R 40))
    (HRVFeatureExtractor.time_axis (map Fin (repeat 1000%R 40)))
  = Returned (map (fun _ => Fin 1000) (HRVFeatureExtractor.linspace_grid 39 154),
              HRVFeatureExtractor.linspace_grid 39 154).
Proof.
  assert (D : last (arrival_times 0 (repeat 1000%R 40)) 0%R = 39%R)
    by (simpl; lra).
  rewrite (HRVFeatureExtractor.interpolate_rr_fin HRVFeatureExtractor.toy_scipy
             HRVFeatureExtractor.default (repeat 1000%R 40) 4 154
             (fun _ => Fin 1000));
    try rewrite D; try reflexivity.
  - discriminate.
  - lra.
  - apply Zfloor_eq. change (Z.of_nat 156) with 156. lra.
Qed.

Lemma forty_seconds_spectrum :
  HRVFeatureExtractor._extract_frequency_domain HRVFeatureExtractor.toy_scipy
    HRVFeatureExtractor.default (map Fin (repeat 1000%R 40))
  = HRVFeatureExtractor.spectral_record 40 (5 / 100) (10 / 100).
Proof.
  rewrite (HRVFeatureExtractor.extract_frequency_domain_spectrum
             HRVFeatureExtractor.toy_scipy HRVFeatureExtractor.default _
             (map (fun _ => Fin 1000) (HRVFeatureExtractor.linspace_grid 39 154),
              HRVFeatureExtractor.linspace_grid 39 154)
             (frequencies toy_bins, densities toy_bins)).
  - cbn [fst snd].
    destruct toy_band_values as [Hlf Hhf].
    rewrite HRVFeatureExtractor.spectral_features_fin.
    + rewrite Hlf, Hhf. reflexivity.
    + rewrite Hlf. lra.
    + rewrite Hhf. lra.
  - unfold HRVFeatureExtractor.len; simpl; lia.
  - exact forty_seconds_grid.
  - cbn [fst]. unfold HRVFeatureExtractor.len. rewrite length_map. cbn. lia.
  - reflexivity.
Qed.

(** The features of forty intervals of 1000 ms are valid and finite. *)
Lemma forty_seconds_features :
  let f := HRVFeatureExtractor.extract HRVFeatureExtractor.toy_scipy
             HRVFeatureExtractor.default (map Fin (repeat 1000%R 40)) in
  HRVFeatures.is_valid f = true
  /\ forallb isfinite (HRVFeatures.to_array f) = true.
Proof.
  cbv zeta.
  assert (Hmin : HRVFeatureExtractor.td_min_intervals HRVFeatureExtractor.default
                 <= HRVFeatureExtractor.len (repeat 1000%R 40))
    by (unfold HRVFeatureExtractor.len; simpl; lia).
  assert (Hn : (2 <= length (repeat 1000%R 40))%nat) by (simpl; lia).
  assert (Hr : Forall (fun x => (200 <= x <= 3000)%R) (repeat 1000%R 40))
    by (repeat constructor; lra).
  assert (Hnz : Forall (fun x => x <> 0%R) (repeat 1000%R 40))
    by (eapply Forall_impl; [|exact Hr]; intros x Hx; cbv beta in Hx; lra).
  pose proof (HRVFeatureExtractor.gate_passes_in_range _ _ Hmin Hn Hr) as G.
  pose proof (HRVFeatureExtractor.time_domain_fields_fin _ _ Hmin Hn Hnz) as F.
  cbv zeta in F.
  destruct F as (F1 & F2 & F3 & F4 & F5 & F6 & F7 & F8 & _).
  unfold HRVFeatureExtractor.extract, HRVFeatures.to_array.
  cbn [HRVFeatures.is_valid HRVFeatures.time_domain
       HRVFeatures.frequency_domain HRVFeatures.nonlinear].
  split; [exact G|].
  rewrite !forallb_app. rewrite forty_seconds_spectrum.
  rewrite (HRVFeatureExtractor.constant_entropy HRVFeatureExtractor.default
             1000 (2 / 10) 40) by (first [reflexivity | simpl; lia | lia]).
  unfold TimeDomainFeatures.to_array. rewrite F1, F2, F3, F4, F5, F6, F7, F8.
  unfold HRVFeatureExtractor.spectral_record.
  decide_reals.
  destruct (Rltb 0 (mean (repeat 1000%R 40))); reflexivity.
Qed.

(** A loaded predictor whose booster returns [score] on every row. *)
Definition toy_predictor (score : num) : ArrhythmiaPredictor.t :=
  ArrhythmiaPredictor.mk (Some (fun _ => Returned score))
                         HRVFeatureExtractor.FEATURE_NAMES.

Definition t0 : Validator.datetime :=
  {| Validator.instant_us := 0; Validator.tz_aware := true |}.

Definition t40 : Validator.datetime :=
  {| Validator.instant_us := 40000000; Validator.tz_aware := true |}.

Definition forty_seconds_features_of : HRVFeatures.t :=
  HRVFeatureExtractor.extract HRVFeatureExtractor.toy_scipy
    HRVFeatureExtractor.default (float_array (repeat 1000 40)).

Lemma forty_seconds_run (score : num) :
  analyze_arrhythmia Validator.settings settings HRVFeatureExtractor.toy_scipy
    (toy_predictor score) (repeat 1000 40) t0 t40
  = Returned
      (Success (ArrhythmiaPredictor.clamp score)
         (_classify_risk settings (ArrhythmiaPredictor.clamp score))
         Confidence.MEDIUM
         (_get_recommendation
            (_classify_risk settings (ArrhythmiaPredictor.clamp score)))
         (_interpret_hrv (HRVFeatures.to_dict forty_seconds_features_of))
         40 (Some (40000000 # 1000000)%Q)).
Proof.
  unfold analyze_arrhythmia.
  replace (Validator.validate Validator.settings (repeat 1000 40) t0 t40)
    with (Returned (Validator.Build_ValidationResult true None None
                      (Some (repeat 1000 40)) (Some (40000000 # 1000000)%Q)))
    by (vm_compute; reflexivity).
  cbn [bind Validator.is_valid negb Validator.the_cleaned
       Validator.cleaned_rr_intervals Validator.window_duration_s].
  fold forty_seconds_features_of.
  assert (E : float_array (repeat 1000 40) = map Fin (repeat 1000%R 40))
    by reflexivity.
  destruct forty_seconds_features as [Hv Hf]. cbv zeta in Hv, Hf.
  unfold forty_seconds_features_of. rewrite E, Hv. cbn [negb].
  change (ArrhythmiaPredictor.is_loaded (toy_predictor score)) with true.
  cbn [negb].
  assert (P : ArrhythmiaPredictor.result
                (ArrhythmiaPredictor.predict (toy_predictor score)
                   (HRVFeatureExtractor.extract HRVFeatureExtractor.toy_scipy
                      HRVFeatureExtractor.default (map Fin (repeat 1000%R 40))))
              = inr (ArrhythmiaPredictor.clamp score)).
  { apply ArrhythmiaPredictor.predict_returns.
    exists (fun _ => Returned score), score.
    repeat split; try reflexivity; assumption. }
  rewrite P. reflexivity.
Qed.

(** *** What the endpoint answers *)

Lemma float_array_reals (l : list Z) :
  float_array l = map Fin (map IZR l).
Proof. unfold float_array. now rewrite map_map. Qed.

(** The intervals the validator keeps always pass the time-domain gate when
    its value bounds lie within [200, 3000] ms and it asks for at least ten
    intervals. *)
Lemma accepted_intervals_extract
    (validator : Validator.Settings) (scipy : HRVFeatureExtractor.SciPy)
    (rr : list Z) :
  200 <= Validator.min_rr_value_ms validator ->
  Validator.max_rr_value_ms validator <= 3000 ->
  10 <= Validator.len (Validator.kept validator rr) ->
  HRVFeatures.is_valid
    (HRVFeatureExtractor.extract scipy HRVFeatureExtractor.default
       (float_array (Validator.kept validator rr))) = true.
Proof.
  intros Hlo Hhi Hn. rewrite float_array_reals.
  unfold HRVFeatureExtractor.extract. cbn [HRVFeatures.is_valid].
  unfold Validator.len in Hn.
  apply HRVFeatureExtractor.gate_passes_in_range.
  - unfold HRVFeatureExtractor.len. rewrite length_map.
    cbn [HRVFeatureExtractor.td_min_intervals HRVFeatureExtractor.default]. lia.
  - rewrite length_map. lia.
  - apply Forall_map.
    eapply Forall_impl; [|apply (Validator.kept_in_range validator rr)].
    intros x Hx. cbv beta in Hx. cbv beta.
    split; [apply (IZR_le 200)|apply (IZR_le x 3000)]; lia.
Qed.

Lemma analyze_errors
    (validator : Validator.Settings) (cfg : RiskSettings)
    (scipy : HRVFeatureExtractor.SciPy) (predictor : ArrhythmiaPredictor.t)
    (rr : list Z) (s e : Validator.datetime) :
  200 <= Validator.min_rr_value_ms validator ->
  Validator.max_rr_value_ms validator <= 3000 ->
  10 <= Validator.min_rr_count validator ->
  forall (status_code : Z) (code : option string),
    analyze_arrhythmia validator cfg scipy predictor rr s e
    = Returned (HTTPException status_code code) ->
    (status_code = 422
     /\ exists c, code = Some c /\ In c Validator.error_codes)
    \/ (status_code = 503 /\ code = Some "MODEL_UNAVAILABLE"
        /\ ArrhythmiaPredictor.is_loaded predictor = false)
    \/ (status_code = 500 /\ code = Some "INFERENCE_ERROR"
        /\ ArrhythmiaPredictor.is_loaded predictor = true).
Proof.
  intros Hlo Hhi Hcount st code. unfold analyze_arrhythmia.
  pose proof (Validator.validate_cases validator rr s e) as VC.
  destruct (Validator.validate validator rr s e) as [r|x] eqn:V;
    cbn [bind]; [|discriminate].
  destruct (Validator.is_valid r) eqn:Hv; cbn [negb].
  2:{ intros H. injection H as <- <-. left. split; [reflexivity|].
      destruct VC as [[Hv' _]|(_ & (c & Hc1 & Hc2) & _)]; [congruence|].
      exists c. split; assumption. }
  destruct (Validator.accepted_cleaned_is_kept validator rr s e r V Hv)
    as (Hcl & Hlen & _).
  unfold Validator.the_cleaned. rewrite Hcl. cbn [bind].
  rewrite (accepted_intervals_extract validator scipy rr Hlo Hhi) by lia.
  cbn [negb].
  destruct (ArrhythmiaPredictor.is_loaded predictor); cbn [negb].
  2:{ intros H. injection H as <- <-. right; left. repeat split. }
  destruct (ArrhythmiaPredictor.result _) as [err|p]; [|discriminate].
  intros H. injection H as <- <-. right; right. repeat split.
Qed.

(** The only exception the endpoint lets escape is the validator's
    [TypeError] for one timezone-aware and one naive timestamp, raised once
    the count and value checks have passed. *)
Lemma analyze_raises
    (validator : Validator.Settings) (cfg : RiskSettings)
    (scipy : HRVFeatureExtractor.SciPy) (predictor : ArrhythmiaPredictor.t)
    (rr : list Z) (s e : Validator.datetime) (x : exn) :
  analyze_arrhythmia validator cfg scipy predictor rr s e = Raised x <->
  x = TypeError
  /\ Validator.tz_aware s <> Validator.tz_aware e
  /\ Validator.count_ok validator rr /\ Validator.values_ok validator rr
  /\ Validator.min_rr_count validator
     <= Validator.len (Validator.kept validator rr).
Proof.
  unfold analyze_arrhythmia.
  destruct (Validator.validate validator rr s e) as [r|y] eqn:V; cbn [bind].
  - split.
    + destruct (Validator.is_valid r) eqn:Hv; cbn [negb]; [|discriminate].
      destruct (Validator.accepted_cleaned_is_kept validator rr s e r V Hv)
        as (Hcl & _).
      unfold Validator.the_cleaned. rewrite Hcl. cbn [bind].
      destruct (negb (HRVFeatures.is_valid _)); [discriminate|].
      destruct (negb (ArrhythmiaPredictor.is_loaded predictor));
        [discriminate|].
      destruct (ArrhythmiaPredictor.result _); discriminate.
    + intros (_ & Htz & [H1 H2] & H3 & H4). exfalso.
      rewrite Validator.validate_decisions in V.
      unfold Validator.values_ok in H3.
      apply Z.ltb_ge in H1. rewrite H1 in V.
      rewrite Z.gtb_ltb in V. apply Z.ltb_ge in H2. rewrite H2 in V.
      apply Z.ltb_ge in H3. rewrite H3 in V.
      apply Z.ltb_ge in H4. rewrite H4 in V.
      unfold Validator.total_seconds_between in V.
      destruct (Bool.eqb (Validator.tz_aware s) (Validator.tz_aware e)) eqn:E;
        [|discriminate V].
      apply Bool.eqb_prop in E. contradiction.
  - pose proof (Validator.validate_cases validator rr s e) as VC.
    rewrite V in VC. destruct VC as (-> & Htz & Hc & Hv & Hk).
    split.
    + intros H. injection H as <-. repeat split; try assumption;
        first [apply Hc | idtac].
    + intros (-> & _). reflexivity.
Qed.

(** When the validator's value bounds lie within [200, 3000] ms and it asks
    for at least ten intervals, as the shipped settings do, the endpoint never
    answers FEATURE_EXTRACTION_FAILED.  Every [HTTPException] it raises is a
    422 with one of the validator's six codes, a 503 MODEL_UNAVAILABLE for a
    predictor that is not loaded, or a 500 INFERENCE_ERROR for a loaded one;
    and the only other way it fails is the validator's uncaught [TypeError],
    raised exactly when one timestamp is timezone-aware and the other naive
    and the count and value checks have passed. *)
Theorem feature_extraction_never_fails
    (validator : Validator.Settings) (cfg : RiskSettings)
    (scipy : HRVFeatureExtractor.SciPy) (predictor : ArrhythmiaPredictor.t)
    (rr : list Z) (s e : Validator.datetime) :
  200 <= Validator.min_rr_value_ms validator ->
  Validator.max_rr_value_ms validator <= 3000 ->
  10 <= Validator.min_rr_count validator ->
  (forall (status_code : Z) (code : option string),
     analyze_arrhythmia validator cfg scipy predictor rr s e
     = Returned (HTTPException status_code code) ->
     (status_code = 422
      /\ exists c, code = Some c /\ In c Validator.error_codes)
     \/ (status_code = 503 /\ code = Some "MODEL_UNAVAILABLE"
         /\ ArrhythmiaPredictor.is_loaded predictor = false)
     \/ (status_code = 500 /\ code = Some "INFERENCE_ERROR"
         /\ ArrhythmiaPredictor.is_loaded predictor = true))
  /\ analyze_arrhythmia validator cfg scipy predictor rr s e
     <> Returned (HTTPException 422 (Some "FEATURE_EXTRACTION_FAILED"))
  /\ (forall x : exn,
        analyze_arrhythmia validator cfg scipy predictor rr s e = Raised x <->
        x = TypeError
        /\ Validator.tz_aware s <> Validator.tz_aware e
        /\ Validator.count_ok validator rr
        /\ Validator.values_ok validator rr
        /\ Validator.min_rr_count validator
           <= Validator.len (Validator.kept validator rr)).
Proof.
  intros Hlo Hhi Hcount.
  pose proof (analyze_errors validator cfg scipy predictor rr s e
                Hlo Hhi Hcount) as A.
  split; [exact A|]. split; [|intros x; apply analyze_raises].
  intros H. apply A in H.
  destruct H as [(_ & c & Hc & Hin)|[(H & _)|(H & _)]]; try discriminate H.
  injection Hc as <-. cbn in Hin.
  repeat (destruct Hin as [Hin|Hin]; [discriminate Hin|]). exact Hin.
Qed.

Lemma feature_extraction_never_fails_witness :
  analyze_arrhythmia Validator.settings settings HRVFeatureExtractor.toy_scipy
    (toy_predictor NaN) [1000; 100; 100] t0 t40
  <> Returned (HTTPException 422 (Some "FEATURE_EXTRACTION_FAILED")).
Proof.
  refine (proj1 (proj2 (feature_extraction_never_fails Validator.settings
                   settings HRVFeatureExtractor.toy_scipy (toy_predictor NaN)
                   [1000; 100; 100] t0 t40 _ _ _))).
  - cbn; lia.
  - cbn; lia.
  - cbn; lia.
Defined.

(** In a success response the confidence is computed from the number of
    intervals the validator kept, not from the number received; when the
    validator asks for at least 40 intervals it is never LOW, and it is HIGH
    exactly when at least 60 intervals were kept. *)
Theorem success_confidence_counts_kept_intervals
    (validator : Validator.Settings) (cfg : RiskSettings)
    (scipy : HRVFeatureExtractor.SciPy) (predictor : ArrhythmiaPredictor.t)
    (rr : list Z) (s e : Validator.datetime)
    (p : num) (lvl : RiskLevel.t) (conf : Confidence.t)
    (rec : Recommendation.t) (interp : FeatureInterpretation)
    (received : Z) (duration : option Q) :
  40 <= Validator.min_rr_count validator ->
  analyze_arrhythmia validator cfg scipy predictor rr s e
  = Returned (Success p lvl conf rec interp received duration) ->
  conf <> Confidence.LOW
  /\ (conf = Confidence.HIGH
      <-> 60 <= Validator.len (Validator.kept validator rr))
  /\ (conf = Confidence.MEDIUM
      <-> Validator.len (Validator.kept validator rr) < 60)
  /\ received
     = Validator.len (Validator.kept validator rr)
       + Validator.len (Validator.dropped validator rr).
Proof.
  intros Hmin H. apply analyze_success in H. cbv zeta in H.
  destruct H as ((r & V & Hv & _) & _ & _ & _ & _ & Hc & _ & Hr).
  destruct (Validator.accepted_cleaned_is_kept validator rr s e r V Hv)
    as (_ & Hlen & _).
  pose proof (Validator.kept_dropped_length validator rr) as Hsum.
  unfold Validator.len in *.
  unfold _get_confidence in Hc. cbn [negb] in Hc.
  destruct (Z.geb_spec (Z.of_nat (length (Validator.kept validator rr))) 60)
    as [H60|H60].
  - subst conf. repeat split; try discriminate; try lia.
  - destruct (Z.geb_spec (Z.of_nat (length (Validator.kept validator rr))) 40)
      as [H40|H40]; [|lia].
    subst conf. repeat split; try discriminate; try lia.
Qed.

Lemma success_confidence_counts_kept_intervals_witness :
  Confidence.MEDIUM <> Confidence.LOW.
Proof.
  refine (proj1 (success_confidence_counts_kept_intervals
                   Validator.settings settings HRVFeatureExtractor.toy_scipy
                   (toy_predictor (Fin (1 / 2))) (repeat 1000 40) t0 t40
                   _ _ _ _ _ _ _ _ (forty_seconds_run (Fin (1 / 2))))).
  cbn; lia.
Defined.

(** A success response is coherent: the probability is a finite number
    between 0 and 1, the risk level is its classification and the
    recommendation follows the level; the request was accepted by the
    validator, its count within the configured bounds; and all 15 extracted
    features, frequency-domain and non-linear included, are finite. *)
Theorem success_response_is_coherent
    (validator : Validator.Settings) (cfg : RiskSettings)
    (scipy : HRVFeatureExtractor.SciPy) (predictor : ArrhythmiaPredictor.t)
    (rr : list Z) (s e : Validator.datetime)
    (p : num) (lvl : RiskLevel.t) (conf : Confidence.t)
    (rec : Recommendation.t) (interp : FeatureInterpretation)
    (received : Z) (duration : option Q) :
  analyze_arrhythmia validator cfg scipy predictor rr s e
  = Returned (Success p lvl conf rec interp received duration) ->
  let features :=
    HRVFeatureExtractor.extract scipy HRVFeatureExtractor.default
      (float_array (Validator.kept validator rr)) in
  (exists x : R, p = Fin x /\ (0 <= x <= 1)%R)
  /\ lvl = _classify_risk cfg p
  /\ rec = _get_recommendation lvl
  /\ (rec = Recommendation.URGENT <-> lvl = RiskLevel.HIGH)
  /\ Validator.min_rr_count validator <= received
     <= Validator.max_rr_count validator
  /\ 2 * Validator.len (Validator.dropped validator rr) <= received
  /\ ArrhythmiaPredictor.is_loaded predictor = true
  /\ forallb isfinite (HRVFeatures.to_array features) = true.
Proof.
  intros H. cbv zeta.
  pose proof H as H'. apply analyze_success in H'. cbv zeta in H'.
  destruct H' as ((r & V & Hv & _) & Hf & P & Hl & Hr & _ & _ & Hn).
  destruct (Validator.accepted_cleaned_is_kept validator rr s e r V Hv)
    as (_ & _ & Hlen & Hdrop).
  apply ArrhythmiaPredictor.predict_returns in P.
  destruct P as (model & score & Hm & _ & _ & Hfin & _ & ->).
  split; [apply ArrhythmiaPredictor.clamp_range|].
  split; [exact Hl|]. split; [exact Hr|].
  split; [subst rec; destruct (_classify_risk cfg _) eqn:E in Hl; subst lvl;
          split; intros E'; try discriminate E'; reflexivity|].
  split; [subst received; exact Hlen|].
  split; [subst received; exact Hdrop|].
  split; [unfold ArrhythmiaPredictor.is_loaded; now rewrite Hm|].
  exact Hfin.
Qed.

Lemma success_response_is_coherent_witness :
  exists x : R, ArrhythmiaPredictor.clamp (Fin (1 / 2)) = Fin x
                /\ (0 <= x <= 1)%R.
Proof.
  exact (proj1 (success_response_is_coherent
                  Validator.settings settings HRVFeatureExtractor.toy_scipy
                  (toy_predictor (Fin (1 / 2))) (repeat 1000 40) t0 t40
                  _ _ _ _ _ _ _ (forty_seconds_run (Fin (1 / 2))))).
Defined.

(** A booster score of NaN or plus infinity does not fail the request: the
    endpoint answers with probability 1, and with thresholds that do not
    exceed 1, as the shipped ones, with risk level HIGH and the recommendation
    URGENT. *)
Theorem non_finite_score_is_reported_urgent
    (validator : Validator.Settings) (cfg : RiskSettings)
    (scipy : HRVFeatureExtractor.SciPy) (predictor : ArrhythmiaPredictor.t)
    (rr : list Z) (s e : Validator.datetime)
    (p : num) (lvl : RiskLevel.t) (conf : Confidence.t)
    (rec : Recommendation.t) (interp : FeatureInterpretation)
    (received : Z) (duration : option Q)
    (model : ArrhythmiaPredictor.Booster) (score : num) :
  nlt (Fin 1) (risk_threshold_low cfg) = false ->
  nlt (Fin 1) (risk_threshold_moderate cfg) = false ->
  nlt (Fin 1) (risk_threshold_elevated cfg) = false ->
  analyze_arrhythmia validator cfg scipy predictor rr s e
  = Returned (Success p lvl conf rec interp received duration) ->
  ArrhythmiaPredictor._model predictor = Some model ->
  model (HRVFeatures.to_array
           (HRVFeatureExtractor.extract scipy HRVFeatureExtractor.default
              (float_array (Validator.kept validator rr))))
  = Returned score ->
  score = NaN \/ score = PInf ->
  p = Fin 1 /\ lvl = RiskLevel.HIGH /\ rec = Recommendation.URGENT.
Proof.
  intros T1 T2 T3 H Hm Hs Hscore.
  apply analyze_success in H. cbv zeta in H.
  destruct H as (_ & _ & P & Hl & Hr & _).
  apply ArrhythmiaPredictor.predict_returns in P.
  destruct P as (model' & score' & Hm' & _ & _ & _ & Hs' & ->).
  rewrite Hm in Hm'. injection Hm' as <-.
  rewrite Hs in Hs'. injection Hs' as <-.
  destruct ArrhythmiaPredictor.clamp_special as (C1 & C2 & _).
  assert (C : ArrhythmiaPredictor.clamp score = Fin 1)
    by (destruct Hscore as [-> | ->]; assumption).
  rewrite C in *. split; [reflexivity|].
  unfold _classify_risk in Hl. rewrite T1, T2, T3 in Hl. subst lvl.
  split; [reflexivity|exact Hr].
Qed.

Lemma non_finite_score_is_reported_urgent_witness :
  ArrhythmiaPredictor.clamp NaN = Fin 1
  /\ _classify_risk settings (ArrhythmiaPredictor.clamp NaN) = RiskLevel.HIGH
  /\ _get_recommendation
       (_classify_risk settings (ArrhythmiaPredictor.clamp NaN))
     = Recommendation.URGENT.
Proof.
  apply (non_finite_score_is_reported_urgent
           Validator.settings settings HRVFeatureExtractor.toy_scipy
           (toy_predictor NaN) (repeat 1000 40) t0 t40
           _ _ Confidence.MEDIUM _
           (_interpret_hrv (HRVFeatures.to_dict forty_seconds_features_of))
           40 (Some (40000000 # 1000000)%Q)
           (fun _ => Returned NaN) NaN).
  - cbn [settings risk_threshold_low nlt]. apply Rltb_false. lra.
  - cbn [settings risk_threshold_moderate nlt]. apply Rltb_false. lra.
  - cbn [settings risk_threshold_elevated nlt]. apply Rltb_false. lra.
  - exact (forty_seconds_run NaN).
  - reflexivity.
  - reflexivity.
  - left. reflexivity.
Defined.


(** *** The interpretation of the features *)

Lemma to_dict_lookup (f : HRVFeatures.t) :
  dict_get "sdnn" (HRVFeatures.to_dict f)
  = Some (TimeDomainFeatures.sdnn (HRVFeatures.time_domain f))
  /\ dict_get "rmssd" (HRVFeatures.to_dict f)
     = Some (TimeDomainFeatures.rmssd (HRVFeatures.time_domain f))
  /\ dict_get "lf_hf_ratio" (HRVFeatures.to_dict f)
     = Some (FrequencyDomainFeatures.lf_hf_ratio
               (HRVFeatures.frequency_domain f)).
Proof.
  destruct f as [[] [] [] n v d]. repeat split; reflexivity.
Qed.

Lemma truthy_above (x : num) (c : R) :
  (0 <= c)%R -> truthy x && ngt x (Fin c) = ngt x (Fin c).
Proof.
  intros Hc. unfold truthy, ngt. destruct x as [r| | |]; try reflexivity.
  cbn [neqb nlt].
  destruct (Rltb c r) eqn:E; [|apply andb_false_r].
  apply Rltb_lt in E. rewrite Reqb_false by lra. reflexivity.
Qed.

(** On the dictionary of extracted features [_interpret_hrv] never falls
    back on its defaults: the status and the concern are decided by the
    extracted [sdnn], [rmssd] and [lf_hf_ratio].  The truth test on the ratio
    changes nothing, a status of severely_reduced always comes with a concern,
    and a NaN [sdnn] is reported as elevated. *)
Theorem interpretation_reads_extracted_features (f : HRVFeatures.t) :
  let i := _interpret_hrv (HRVFeatures.to_dict f) in
  let sdnn := TimeDomainFeatures.sdnn (HRVFeatures.time_domain f) in
  let rmssd := TimeDomainFeatures.rmssd (HRVFeatures.time_domain f) in
  let ratio :=
    FrequencyDomainFeatures.lf_hf_ratio (HRVFeatures.frequency_domain f) in
  (hrv_status i = "severely_reduced" <-> nlt sdnn (Fin 20) = true)
  /\ (dominant_concern i = Some "possible_atrial_fibrillation"
      <-> ngt rmssd (Fin 100) = true)
  /\ (dominant_concern i = Some "elevated_sympathetic_tone"
      <-> ngt rmssd (Fin 100) = false /\ ngt ratio (Fin 4) = true)
  /\ (dominant_concern i = None
      <-> ngt rmssd (Fin 100) = false /\ ngt ratio (Fin 4) = false
          /\ nlt sdnn (Fin 20) = false)
  /\ (hrv_status i = "severely_reduced" -> dominant_concern i <> None)
  /\ (sdnn = NaN -> hrv_status i = "elevated").
Proof.
  cbv zeta. unfold _interpret_hrv, dict_get_default.
  destruct (to_dict_lookup f) as (-> & -> & ->).
  rewrite truthy_above by lra.
  cbn [hrv_status dominant_concern].
  set (sdnn := TimeDomainFeatures.sdnn (HRVFeatures.time_domain f)).
  set (rmssd := TimeDomainFeatures.rmssd (HRVFeatures.time_domain f)).
  set (ratio := FrequencyDomainFeatures.lf_hf_ratio
                  (HRVFeatures.frequency_domain f)).
  split; [|split; [|split; [|split; [|split]]]].
  - destruct (nlt sdnn (Fin 20)); [tauto|].
    destruct (nlt sdnn (Fin 50)), (nlt sdnn (Fin 100));
      split; intros E; discriminate E.
  - destruct (ngt rmssd (Fin 100)); [tauto|].
    destruct (ngt ratio (Fin 4)), (nlt sdnn (Fin 20));
      split; intros E; discriminate E.
  - destruct (ngt rmssd (Fin 100)).
    + split; [intros E; discriminate E|intros [E _]; discriminate E].
    + destruct (ngt ratio (Fin 4)); [tauto|].
      destruct (nlt sdnn (Fin 20));
        (split; [intros E; discriminate E|intros [_ E]; discriminate E]).
  - destruct (ngt rmssd (Fin 100)).
    + split; [intros E; discriminate E|intros [E _]; discriminate E].
    + destruct (ngt ratio (Fin 4)).
      * split; [intros E; discriminate E|intros (_ & E & _); discriminate E].
      * destruct (nlt sdnn (Fin 20)); [|tauto].
        split; [intros E; discriminate E|intros (_ & _ & E); discriminate E].
  - destruct (nlt sdnn (Fin 20)).
    + intros _. destruct (ngt rmssd (Fin 100)); [discriminate|].
      destruct (ngt ratio (Fin 4)); discriminate.
    + destruct (nlt sdnn (Fin 50)), (nlt sdnn (Fin 100));
        intros E; discriminate E.
  - intros E. rewrite E. reflexivity.
Qed.

End Routes.
